(** * ITK transform-file handling of qsiprep ([qsiprep/interfaces/itk.py])

    A shallow embedding of the module's functions and the properties of
    its specification.  Paths, file contents and command lines are
    [string]s (sequences of code points below 256), Python [int]s are [Z]
    or [nat], dictionaries are [gmap]s, and a function that touches files
    or may raise is a computation in a state-and-exception monad. *)

From Stdlib Require Import Ascii String ZArith List Lia.
From stdpp Require Import base option list gmap sets strings pretty.

(** ** Python builtins used by the module *)

Module Py.

(** The line feed and the two-character sequence backslash, n. *)
Definition LF : string := String (ascii_of_nat 10) EmptyString.
Definition BSLASH_N : string := "\n".

(** [str.isspace] for one code point below 256: tab, line feed, vertical
    tab, form feed, carriage return, the separators 0x1c-0x1f, space,
    NEL (0x85) and the no-break space (0xa0). *)
Definition isspace (c : ascii) : bool :=
  let n := nat_of_ascii c in
  ((9 <=? n) && (n <=? 13)) || ((28 <=? n) && (n <=? 32))
  || (n =? 133) || (n =? 160).

Fixpoint lstrip (s : string) : string :=
  match s with
  | EmptyString => EmptyString
  | String c s' => if isspace c then lstrip s' else s
  end.

Fixpoint rstrip (s : string) : string :=
  match s with
  | EmptyString => EmptyString
  | String c s' =>
      match rstrip s' with
      | EmptyString => if isspace c then EmptyString else String c EmptyString
      | r => String c r
      end
  end.

(** [s.strip()] *)
Definition strip (s : string) : string := rstrip (lstrip s).

(** [s.startswith(p)] *)
Fixpoint startswith (p s : string) : bool :=
  match p, s with
  | EmptyString, _ => true
  | String a p', String b s' => if decide (a = b) then startswith p' s' else false
  | String _ _, EmptyString => false
  end.

(** [s.count(sub)] for a non-empty [sub]: occurrences are counted from the
    left and do not overlap; [skip] is the number of characters of the
    last match still to be passed over. *)
Fixpoint count_go (sub : string) (skip : nat) (s : string) : nat :=
  match s with
  | EmptyString => 0
  | String _ s' =>
      match skip with
      | S k => count_go sub k s'
      | O => if startswith sub s
             then S (count_go sub (String.length sub - 1) s')
             else count_go sub 0 s'
      end
  end.

Definition count (sub s : string) : nat := count_go sub 0 s.

(** [s.split(sep)] for a non-empty [sep]; [cur] is the piece being read. *)
Fixpoint split_go (sep : string) (skip : nat) (cur s : string) : list string :=
  match s with
  | EmptyString => [cur]
  | String c s' =>
      match skip with
      | S k => split_go sep k cur s'
      | O => if startswith sep s
             then cur :: split_go sep (String.length sep - 1) EmptyString s'
             else split_go sep 0 (cur +:+ String c EmptyString) s'
      end
  end.

Definition split (sep s : string) : list string := split_go sep 0 EmptyString s.

(** [s.split()]: the maximal runs of non-whitespace characters. *)
Fixpoint split_ws_go (cur : string) (s : string) : list string :=
  match s with
  | EmptyString => match cur with EmptyString => [] | _ => [cur] end
  | String c s' =>
      if isspace c
      then match cur with
           | EmptyString => split_ws_go EmptyString s'
           | _ => cur :: split_ws_go EmptyString s'
           end
      else split_ws_go (cur +:+ String c EmptyString) s'
  end.

Definition split_ws (s : string) : list string := split_ws_go EmptyString s.

(** [sep.join(parts)] *)
Fixpoint join (sep : string) (parts : list string) : string :=
  match parts with
  | [] => EmptyString
  | [x] => x
  | x :: rest => x +:+ sep +:+ join sep rest
  end.

(** [sep.join(x :: parts)] is [x] followed by every other part with
    [sep] before it. *)
Fixpoint join_tail (sep : string) (parts : list string) : string :=
  match parts with
  | [] => EmptyString
  | y :: rest => sep +:+ y +:+ join_tail sep rest
  end.

(** [all(p(c) for c in s)] *)
Fixpoint all_chars (p : ascii -> bool) (s : string) : bool :=
  match s with
  | EmptyString => true
  | String c s' => p c && all_chars p s'
  end.

(** [l.index(x)]: the first position of [x], [None] where Python raises
    [ValueError]. *)
Fixpoint index (x : string) (l : list string) : option nat :=
  match l with
  | [] => None
  | y :: l' => if decide (y = x) then Some 0 else S <$> index x l'
  end.

(** [l[a:b]] for [0 <= a <= b] *)
Definition slice {A} (a b : nat) (l : list A) : list A := take (b - a) (drop a l).

(** [[x] * n]: empty for [n <= 0] *)
Definition times {A} (x : A) (n : Z) : list A := replicate (Z.to_nat n) x.

(** [list(map(list, zip( *rows)))]: the transposition, cut at the shortest
    row; no rows give no columns. *)
Definition zip_star {A} (rows : list (list A)) : list (list A) :=
  match rows with
  | [] => []
  | r :: rs =>
      let n := foldr Nat.min (length r) (length <$> rs) in
      (fun j => omap (fun row : list A => row !! j) rows) <$> seq 0 n
  end.

(** ['%0<w>d' % n] for a natural number: decimal, zero-padded to [w]. *)
Definition zpad (w n : nat) : string :=
  let d := pretty n in
  string_of_list_ascii (replicate (w - String.length d) "0"%char) +:+ d.

Definition hexdigit (n : nat) : ascii :=
  match n with
  | 0 => "0" | 1 => "1" | 2 => "2" | 3 => "3" | 4 => "4" | 5 => "5"
  | 6 => "6" | 7 => "7" | 8 => "8" | 9 => "9" | 10 => "a" | 11 => "b"
  | 12 => "c" | 13 => "d" | 14 => "e" | _ => "f"
  end%char.

Fixpoint mem (c : ascii) (s : string) : bool :=
  match s with
  | EmptyString => false
  | String d s' => if decide (d = c) then true else mem c s'
  end.

(** [str(b)] of a [bytes] object [b], that is [repr(b)]: the letter b, a
    quote (a double quote when [b] holds a single quote and no double
    quote), the bytes with backslash, the quote, tab, line feed and
    carriage return escaped and every other byte outside 0x20-0x7e
    written [\xNN], and the quote again. *)
Definition dquote : ascii := ascii_of_nat 34.

Definition repr_quote (b : string) : ascii :=
  if mem "'"%char b && negb (mem dquote b) then dquote else "'"%char.

Definition repr_byte (q c : ascii) : string :=
  let n := nat_of_ascii c in
  if decide (c = q) then String "\"%char (String c EmptyString)
  else if decide (c = "\"%char) then String "\"%char (String c EmptyString)
  else if n =? 9 then "\t"
  else if n =? 10 then "\n"
  else if n =? 13 then "\r"
  else if (n <? 32) || (127 <=? n)
       then String "\"%char (String "x"%char
              (String (hexdigit (n / 16)) (String (hexdigit (n mod 16)) EmptyString)))
  else String c EmptyString.

Fixpoint repr_body (q : ascii) (b : string) : string :=
  match b with
  | EmptyString => EmptyString
  | String c b' => repr_byte q c +:+ repr_body q b'
  end.

Definition bytes_repr (b : string) : string :=
  let q := repr_quote b in
  String "b"%char (String q (repr_body q b +:+ String q EmptyString)).

Fixpoint last_char (s : string) : option ascii :=
  match s with
  | EmptyString => None
  | String c EmptyString => Some c
  | String _ s' => last_char s'
  end.

(** The string ends with a character that is not whitespace. *)
Definition ends_visibly (s : string) : bool :=
  match last_char s with
  | Some c => negb (isspace c)
  | None => false
  end.

Definition is_digit (c : ascii) : bool :=
  let n := nat_of_ascii c in (48 <=? n) && (n <=? 57).

(** [os.path.join(a, b)] on POSIX *)
Definition path_join (a b : string) : string :=
  if startswith "/" b then b
  else match last_char a with
       | None => b
       | Some c => if decide (c = "/"%char) then a +:+ b else a +:+ "/" +:+ b
       end.

End Py.

(** ** Exceptions and computations *)

Inductive exn :=
| RuntimeError (msg : string)
| ValueError (msg : string)
| IndexError (msg : string)
| Exception (msg : string)
| FileNotFoundError (path : string)
| OSError (msg : string)
| AssertionError
| CancelledError
| ToolError (msg : string).

Inductive result (A : Type) :=
| Ok (a : A)
| Raise (e : exn).
Arguments Ok {A} a.
Arguments Raise {A} e.

(** A computation over a state [S]: it returns a value or raises, and
    leaves the state as it is at that point. *)
Definition M (S A : Type) : Type := S -> result A * S.

Definition ret {S A} (a : A) : M S A := fun s => (Ok a, s).
Definition raise {S A} (e : exn) : M S A := fun s => (Raise e, s).
Definition bind {S A B} (c : M S A) (k : A -> M S B) : M S B :=
  fun s => match c s with
           | (Ok a, s') => k a s'
           | (Raise e, s') => (Raise e, s')
           end.
Definition lift {S A} (r : result A) : M S A := fun s => (r, s).
Definition gets {S A} (f : S -> A) : M S A := fun s => (Ok (f s), s).
Definition modify {S} (f : S -> S) : M S unit := fun s => (Ok tt, f s).

Notation "x <~ c ; k" := (bind c (fun x => k))
  (at level 20, c at level 100, k at level 200, only parsing).

(** A [for] loop (or list comprehension) that collects one value per
    element, in order, and stops at the first exception. *)
Fixpoint for_each {S A B} (f : A -> M S B) (l : list A) : M S (list B) :=
  match l with
  | [] => ret []
  | x :: l' => y <~ f x; ys <~ for_each f l'; ret (y :: ys)
  end.

(** ** External collaborators *)

(** Library functions that build and classify paths. *)
Class FileNaming := {
  (** [mimetypes.guess_type(path)[0]] *)
  guess_type : string -> option string;
  (** nipype's [fname_presuffix(fname, suffix=..., newpath=..., use_ext=True)] *)
  fname_presuffix : string -> string -> string -> string;
  (** [template.format(n)]: the text, or the error that [str.format]
      raises on a template it cannot fill in (a single brace, a field
      without an argument, ...) *)
  str_format : string -> nat -> result string
}.

(** ** [_arrange_xfms]: one list of transform files per input volume *)

Module Arrange.
Section defs.
Context `{FileNaming}.

(** The text files, by path. *)
Abbreviation fsys := (gmap string string).

(** [open(path).read()] *)
Definition read_text (path : string) : M fsys string :=
  fun fs => match fs !! path with
            | Some t => (Ok t, fs)
            | None => (Raise (FileNotFoundError path), fs)
            end.

(** [open(path, 'w').write(text)] *)
Definition write_text (path text : string) : M fsys unit :=
  modify (fun fs : fsys => <[path := text]> fs).

Definition base_xform : list string :=
  ["#Insight Transform File V1.0"; "#Transform 0"].

(** [tfdata.startswith('#Insight Transform File')] *)
Definition is_itk (tfdata : string) : bool :=
  Py.startswith "#Insight Transform File" tfdata.

(** [tfdata.count('#Transform')] *)
Definition count_xforms (tfdata : string) : nat := Py.count "#Transform" tfdata.

(** [tfdata.split('\n')[1:]] *)
Definition body_lines (tfdata : string) : list string := tail (Py.split Py.LF tfdata).

(** ['#Transform %d' % xform_i] *)
Definition start_token (xform_i : nat) : string := "#Transform " +:+ pretty xform_i.

(** [tfdata[startidx + 1:startidx + 4]] with
    [startidx = tfdata.index('#Transform %d' % xform_i)] *)
Definition extract_block (tfdata : list string) (xform_i : nat) : option (list string) :=
  startidx ← Py.index (start_token xform_i) tfdata;
  Some (Py.slice (startidx + 1) (startidx + 4) tfdata).

(** ['\n'.join(base_xform + block + [''])] *)
Definition standalone (block : list string) : string :=
  Py.join Py.LF (base_xform ++ block ++ [EmptyString]).

(** One round of the inner loop: write block [xform_i] as a file of its
    own.  [tfdata.index] may raise (line 211), then [out_base] (line 213). *)
Definition split_xform (tfdata : list string) (out_base : nat -> result string)
    (xform_i : nat) : M fsys string :=
  match extract_block tfdata xform_i with
  | None => raise (ValueError ("'" +:+ start_token xform_i +:+ "' is not in list"))
  | Some block =>
      xfm_file <~ lift (out_base xform_i);
      _ <~ write_text xfm_file (standalone block);
      ret xfm_file
  end.

Definition count_mismatch (nxforms : nat) (num_files : Z) : exn :=
  RuntimeError ("Number of transforms (" +:+ pretty nxforms
    +:+ ") found in the ITK file does not match the number of input image files ("
    +:+ pretty num_files +:+ ").").

(** One round of the outer loop: the row of [xfms_T] for the transform
    at position [i]. *)
Definition arrange_source (num_files : Z) (tmp_folder : string) (i : nat)
    (tf_file : string) : M fsys (list string) :=
  if decide (guess_type tf_file <> Some "text/plain") then ret (Py.times tf_file num_files)
  else
    raw <~ read_text tf_file;
    let tfdata := Py.strip raw in
    if negb (is_itk tfdata) then ret (Py.times tf_file num_files)
    else
      let nxforms := count_xforms tfdata in
      let tfdata := body_lines tfdata in
      if decide (nxforms = 1) then ret (Py.times tf_file num_files)
      else if decide (Z.of_nat nxforms <> num_files)
      then raise (count_mismatch nxforms num_files)
      else
        let out_base := str_format
          (fname_presuffix tf_file ("_pos-" +:+ Py.zpad 3 i +:+ "_xfm-{:05d}") tmp_folder) in
        for_each (split_xform tfdata out_base) (seq 0 nxforms).

Fixpoint arrange_loop (num_files : Z) (tmp_folder : string) (i : nat)
    (transforms : list string) (xfms_T : list (list string))
    : M fsys (list (list string)) :=
  match transforms with
  | [] => ret xfms_T
  | tf_file :: rest =>
      row <~ arrange_source num_files tmp_folder i tf_file;
      arrange_loop num_files tmp_folder (S i) rest (xfms_T ++ [row])
  end.

Definition _arrange_xfms (transforms : list string) (num_files : Z)
    (tmp_folder : string) : M fsys (list (list string)) :=
  xfms_T <~ arrange_loop num_files tmp_folder 0 transforms [];
  ret (Py.zip_star xfms_T).

(** A transform block: the three lines after its [#Transform N] line. *)
Record block := Block {
  transform_type : string;
  parameters : string;
  fixed_parameters : string
}.

Definition block_lines (b : block) : list string :=
  [transform_type b; parameters b; fixed_parameters b].

(** The lines of the blocks, numbered from [n] on. *)
Fixpoint blocks_lines (n : nat) (blocks : list block) : list string :=
  match blocks with
  | [] => []
  | b :: rest => start_token n :: block_lines b ++ blocks_lines (S n) rest
  end.

(** A container file: the format line with its version, then the blocks
    numbered from 0, the lines separated by line feeds, and whatever
    follows the last line ([trailer]: a line feed, as a rule). *)
Definition container_text (version : string) (blocks : list block) (trailer : string)
    : string :=
  Py.join Py.LF (("#Insight Transform File" +:+ version) :: blocks_lines 0 blocks)
  +:+ trailer.

(** A data line holds no line feed and no [#]. *)
Definition data_line (l : string) : bool :=
  negb (Py.mem "#"%char l) && negb (Py.mem (ascii_of_nat 10) l).

(** A well-formed block has three data lines, the last of which is not
    blank; a well-formed container has a version that is a data line,
    well-formed blocks, and only whitespace after its last line. *)
Definition well_formed (b : block) : bool :=
  data_line (transform_type b) && data_line (parameters b)
  && data_line (fixed_parameters b)
  && negb (Py.all_chars Py.isspace (fixed_parameters b)).

(** A block without the whitespace at the end of its last line. *)
Definition rtrim (b : block) : block :=
  Block (transform_type b) (parameters b) (Py.rstrip (fixed_parameters b)).

(** The blocks as [tfdata] holds them (lines 182 and 193): [strip] takes
    the whitespace from the end of the text, so from the end of the last
    line of the last block. *)
Fixpoint as_read (blocks : list block) : list block :=
  match blocks with
  | [] => []
  | [b] => [rtrim b]
  | b :: rest => b :: as_read rest
  end.

Definition well_formed_container (version : string) (blocks : list block)
    (trailer : string) : bool :=
  data_line version && forallb well_formed blocks && Py.all_chars Py.isspace trailer.

(** The files after the blocks have been written, block [i] to
    [out_base i], in order. *)
Definition written (out_base : nat -> string) (blocks : list block) (fs : fsys) : fsys :=
  foldl (fun acc p => <[out_base p.1 := standalone (block_lines p.2)]> acc) fs
        (zip (seq 0 (length blocks)) blocks).

(** Every file of [fs] is a file of [fs']. *)
Definition files_kept (fs fs' : fsys) : Prop :=
  forall path, is_Some (fs !! path) -> is_Some (fs' !! path).

(** A source that goes to every volume as it is (lines 177, 185, 196). *)
Definition constant_case (fs : fsys) (tf_file : string) : Prop :=
  guess_type tf_file <> Some "text/plain"
  \/ exists raw, fs !! tf_file = Some raw
       /\ (is_itk (Py.strip raw) = false \/ count_xforms (Py.strip raw) = 1).

End defs.
End Arrange.

(** ** [MultiApplyTransforms]: one resampling job per volume *)

Module Executor.

(** The values of the options dictionary. *)
Inductive pyval :=
| VNone
| VBool (b : bool)
| VInt (z : Z)
| VStr (s : string).

(** Truth value of an object in an [if]. *)
Definition truthy (v : pyval) : bool :=
  match v with
  | VNone => false
  | VBool b => b
  | VInt z => negb (z =? 0)%Z
  | VStr s => negb (String.length s =? 0)
  end.

(** A NIfTI image on disk: the voxel data type of its header and its data. *)
Record nifti (V : Type) := Nifti { data_dtype : string; dataobj : V }.
Arguments Nifti {V} _ _.
Arguments data_dtype {V} _.
Arguments dataobj {V} _.

(** The [ApplyTransforms] interface ([FixHeaderApplyTransforms]) and the
    conversion of voxel data nibabel does when it writes an image. *)
Class AntsApply (V : Type) := {
  (** [ApplyTransforms(input_image, transforms, output_image, **ifargs).run()]:
      the image files after the run, or the exception it raises *)
  apply_run : string -> list string -> string -> gmap string pyval ->
              gmap string (nifti V) -> result (gmap string (nifti V));
  (** [runtime.cmdline] of that run, which nipype builds from the inputs *)
  apply_cmdline : string -> list string -> string -> gmap string pyval -> string;
  (** the data as written under another data type *)
  recast : string -> V -> V
}.

Inductive event :=
| PoolCreated (max_workers : option Z)
| JobStarted (index : nat)
| Rewritten (path : string).

(** What a run can see and change: the image and text files, the
    directories made by [TemporaryDirectory], the dictionary [ifargs]
    that every job's argument tuple refers to, and a record of the pool
    creation, job starts and image rewrites in the order they happen. *)
Record world (V : Type) := World {
  images : gmap string (nifti V);
  texts : gmap string string;
  dirs : gset string;
  ifargs : gmap string pyval;
  trace : list event
}.
Arguments World {V} _ _ _ _ _.
Arguments images {V} _.
Arguments texts {V} _.
Arguments dirs {V} _.
Arguments ifargs {V} _.
Arguments trace {V} _.

(** The indices of the jobs started and the pools created, in order. *)
Definition job_starts (evs : list event) : list nat :=
  omap (fun e => match e with JobStarted i => Some i | _ => None end) evs.
Definition pools_created (evs : list event) : list (option Z) :=
  omap (fun e => match e with PoolCreated n => Some n | _ => None end) evs.

(** The image files rewritten, in order. *)
Definition rewrites (evs : list event) : list string :=
  omap (fun e => match e with Rewritten path => Some path | _ => None end) evs.

(** The inputs of a run.  [input_image] is a mandatory [InputMultiPath]:
    the traits hand no empty list to [_run_interface], which the record
    does not enforce. *)
Record inputs := Inputs {
  input_image : list string;
  transforms : list (list string);
  num_threads : Z;
  save_cmd : bool;
  copy_dtype : bool;
  (** the remaining traits of [ApplyTransformsInputSpec] *)
  other_inputs : gmap string pyval
}.

Record outputs := Outputs {
  out_files : list string;
  log_cmdline : option string
}.

Section defs.
Context {V : Type} `{FileNaming} `{AntsApply V}.

Definition set_images (f : gmap string (nifti V) -> gmap string (nifti V))
    (w : world V) : world V :=
  World (f (images w)) (texts w) (dirs w) (ifargs w) (trace w).
Definition set_texts (f : gmap string string -> gmap string string)
    (w : world V) : world V :=
  World (images w) (f (texts w)) (dirs w) (ifargs w) (trace w).
Definition set_dirs (f : gset string -> gset string) (w : world V) : world V :=
  World (images w) (texts w) (f (dirs w)) (ifargs w) (trace w).
Definition set_ifargs (f : gmap string pyval -> gmap string pyval)
    (w : world V) : world V :=
  World (images w) (texts w) (dirs w) (f (ifargs w)) (trace w).
Definition log_event (e : event) : M (world V) unit :=
  modify (fun w => World (images w) (texts w) (dirs w) (ifargs w) (trace w ++ [e])).

(** [ifargs.pop(key, default)] on the shared dictionary *)
Definition ifargs_pop (key : string) (dflt : pyval) : M (world V) pyval :=
  fun w => (Ok (default dflt (ifargs w !! key)), set_ifargs (delete key) w).

(** [nb.load(path)] *)
Definition nb_load (path : string) : M (world V) (nifti V) :=
  fun w => match images w !! path with
           | Some img => (Ok img, w)
           | None => (Raise (FileNotFoundError path), w)
           end.

(** [nii.to_filename(path)] *)
Definition to_filename (nii : nifti V) (path : string) : M (world V) unit :=
  _ <~ log_event (Rewritten path);
  modify (set_images (fun m => <[path := nii]> m)).

(** [nii.set_data_dtype(dtype)]; the data are converted when written *)
Definition set_data_dtype (nii : nifti V) (dtype : string) : nifti V :=
  Nifti dtype (recast dtype (dataobj nii)).

(** [xfm.run()] *)
Definition xfm_run (in_file : string) (in_xform : list string) (out_file : string)
    (kwargs : gmap string pyval) : M (world V) unit :=
  fun w => match apply_run in_file in_xform out_file kwargs (images w) with
           | Ok imgs => (Ok tt, set_images (fun _ => imgs) w)
           | Raise e => (Raise e, w)
           end.

(** The argument tuple [(in_file, in_xform, ifargs, index, newpath)];
    its third component is the one dictionary held in the [world]. *)
Definition job : Type := string * list string * nat * string.

Definition job_out_file (args : job) : string :=
  let '(in_file, _, index, newpath) := args in
  fname_presuffix in_file ("_xform-" +:+ Py.zpad 5 index) newpath.

Definition _applytfms (args : job) : M (world V) (string * string) :=
  let '(in_file, in_xform, index, newpath) := args in
  let out_file := fname_presuffix in_file ("_xform-" +:+ Py.zpad 5 index) newpath in
  _ <~ log_event (JobStarted index);
  copy_dtype <~ ifargs_pop "copy_dtype" (VBool false);
  kwargs <~ gets ifargs;
  _ <~ xfm_run in_file in_xform out_file kwargs;
  _ <~ (if truthy copy_dtype then
          nii <~ nb_load out_file;
          src <~ nb_load in_file;
          let in_dtype := data_dtype src in
          if decide (in_dtype <> data_dtype nii)
          then to_filename (set_data_dtype nii in_dtype) out_file
          else ret tt
        else ret tt);
  ret (out_file, apply_cmdline in_file in_xform out_file kwargs).

(** The state a job leaves once it has taken [copy_dtype] out of the
    shared dictionary, with the image files [imgs] and the events [more]
    after its start. *)
Definition popped (w : world V) (index : nat) (imgs : gmap string (nifti V))
    (more : list event) : world V :=
  World imgs (texts w) (dirs w) (delete "copy_dtype" (ifargs w))
        (trace w ++ JobStarted index :: more).

(** The command line a job reports when it runs with the options [kwargs]. *)
Definition job_cmdline (kwargs : gmap string pyval) (args : job) : string :=
  let '(in_file, in_xform, _, _) := args in
  apply_cmdline in_file in_xform (job_out_file args) kwargs.

Definition job_index (args : job) : nat := let '(_, _, index, _) := args in index.

(** What job [args] returns when it runs to its end. *)
Definition job_result (kwargs : gmap string pyval) (args : job) : string * string :=
  (job_out_file args, job_cmdline kwargs args).

(** The argument tuples in submission order:
    [enumerate(zip(in_files, xfms_list))] *)
Definition make_jobs (in_files : list string) (xfms_list : list (list string))
    (cwd : string) : list job :=
  imap (fun i '(in_file, in_xfm) => (in_file, in_xfm, i, cwd)) (zip in_files xfms_list).

(** [list(pool.map(_applytfms, jobs))] of a [ThreadPoolExecutor].  Every
    job is submitted and gets a future, numbered as the jobs are; the
    workers run the jobs in some order [sched], each storing what its job
    returned or raised in the job's future; the results are then read from
    the futures in submission order, and the first future that holds an
    exception raises it. *)
Definition run_scheduled (jobs : list job)
    (acc : gmap nat (result (string * string)) * world V) (i : nat)
    : gmap nat (result (string * string)) * world V :=
  match jobs !! i with
  | Some args => let '(r, w') := _applytfms args acc.2 in (<[i := r]> acc.1, w')
  | None => acc
  end.

Definition future_result (futures : gmap nat (result (string * string))) (i : nat)
    : M (world V) (string * string) :=
  match futures !! i with
  | Some (Ok r) => ret r
  | Some (Raise e) => raise e
  | None => raise CancelledError
  end.

Definition pool_map (sched : list nat) (jobs : list job)
    : M (world V) (list (string * string)) :=
  fun w =>
    let '(futures, w') := foldl (run_scheduled jobs) (∅, w) sched in
    for_each (future_result futures) (seq 0 (length jobs)) w'.

(** [TemporaryDirectory(prefix='tmp-', dir=cwd)]; [name] is the fresh
    directory name the system picks. *)
Definition TemporaryDirectory (name : string) : M (world V) string :=
  _ <~ modify (set_dirs (fun d => {[name]} ∪ d));
  ret name.

Definition outside (dir path : string) : bool :=
  negb (Py.startswith (dir +:+ "/") path).

(** [tmp_folder.cleanup()]: the directory and the files in it are removed. *)
Definition cleanup (name : string) : M (world V) unit :=
  modify (fun w =>
    World (filter (fun kv => outside name kv.1 = true) (images w))
          (filter (fun kv => outside name kv.1 = true) (texts w))
          (dirs w ∖ {[name]}) (ifargs w) (trace w)).

(** [open(path, 'w')] with [print(text, file=...)] *)
Definition print_to (path text : string) : M (world V) unit :=
  modify (set_texts (fun m => <[path := text +:+ Py.LF]> m)).

(** [self.inputs.get()] without the keys popped or removed in lines 86-96 *)
Definition initial_ifargs (inp : inputs) : gmap string pyval :=
  foldr delete (<["copy_dtype" := VBool (copy_dtype inp)]> (other_inputs inp))
    ["input_image"; "transforms"; "num_threads"; "save_cmd";
     "environ"; "ignore_exception"; "terminal_output"; "output_image"].

(** Lines 106-107: a worker count below one becomes [None]. *)
Definition effective_threads (n : Z) : option Z :=
  if (n <? 1)%Z then None else Some n.

Definition cmd_separator : string := Py.LF +:+ "-------" +:+ Py.LF.

(** Lines 109-120: the list comprehension, or the pool and its [map]. *)
Definition run_jobs (num_threads : option Z) (sched : list nat) (jobs : list job)
    : M (world V) (list (string * string)) :=
  if decide (num_threads = Some 1%Z)
  then for_each _applytfms jobs
  else _ <~ log_event (PoolCreated num_threads);
       pool_map sched jobs.

Definition _run_interface (inp : inputs) (cwd tmp_name : string) (sched : list nat)
    : M (world V) outputs :=
  _ <~ modify (set_ifargs (fun _ => initial_ifargs inp));
  let in_files := input_image inp in
  let num_files := length in_files in
  tmp_folder <~ TemporaryDirectory tmp_name;
  let xfms_list := transforms inp in
  if decide (length xfms_list <> num_files) then raise AssertionError
  else
    let num_threads := effective_threads (num_threads inp) in
    let jobs := make_jobs in_files xfms_list cwd in
    results <~ run_jobs num_threads sched jobs;
    _ <~ cleanup tmp_folder;
    let outs := fst <$> results in
    if save_cmd inp then
      let path := Py.path_join cwd "command.txt" in
      _ <~ print_to path (Py.join cmd_separator (snd <$> results));
      ret (Outputs outs (Some path))
    else ret (Outputs outs None).

(** The state in which the jobs start, and the state in which a run that
    got the results [rs] from its jobs ends. *)
Definition started (inp : inputs) (tmp_name : string) (w : world V) : world V :=
  World (images w) (texts w) ({[tmp_name]} ∪ dirs w) (initial_ifargs inp) (trace w).

Definition finished (inp : inputs) (cwd tmp_name : string)
    (rs : list (string * string)) (w : world V) : world V :=
  let kept := filter (fun kv => outside tmp_name kv.1 = true) (texts w) in
  World (filter (fun kv => outside tmp_name kv.1 = true) (images w))
        (if save_cmd inp
         then <[Py.path_join cwd "command.txt" :=
                  Py.join cmd_separator (snd <$> rs) +:+ Py.LF]> kept
         else kept)
        (dirs w ∖ {[tmp_name]}) (ifargs w) (trace w).

(** The part of the state that jobs leave alone. *)
Definition same_frame (w w' : world V) : Prop :=
  texts w' = texts w /\ dirs w' = dirs w
  /\ delete "copy_dtype" (ifargs w') = delete "copy_dtype" (ifargs w).

Definition is_ok {A} (r : result A) : Prop := exists a, r = Ok a.

(** Every argument tuple carries its own position. *)
Definition indexed (jobs : list job) : Prop :=
  forall i args, jobs !! i = Some args -> job_index args = i.

(** Job [args] runs to its end whenever the image files satisfy [Inv],
    and leaves them so. *)
Definition job_succeeds (Inv : gmap string (nifti V) -> Prop) (args : job) : Prop :=
  forall w : world V, Inv (images w) ->
    exists r w', _applytfms args w = (Ok r, w') /\ Inv (images w').

End defs.
End Executor.

(** ** [DisassembleTransform]: a composite transform into affine and warp *)

Module Disassemble.

(** [subprocess.Popen(cmd, ...).communicate()]: the paths that exist once
    the process has ended and its exit status, or [None] when the process
    cannot be started. *)
Class Subprocess := {
  communicate : list string -> gset string -> option (gset string * Z)
}.

Section defs.
Context `{Subprocess}.

Definition affine_out (cwd : string) : string :=
  cwd +:+ "/00_disassemble_AffineTransform.mat".
Definition warp_out (cwd : string) : string :=
  cwd +:+ "/01_disassemble_DisplacementFieldTransform.nii.gz".

(** [op.exists(path)] *)
Definition exists_ (files : gset string) (path : string) : bool :=
  bool_decide (path ∈ files).

Definition _run_interface (in_file cwd : string) : M (gset string) (list string) :=
  fun files =>
    let cmd := ["CompositeTransformUtil"; "--disassemble"; in_file; "disassemble"] in
    match communicate cmd files with
    | None => (Raise (OSError "CompositeTransformUtil"), files)
    | Some (files', _) =>
        if bool_decide (false ∈ [exists_ files' (affine_out cwd);
                                 exists_ files' (warp_out cwd)])
        then (Raise (Exception "unable to unpack composite transform"), files')
        else (Ok [affine_out cwd; warp_out cwd], files')
    end.

End defs.
End Disassemble.

(** ** [compose_affines]: one affine from several *)

Module Compose.

(** [os.system(cmd)]: the paths that exist once the shell command has
    ended, and its exit status. *)
Class Shell := {
  system : string -> gset string -> gset string * Z
}.

Section defs.
Context `{Shell}.

(** The command line of lines 225-227. *)
Definition compose_cmd (reference_image : string) (affine_list : list string)
    (output_file : string) : string :=
  ("antsApplyTransforms -d 3 -r " +:+ reference_image
     +:+ " -o Linear[" +:+ output_file +:+ ", 1] ")
  +:+ Py.join " " ((fun trf => "--transform " +:+ trf) <$> affine_list).

Definition compose_affines (reference_image : string) (affine_list : list string)
    (output_file : string) : M (gset string) string :=
  fun files =>
    let cmd := compose_cmd reference_image affine_list output_file in
    let '(files', _) := system cmd files in
    if bool_decide (output_file ∈ files') then (Ok output_file, files')
    else (Raise AssertionError, files').

End defs.
End Compose.

(** ** [rotation_matrix_from_transform] *)

Module Rotation.

(** The process [antsTransformInfo] and Python's [float]. *)
Class TransformInfo (F : Type) := {
  (** the bytes the process writes to its standard output *)
  info_stdout : list string -> option string;
  (** [float(token)], [None] where it raises [ValueError] *)
  float : string -> option F
}.

(** A printable character other than the backslash and the single
    quote: [str] of a [bytes] object shows it as it is. *)
Definition plain_char (c : ascii) : bool :=
  let n := nat_of_ascii c in
  (32 <=? n) && (n <? 127) && negb (n =? 92) && negb (n =? 39).

Definition plain_line (s : string) : bool := Py.all_chars plain_char s.

Section defs.
Context {F : Type} `{TransformInfo F}.

(** [[linenum for linenum, contents in enumerate(lines) if contents == "Matrix:"]],
    with [linenum] counting from [n] *)
Fixpoint start_lines_from (n : nat) (lines : list string) : list nat :=
  match lines with
  | [] => []
  | contents :: rest =>
      if decide (contents = "Matrix:") then n :: start_lines_from (S n) rest
      else start_lines_from (S n) rest
  end.

Definition start_lines_of (lines : list string) : list nat := start_lines_from 0 lines.

Definition parse_row (line : string) : result (list F) :=
  match mapM float (Py.split_ws line) with
  | Some row => Ok row
  | None => Raise (ValueError "could not convert string to float")
  end.

Fixpoint parse_rows (lines : list string) : result (list (list F)) :=
  match lines with
  | [] => Ok []
  | l :: ls =>
      match parse_row l with
      | Ok r => match parse_rows ls with Ok rs => Ok (r :: rs) | Raise e => Raise e end
      | Raise e => Raise e
      end
  end.

(** [np.array(rows)] for a list of lists of floats: rows of one length
    make a matrix, rows of different lengths are refused. *)
Definition np_array (rows : list (list F)) : result (list (list F)) :=
  match rows with
  | [] => Ok []
  | row :: rest =>
      if forallb (fun r => length r =? length row) rest then Ok rows
      else Raise (ValueError
        ("setting an array element with a sequence. The requested array has an "
         +:+ "inhomogeneous shape after 1 dimensions. The detected shape was ("
         +:+ pretty (length rows) +:+ ",) + inhomogeneous part."))
  end.

(** The function from the captured standard output on. *)
Definition matrix_from_output (transform out : string) : result (list (list F)) :=
  let result := Py.bytes_repr out in
  if String.length result =? 0 then
    Raise (ValueError (transform +:+ " returned no transform info"))
  else
    let lines := Py.strip <$> Py.split Py.BSLASH_N result in
    let start_lines := start_lines_of lines in
    if length start_lines =? 0 then
      Raise (ValueError ("Unable to read rotation matrix from " +:+ transform))
    else if 1 <? length start_lines then
      Raise (ValueError ("Too many rotation matrices in " +:+ transform))
    else
      match start_lines with
      | start_line :: _ =>
          let matrix_lines := Py.slice (start_line + 1) (start_line + 4) lines in
          match parse_rows matrix_lines with
          | Ok rows => np_array rows
          | Raise e => Raise e
          end
      | [] => Raise (IndexError "list index out of range")
      end.

Definition rotation_matrix_from_transform (transform : string)
    : result (list (list F)) :=
  let cmd := "antsTransformInfo " +:+ transform in
  match info_stdout (Py.split_ws cmd) with
  | None => Raise (OSError "antsTransformInfo")
  | Some out => matrix_from_output transform out
  end.

End defs.
End Rotation.

(** ** A concrete environment, for the examples *)

Module Demo.

Fixpoint endswith (suffix s : string) : bool :=
  match s with
  | EmptyString => bool_decide (suffix = EmptyString)
  | String _ s' => bool_decide (suffix = s) || endswith suffix s'
  end.

(** [template.format(n)] for the templates of this environment, whose
    only replacement field is [{:05d}]: a doubled brace stands for one
    brace, a single closing brace is an error, and so are a second field
    (there is one argument) and an opening brace at the end.  Any other
    field is outside this environment and is refused.  [used] says
    whether the argument has been taken, [skip] how many characters of
    the field are still to be passed over. *)
Fixpoint format_go (n : nat) (used : bool) (skip : nat) (s : string) : result string :=
  match s with
  | EmptyString => Ok EmptyString
  | String c s' =>
      let more text used' skip' :=
        match format_go n used' skip' s' with
        | Ok t => Ok (text +:+ t)
        | Raise e => Raise e
        end in
      match skip with
      | S k => more EmptyString used k
      | O =>
          if decide (c = "{"%char) then
            if Py.startswith "{" s' then more "{" used 1
            else if Py.startswith ":05d}" s' then
              if used
              then Raise (IndexError
                     "Replacement index 1 out of range for positional args tuple")
              else more (Py.zpad 5 n) true 5
            else match s' with
                 | EmptyString =>
                     Raise (ValueError "Single '{' encountered in format string")
                 | _ => Raise (ValueError "unsupported replacement field")
                 end
          else if decide (c = "}"%char) then
            if Py.startswith "}" s' then more "}" used 1
            else Raise (ValueError "Single '}' encountered in format string")
          else more (String c EmptyString) used 0
      end
  end.

(** Text files are the [.txt] files; a file keeps its name in the new
    directory. *)
Definition naming : FileNaming := {|
  guess_type p := if endswith ".txt" p then Some "text/plain" else None;
  fname_presuffix fname suffix newpath := newpath +:+ "/" +:+ fname +:+ suffix;
  str_format template n := format_go n false 0 template
|}.

(** A resampler that copies the data of the input image to the output
    path as [float64]; it fails on a missing input and on the transform
    file [corrupt.mat]. *)
Definition ants : Executor.AntsApply nat := {|
  Executor.apply_run in_file in_xform out_file _ imgs :=
    if bool_decide ("corrupt.mat" ∈ in_xform)
    then Raise (ToolError "cannot read corrupt.mat")
    else match imgs !! in_file with
         | Some img =>
             Ok (<[out_file := Executor.Nifti "float64" (Executor.dataobj img)]> imgs)
         | None => Raise (ToolError ("missing " +:+ in_file))
         end;
  Executor.apply_cmdline in_file in_xform out_file _ :=
    "antsApplyTransforms -i " +:+ in_file +:+ " -o " +:+ out_file
      +:+ " -t " +:+ Py.join " -t " in_xform;
  Executor.recast _ v := v
|}.

(** Two volumes on disk, and a run over them with [n] workers. *)
Definition disk : Executor.world nat :=
  Executor.World
    {[ "a.nii" := Executor.Nifti "int16" 1; "b.nii" := Executor.Nifti "float64" 2 ]}
    ∅ ∅ ∅ [].

Definition flagged : Executor.world nat :=
  Executor.World (Executor.images disk) ∅ ∅ {[ "copy_dtype" := Executor.VBool true ]} [].

(** Both input volumes are on disk. *)
Definition volumes_present (imgs : gmap string (Executor.nifti nat)) : Prop :=
  is_Some (imgs !! "a.nii") /\ is_Some (imgs !! "b.nii").

Definition two_volumes (n : Z) : Executor.inputs :=
  Executor.Inputs ["a.nii"; "b.nii"] [["x.mat"]; ["y.mat"]] n true true ∅.

Definition bad_transform : Executor.inputs :=
  Executor.Inputs ["a.nii"; "b.nii"] [["x.mat"]; ["corrupt.mat"]] 1 true false ∅.

(** A disassembly tool that ends with status 0 and has written the
    affine part only. *)
Definition affine_only : Disassemble.Subprocess := {|
  Disassemble.communicate _ files :=
    Some (files ∪ {[ "/cwd/00_disassemble_AffineTransform.mat" ]}, 0%Z)
|}.

(** A shell in which [antsApplyTransforms] writes the file named after
    [-o Linear[] when at least one transform is given, and ends with
    status 1 in any case. *)
Definition shell : Compose.Shell := {|
  Compose.system cmd files :=
    match Py.split "--transform " cmd with
    | [_] => (files, 1%Z)
    | _ => (files ∪ {[ "/cwd/composed.mat" ]}, 1%Z)
    end
|}.

(** An inspection tool that prints an identity transform, and a [float]
    that reads the numerals 0 and 1. *)
Definition info_lines : list string :=
  ["  Matrix:"; "    1 0 0"; "    0 1 0"; "    0 0 1"].

Definition info_text : string :=
  Py.join Py.LF ("Transform information:" :: info_lines ++ ["  Offset: [0, 0, 0]"]).

Definition info : Rotation.TransformInfo Z := {|
  Rotation.info_stdout _ := Some info_text;
  Rotation.float token :=
    if decide (token = "0") then Some 0%Z
    else if decide (token = "1") then Some 1%Z
    else None
|}.

(** Two affine transforms, the container that holds both, and the file
    that holds the first alone. *)
Definition blocks2 : list Arrange.block :=
  [Arrange.Block "Transform: AffineTransform_double_3_3"
     "Parameters: 1 0 0 0 1 0 0 0 1 0 0 0" "FixedParameters: 0 0 0";
   Arrange.Block "Transform: AffineTransform_double_3_3"
     "Parameters: 1 0 0 0 1 0 0 0 1 2 3 4" "FixedParameters: 5 6 7"].

Definition texts : gmap string string :=
  {[ "both.txt" := Arrange.container_text " V1.0" blocks2 Py.LF;
     "one.txt" := Arrange.container_text " V1.0" (take 1 blocks2) Py.LF ]}.

(** The container of the two transforms with two blanks at the end of
    its last line. *)
Definition padded : list Arrange.block :=
  [Arrange.Block "Transform: AffineTransform_double_3_3"
     "Parameters: 1 0 0 0 1 0 0 0 1 0 0 0" "FixedParameters: 0 0 0";
   Arrange.Block "Transform: AffineTransform_double_3_3"
     "Parameters: 1 0 0 0 1 0 0 0 1 2 3 4" "FixedParameters: 5 6 7  "].

Definition padded_files : gmap string string :=
  {[ "padded.txt" := Arrange.container_text " V1.0" padded Py.LF ]}.

(** The container of the two transforms under a name with a brace. *)
Definition brace_files : gmap string string :=
  {[ "set}.txt" := Arrange.container_text " V1.0" blocks2 Py.LF ]}.

(** A container whose two transforms are numbered 0 and 2. *)
Definition gap_text : string :=
  Py.join Py.LF
    ["#Insight Transform File V1.0";
     "#Transform 0"; "Transform: AffineTransform_double_3_3";
     "Parameters: 1 0 0 0 1 0 0 0 1 0 0 0"; "FixedParameters: 0 0 0";
     "#Transform 2"; "Transform: AffineTransform_double_3_3";
     "Parameters: 1 0 0 0 1 0 0 0 1 2 3 4"; "FixedParameters: 5 6 7"]
  +:+ Py.LF.

Definition gap_files : gmap string string := {[ "gap.txt" := gap_text ]}.

(** A resampler that ends without an error and without an output. *)
Definition silent : Executor.AntsApply nat := {|
  Executor.apply_run _ _ _ _ imgs := Ok imgs;
  Executor.apply_cmdline in_file _ out_file _ :=
    "antsApplyTransforms -i " +:+ in_file +:+ " -o " +:+ out_file;
  Executor.recast _ v := v
|}.

(** Two volumes with the transforms of one. *)
Definition uneven : Executor.inputs :=
  Executor.Inputs ["a.nii"; "b.nii"] [["x.mat"]] 1 true false ∅.

End Demo.

(** * Properties *)

Ltac run_monad :=
  simpl in *; unfold bind, ret, raise, gets, modify in *; simpl in *.

(** ** The per-volume worker and the executor *)

Section executor_facts.
Context {V : Type} `{FileNaming} `{Executor.AntsApply V}.
Import Executor.

Lemma applytfms_cases in_file in_xform index newpath (w : world V) :
  let args := (in_file, in_xform, index, newpath) in
  let out := job_out_file args in
  _applytfms args w =
    match apply_run in_file in_xform out (delete "copy_dtype" (ifargs w)) (images w) with
    | Raise e => (Raise e, popped w index (images w) [])
    | Ok imgs =>
        if truthy (default (VBool false) (ifargs w !! "copy_dtype")) then
          match imgs !! out with
          | None => (Raise (FileNotFoundError out), popped w index imgs [])
          | Some nii =>
              match imgs !! in_file with
              | None => (Raise (FileNotFoundError in_file), popped w index imgs [])
              | Some src =>
                  if decide (data_dtype src <> data_dtype nii)
                  then (Ok (out, job_cmdline (delete "copy_dtype" (ifargs w)) args),
                        popped w index
                          (<[out := set_data_dtype nii (data_dtype src)]> imgs)
                          [Rewritten out])
                  else (Ok (out, job_cmdline (delete "copy_dtype" (ifargs w)) args), popped w index imgs [])
              end
          end
        else (Ok (out, job_cmdline (delete "copy_dtype" (ifargs w)) args), popped w index imgs [])
    end.
Proof.
  destruct w as [imgs0 txt0 d0 ia0 tr0].
  unfold _applytfms, job_cmdline, job_out_file, popped, ifargs_pop, xfm_run, nb_load,
    to_filename, log_event, set_images, set_ifargs.
  run_monad.
  destruct (apply_run _ _ _ _ _) as [imgs|e]; simpl; [|done].
  destruct (truthy _); simpl; [|done].
  destruct (imgs !! _) as [nii|] eqn:Hout; simpl; [|done].
  destruct (imgs !! in_file) as [src|] eqn:Hin; simpl; [|done].
  destruct (decide _); simpl; [|done].
  by rewrite <- app_assoc.
Qed.


Lemma same_frame_refl (w : world V) : same_frame w w.
Proof. by repeat split. Qed.

Lemma same_frame_trans (w1 w2 w3 : world V) :
  same_frame w1 w2 -> same_frame w2 w3 -> same_frame w1 w3.
Proof. intros (?&?&?) (?&?&?). repeat split; congruence. Qed.

Lemma applytfms_effect args (w : world V) r w' :
  _applytfms args w = (r, w') ->
  exists imgs more,
    w' = popped w (job_index args) imgs more
    /\ job_starts more = [] /\ pools_created more = []
    /\ (forall x, r = Ok x -> x = job_result (delete "copy_dtype" (ifargs w)) args).
Proof.
  destruct args as [[[in_file in_xform] index] newpath].
  rewrite applytfms_cases. cbv zeta. unfold job_result.
  intros Hrun.
  repeat case_match; simplify_eq; do 2 eexists;
    (split; [reflexivity|]); repeat split; try done; by intros ? [= <-].
Qed.

(** Once a job has run, [copy_dtype] is gone from the dictionary that
    the later jobs read. *)
Lemma copy_dtype_popped_for_all args (w : world V) r w' :
  _applytfms args w = (r, w') -> ifargs w' !! "copy_dtype" = None.
Proof.
  intros (imgs & more & -> & _)%applytfms_effect. simpl. apply lookup_delete_eq.
Qed.

Lemma popped_same_frame (w : world V) index imgs more :
  same_frame w (popped w index imgs more).
Proof. repeat split; simpl. by rewrite delete_delete_eq. Qed.

Lemma for_each_jobs jobs (w : world V) r w' :
  for_each _applytfms jobs w = (r, w') ->
  same_frame w w'
  /\ (exists evs m,
        trace w' = trace w ++ evs /\ pools_created evs = []
        /\ m <= length jobs /\ job_starts evs = take m (job_index <$> jobs)
        /\ (is_ok r -> m = length jobs))
  /\ (forall rs, r = Ok rs -> rs = job_result (delete "copy_dtype" (ifargs w)) <$> jobs).
Proof.
  revert w r w'. induction jobs as [|args jobs IH]; intros w r w' Hrun.
  - run_monad. simplify_eq. split; [apply same_frame_refl|]. split; [|by intros ? [= <-]].
    exists [], 0. by rewrite app_nil_r.
  - simpl in Hrun. unfold bind in Hrun.
    destruct (_applytfms args w) as [r1 w1] eqn:Hjob.
    apply applytfms_effect in Hjob as (imgs & more & -> & Hmore & Hpool & Hres).
    pose proof (popped_same_frame w (job_index args) imgs more) as Hframe.
    destruct r1 as [x|e].
    + destruct (for_each _applytfms jobs _) as [r2 w2] eqn:Hrest.
      apply IH in Hrest as (Hframe2 & (evs & m & Htr & Hp & Hm & Hst & Hok) & Hrs).
      assert (w' = w2) as -> by (destruct r2; run_monad; congruence).
      split; [by eapply same_frame_trans|]. split.
      * exists (JobStarted (job_index args) :: more ++ evs), (S m).
        rewrite Htr. simpl. rewrite <- app_assoc. simpl.
        unfold job_starts, pools_created in *. rewrite !omap_app.
        rewrite Hmore, Hpool, Hp, Hst. simpl.
        repeat split; [lia|]. intros [rs ->].
        destruct r2; [|run_monad; congruence]. f_equal. apply Hok. by eexists.
      * intros rs ->. destruct r2 as [ys|]; [|run_monad; congruence].
        run_monad. simplify_eq. rewrite (Hres x eq_refl).
        destruct Hframe2 as (_ & _ & _). destruct Hframe as (_ & _ & Hd).
        rewrite (Hrs ys eq_refl). simpl. by rewrite delete_delete_eq.
    + simplify_eq. split; [done|]. split; [|done].
      exists (JobStarted (job_index args) :: more), 1. simpl.
      unfold job_starts, pools_created in *. simpl. rewrite Hmore, Hpool.
      rewrite take_0. repeat split; [lia|]. by intros [? ?].
Qed.

Lemma for_each_jobs_total Inv jobs (w : world V) :
  Forall (job_succeeds Inv) jobs -> Inv (images w) ->
  is_ok (for_each _applytfms jobs w).1.
Proof.
  intros Hall. revert w. induction Hall as [|args jobs Hj _ IH]; intros w Hw.
  - by eexists.
  - simpl. unfold bind. destruct (Hj w Hw) as (x & w1 & -> & Hw1).
    destruct (IH w1 Hw1) as [ys Hys].
    destruct (for_each _applytfms jobs w1) as [r2 w2]. simpl in Hys. subst r2.
    by eexists.
Qed.

Lemma run_scheduled_fold Inv jobs K sched :
  indexed jobs ->
  forall futs (w : world V) futs' w',
  foldl (run_scheduled jobs) (futs, w) sched = (futs', w') ->
  delete "copy_dtype" (ifargs w) = K ->
  (forall i x, futs !! i = Some (Ok x) ->
     exists args, jobs !! i = Some args /\ x = job_result K args) ->
  same_frame w w'
  /\ (exists evs, trace w' = trace w ++ evs /\ pools_created evs = []
        /\ job_starts evs = filter (fun i => i < length jobs) sched)
  /\ (forall i x, futs' !! i = Some (Ok x) ->
        exists args, jobs !! i = Some args /\ x = job_result K args)
  /\ (forall i, i < length jobs -> i ∈ sched \/ is_Some (futs !! i) ->
        is_Some (futs' !! i))
  /\ (Forall (job_succeeds Inv) jobs -> Inv (images w) ->
      (forall i e, futs !! i <> Some (Raise e)) ->
      forall i e, futs' !! i <> Some (Raise e)).
Proof.
  intros Hidx. induction sched as [|i sched IH]; intros futs w futs' w' Hfold HK Hinv.
  - simpl in Hfold. simplify_eq. split; [apply same_frame_refl|].
    split; [exists []; by rewrite app_nil_r|]. split; [done|]. split; [|done].
    intros i _ [Hin|?]; [|done]. by apply elem_of_nil in Hin.
  - simpl in Hfold. unfold run_scheduled at 2 in Hfold. simpl in Hfold.
    destruct (jobs !! i) as [args|] eqn:Hargs.
    + destruct (_applytfms args w) as [r w1] eqn:Hjob.
      pose proof Hjob as Hjob'.
      apply applytfms_effect in Hjob as (imgs & more & -> & Hmore & Hpool & Hres).
      pose proof (popped_same_frame w (job_index args) imgs more) as Hframe.
      apply IH in Hfold as (Hframe2 & (evs & Htr & Hp & Hst) & Hinv' & Hdom & Hok).
      * split; [by eapply same_frame_trans|].
        split; [|split; [done|split]].
        -- exists (JobStarted (job_index args) :: more ++ evs).
           rewrite Htr. simpl. rewrite <- app_assoc. simpl.
           unfold job_starts, pools_created in *. rewrite !omap_app.
           rewrite Hmore, Hpool, Hp, Hst. simpl.
           rewrite filter_cons_True by (by eapply lookup_lt_Some).
           by rewrite (Hidx _ _ Hargs).
        -- intros i0 Hlt Hin. apply Hdom; [done|].
           destruct (decide (i0 = i)) as [->|Hne].
           { right. rewrite lookup_insert_eq. by eexists. }
           destruct Hin as [Hin|Hin].
           { apply elem_of_cons in Hin as [?|?]; [done|by left]. }
           right. by rewrite lookup_insert_ne.
        -- intros Hall Hw Hno.
           assert (job_succeeds Inv args) as Hs.
           { eapply Forall_forall; [exact Hall|]. by eapply list_elem_of_lookup_2. }
           destruct (Hs w Hw) as (x & w2 & Hx & Hw2).
           rewrite Hjob' in Hx. injection Hx as -> <-.
           apply Hok; [done..|]. intros i0 e.
           destruct (decide (i0 = i)) as [->|Hne].
           { by rewrite lookup_insert_eq. }
           rewrite lookup_insert_ne by done. apply Hno.
      * simpl. rewrite delete_delete_eq. done.
      * intros i0 x. destruct (decide (i0 = i)) as [->|Hne].
        { rewrite lookup_insert_eq. intros [= ->]. exists args. split; [done|].
          rewrite (Hres x eq_refl). by rewrite HK. }
        rewrite lookup_insert_ne by done. apply Hinv.
    + apply IH in Hfold as (Hframe2 & (evs & Htr & Hp & Hst) & Hinv' & Hdom & Hok);
        [|done..].
      apply lookup_ge_None in Hargs.
      split; [done|]. split; [|split; [done|split; [|done]]].
      * exists evs. rewrite filter_cons_False by lia. done.
      * intros i0 Hlt Hin. apply Hdom; [done|].
        destruct Hin as [Hin|?]; [|by right].
        apply elem_of_cons in Hin as [->|?]; [lia|by left].
Qed.

Lemma gather_futures futs l (w : world V) r w' :
  for_each (future_result futs) l w = (r, w') ->
  w' = w
  /\ (forall rs, r = Ok rs -> Forall2 (fun i x => futs !! i = Some (Ok x)) l rs)
  /\ ((forall i, i ∈ l -> exists x, futs !! i = Some (Ok x)) -> is_ok r).
Proof.
  revert r w'. induction l as [|i l IH]; intros r w' Hrun.
  - run_monad. simplify_eq. split; [done|]. split; [|by eexists].
    intros ? [= <-]. constructor.
  - simpl in Hrun. unfold bind in Hrun. unfold future_result at 1 in Hrun.
    destruct (futs !! i) as [[x|e]|] eqn:Hi; run_monad.
    + destruct (for_each (future_result futs) l w) as [r2 w2] eqn:Hrest.
      destruct (IH _ _ eq_refl) as (-> & Hrs & Htot).
      destruct r2 as [ys|e]; simplify_eq.
      * split; [done|]. split; [|by eexists].
        intros ? [= <-]. constructor; [done|by apply Hrs].
      * split; [done|]. split; [done|]. intros Hall.
        destruct Htot as [? ?]; [|done]. intros. apply Hall. by right.
    + simplify_eq. split; [done|]. split; [done|]. intros Hall.
      destruct (Hall i) as [? ?]; [by left|congruence].
    + simplify_eq. split; [done|]. split; [done|]. intros Hall.
      destruct (Hall i) as [? ?]; [by left|congruence].
Qed.

Lemma make_jobs_lookup in_files xfms_list cwd i args :
  make_jobs in_files xfms_list cwd !! i = Some args ->
  exists in_file in_xfm, args = (in_file, in_xfm, i, cwd).
Proof.
  unfold make_jobs. rewrite list_lookup_imap.
  destruct (zip in_files xfms_list !! i) as [[f x]|]; simpl; [|done].
  intros [= <-]. by do 2 eexists.
Qed.

Lemma make_jobs_indexed in_files xfms_list cwd :
  indexed (make_jobs in_files xfms_list cwd).
Proof.
  intros i args Hi. by apply make_jobs_lookup in Hi as (? & ? & ->).
Qed.

Lemma make_jobs_length in_files xfms_list cwd :
  length xfms_list = length in_files ->
  length (make_jobs in_files xfms_list cwd) = length in_files.
Proof.
  intros Hlen. unfold make_jobs. rewrite length_imap, length_zip. lia.
Qed.

Lemma indexed_indices jobs :
  indexed jobs -> job_index <$> jobs = seq 0 (length jobs).
Proof.
  intros Hidx. apply list_eq. intros i.
  rewrite list_lookup_fmap.
  destruct (jobs !! i) as [args|] eqn:Hi; simpl.
  - rewrite (Hidx _ _ Hi). symmetry. apply lookup_seq. split; [done|].
    by eapply lookup_lt_Some.
  - symmetry. apply lookup_ge_None. rewrite length_seq. by apply lookup_ge_None.
Qed.

Lemma gathered_results (futs : gmap nat (result (string * string))) jobs K rs :
  (forall i x, futs !! i = Some (Ok x) ->
     exists args, jobs !! i = Some args /\ x = job_result K args) ->
  Forall2 (fun i x => futs !! i = Some (Ok x)) (seq 0 (length jobs)) rs ->
  rs = job_result K <$> jobs.
Proof.
  intros Hinv Hall. apply list_eq. intros i.
  rewrite list_lookup_fmap.
  destruct (rs !! i) as [x|] eqn:Hx.
  - destruct (Forall2_lookup_r _ _ _ _ _ Hall Hx) as (i' & Hi' & Hf).
    apply lookup_seq in Hi' as [-> _]. simpl in Hf.
    destruct (Hinv _ _ Hf) as (args & -> & ->). done.
  - apply lookup_ge_None in Hx. apply Forall2_length in Hall.
    rewrite length_seq in Hall.
    rewrite (proj2 (lookup_ge_None jobs i)); [done|lia].
Qed.

(** What the job phase does, whichever way it runs. *)
Lemma run_jobs_effect nt sched jobs (w : world V) r w' :
  indexed jobs ->
  run_jobs nt sched jobs w = (r, w') ->
  same_frame w w'
  /\ (forall rs, r = Ok rs -> rs = job_result (delete "copy_dtype" (ifargs w)) <$> jobs)
  /\ (sched ≡ₚ seq 0 (length jobs) ->
      forall Inv, Inv (images w) -> Forall (job_succeeds Inv) jobs -> is_ok r).
Proof.
  intros Hidx. unfold run_jobs. destruct (decide (nt = Some 1%Z)) as [_|_].
  - intros Hrun.
    assert (forall Inv, Inv (images w) -> Forall (job_succeeds Inv) jobs -> is_ok r) as Htot.
    { intros Inv Hw Hall. pose proof (for_each_jobs_total Inv jobs w Hall Hw) as Htot.
      by rewrite Hrun in Htot. }
    apply for_each_jobs in Hrun as (Hframe & _ & Hrs). auto.
  - unfold bind, log_event, modify, pool_map. simpl.
    destruct (foldl _ _ sched) as [futs w1] eqn:Hfold. intros Hgather.
    assert (forall Inv, Inv (images w) -> Forall (job_succeeds Inv) jobs ->
              forall i e, futs !! i <> Some (Raise e)) as Hok.
    { intros Inv Hw Hall.
      eapply (run_scheduled_fold Inv jobs _ sched Hidx) in Hfold
        as (_ & _ & _ & _ & Hok); [|reflexivity|by intros ? ? ?].
      by apply Hok. }
    eapply (run_scheduled_fold (fun _ => True) jobs _ sched Hidx) in Hfold
      as (Hframe & _ & Hinv & Hdom & _); [|reflexivity|by intros ? ? ?].
    simpl in *.
    apply gather_futures in Hgather as (-> & Hrs & Htot).
    split; [done|]. split.
    + intros rs ->. eapply gathered_results; [exact Hinv|]. by apply Hrs.
    + intros Hperm Inv Hw Hall. apply Htot. intros i Hi.
      apply elem_of_seq in Hi as [_ Hi]. simpl in Hi.
      destruct (Hdom i Hi) as [[x|e] Hx].
      { left. rewrite Hperm. apply elem_of_seq. lia. }
      { by eexists. }
      exfalso. by eapply (Hok Inv Hw Hall).
Qed.

(** The events of the job phase. *)
Lemma run_jobs_trace nt sched jobs (w : world V) r w' :
  indexed jobs ->
  run_jobs nt sched jobs w = (r, w') ->
  if decide (nt = Some 1%Z)
  then exists evs m, trace w' = trace w ++ evs /\ pools_created evs = []
         /\ job_starts evs = seq 0 m /\ m <= length jobs
         /\ (is_ok r -> m = length jobs)
  else exists evs, trace w' = trace w ++ PoolCreated nt :: evs
         /\ pools_created evs = []
         /\ job_starts evs = filter (fun i => i < length jobs) sched.
Proof.
  intros Hidx. unfold run_jobs. destruct (decide (nt = Some 1%Z)) as [_|_].
  - intros Hrun.
    apply for_each_jobs in Hrun as (_ & (evs & m & Htr & Hp & Hm & Hst & Hok) & _).
    exists evs, m. rewrite indexed_indices in Hst by done.
    rewrite take_seq in Hst. rewrite Nat.min_l in Hst by done. done.
  - unfold bind, log_event, modify, pool_map. simpl.
    destruct (foldl _ _ sched) as [futs w1] eqn:Hfold. intros Hgather.
    eapply (run_scheduled_fold (fun _ => True) jobs _ sched Hidx) in Hfold
      as (_ & (evs & Htr & Hp & Hst) & _); [|reflexivity|by intros ? ? ?].
    simpl in *.
    apply gather_futures in Hgather as (-> & _).
    exists evs. rewrite Htr. by rewrite <- app_assoc.
Qed.

(** The run, in terms of its job phase. *)
Lemma run_interface_cases inp cwd tmp_name sched (w : world V) :
  length (transforms inp) = length (input_image inp) ->
  _run_interface inp cwd tmp_name sched w =
    match run_jobs (effective_threads (num_threads inp)) sched
            (make_jobs (input_image inp) (transforms inp) cwd)
            (started inp tmp_name w) with
    | (Ok rs, w2) =>
        (Ok (Outputs (fst <$> rs)
               (if save_cmd inp then Some (Py.path_join cwd "command.txt") else None)),
         finished inp cwd tmp_name rs w2)
    | (Raise e, w2) => (Raise e, w2)
    end.
Proof.
  intros Hlen. unfold _run_interface, TemporaryDirectory, cleanup, print_to, started,
    finished, set_ifargs, set_dirs, set_texts.
  run_monad. rewrite decide_False by (by intros ?).
  destruct (run_jobs _ _ _ _) as [[rs|e] w2]; [|done].
  destruct (save_cmd inp); done.
Qed.

Lemma job_results_by_volume in_files xfms_list cwd K :
  job_result K <$> make_jobs in_files xfms_list cwd =
  imap (fun i p =>
          let out := fname_presuffix p.1 ("_xform-" +:+ Py.zpad 5 i) cwd in
          (out, apply_cmdline p.1 p.2 out K))
       (zip in_files xfms_list).
Proof.
  unfold make_jobs. rewrite fmap_imap. apply imap_ext. by intros i [f x] _.
Qed.

(** C10: when [copy_dtype] is on, the worker leaves the file that the
    external call wrote untouched if its data type equals the input's, and
    rewrites it with the input's data type only if the two differ. *)
Theorem applytfms_rewrites_iff_dtypes_differ
    in_file in_xform index newpath (w : world V) imgs nii src :
  let args := (in_file, in_xform, index, newpath) in
  let out := job_out_file args in
  let kwargs := delete "copy_dtype" (ifargs w) in
  ifargs w !! "copy_dtype" = Some (VBool true) ->
  apply_run in_file in_xform out kwargs (images w) = Ok imgs ->
  imgs !! out = Some nii ->
  imgs !! in_file = Some src ->
  _applytfms args w =
    (Ok (out, apply_cmdline in_file in_xform out kwargs),
     if decide (data_dtype src = data_dtype nii)
     then World imgs (texts w) (dirs w) kwargs (trace w ++ [JobStarted index])
     else World (<[out := Nifti (data_dtype src) (recast (data_dtype src) (dataobj nii))]> imgs)
                (texts w) (dirs w) kwargs
                (trace w ++ [JobStarted index; Rewritten out])).
Proof.
  intros args out kwargs Hflag Hrun Hout Hin.
  unfold args. rewrite applytfms_cases. cbv zeta.
  fold args. fold out. fold kwargs. rewrite Hrun, Hflag. simpl.
  rewrite Hout, Hin.
  destruct (decide (data_dtype src = data_dtype nii)) as [Heq|Hne].
  - by rewrite decide_False by (by intros ?).
  - by rewrite decide_True by done.
Qed.

(** Support for C9: a run that returns has removed its temporary
    directory, and a run that raises has not. *)
Lemma tmp_dir_removed_on_success inp cwd tmp_name sched (w : world V) outs w' :
  _run_interface inp cwd tmp_name sched w = (Ok outs, w') ->
  tmp_name ∉ dirs w'.
Proof.
  destruct (decide (length (transforms inp) = length (input_image inp))) as [Hlen|Hlen].
  - rewrite run_interface_cases by done.
    destruct (run_jobs _ _ _ _) as [[rs|e] w2]; [|done].
    intros [= _ <-]. simpl. rewrite elem_of_difference. intros [_ Hn].
    apply Hn. by apply elem_of_singleton.
  - unfold _run_interface. run_monad. by rewrite decide_True.
Qed.

Lemma tmp_dir_kept_on_failure inp cwd tmp_name sched (w : world V) e w' :
  _run_interface inp cwd tmp_name sched w = (Raise e, w') ->
  tmp_name ∈ dirs w'.
Proof.
  destruct (decide (length (transforms inp) = length (input_image inp))) as [Hlen|Hlen].
  - rewrite run_interface_cases by done.
    destruct (run_jobs _ _ _ _) as [[rs|e'] w2] eqn:Hjobs; [done|].
    intros [= _ <-].
    apply run_jobs_effect in Hjobs as ((_ & -> & _) & _);
      [|apply make_jobs_indexed].
    simpl. set_solver.
  - unfold _run_interface, TemporaryDirectory, set_dirs. run_monad.
    rewrite decide_True by done. intros [= _ <-]. simpl. set_solver.
Qed.

(** The results of a run, for every worker count and every order in
    which a pool runs the jobs. *)
Lemma run_results inp cwd tmp_name sched (w : world V) :
  length (transforms inp) = length (input_image inp) ->
  sched ≡ₚ seq 0 (length (input_image inp)) ->
  let kwargs := delete "copy_dtype" (initial_ifargs inp) in
  (forall outs w', _run_interface inp cwd tmp_name sched w = (Ok outs, w') ->
     out_files outs =
       imap (fun i in_file => fname_presuffix in_file ("_xform-" +:+ Py.zpad 5 i) cwd)
            (input_image inp)
     /\ (save_cmd inp = true ->
         log_cmdline outs = Some (Py.path_join cwd "command.txt")
         /\ texts w' !! Py.path_join cwd "command.txt" =
            Some (Py.join cmd_separator
                    (imap (fun i p =>
                             apply_cmdline p.1 p.2
                               (fname_presuffix p.1 ("_xform-" +:+ Py.zpad 5 i) cwd) kwargs)
                          (zip (input_image inp) (transforms inp)))
                  +:+ Py.LF)))
  /\ (forall Inv, Inv (images w) ->
      Forall (job_succeeds Inv) (make_jobs (input_image inp) (transforms inp) cwd) ->
      is_ok (_run_interface inp cwd tmp_name sched w).1).
Proof.
  intros Hlen Hperm kwargs.
  rewrite run_interface_cases by done.
  destruct (run_jobs _ _ _ _) as [r w2] eqn:Hjobs.
  apply run_jobs_effect in Hjobs as (_ & Hrs & Htot); [|apply make_jobs_indexed].
  rewrite make_jobs_length in Htot by done.
  split.
  - intros outs w'. destruct r as [rs|e]; [|done]. intros [= <- <-].
    rewrite (Hrs rs eq_refl). simpl. fold kwargs.
    rewrite job_results_by_volume. split.
    + rewrite fmap_imap.
      rewrite <- (fst_zip (input_image inp) (transforms inp)) at 2 by lia.
      rewrite imap_fmap. by apply imap_ext.
    + intros ->. split; [done|]. rewrite lookup_insert_eq.
      rewrite fmap_imap. do 3 f_equal.
  - intros Inv Hw Hall. destruct (Htot Hperm Inv Hw Hall) as [rs ->]. by eexists.
Qed.

(** C1: whatever the order in which the workers run and finish the jobs,
    a run with [w >= 1] workers over N volumes with N transform chains
    returns the output files in volume order, file [i] made from volume
    [i], and writes the command lines to its log in the same order; and
    it does return when every job runs to its end on image files that
    satisfy some condition [Inv] which holds at the start and which the
    jobs keep. *)
Theorem outputs_in_submission_order inp cwd tmp_name sched (w : world V) :
  length (transforms inp) = length (input_image inp) ->
  (1 <= num_threads inp)%Z ->
  sched ≡ₚ seq 0 (length (input_image inp)) ->
  (forall outs w', _run_interface inp cwd tmp_name sched w = (Ok outs, w') ->
     out_files outs =
       imap (fun i in_file => fname_presuffix in_file ("_xform-" +:+ Py.zpad 5 i) cwd)
            (input_image inp)
     /\ (save_cmd inp = true ->
         log_cmdline outs = Some (Py.path_join cwd "command.txt")
         /\ texts w' !! Py.path_join cwd "command.txt" =
            Some (Py.join cmd_separator
                    (imap (fun i p =>
                             apply_cmdline p.1 p.2
                               (fname_presuffix p.1 ("_xform-" +:+ Py.zpad 5 i) cwd)
                               (delete "copy_dtype" (initial_ifargs inp)))
                          (zip (input_image inp) (transforms inp)))
                  +:+ Py.LF)))
  /\ (forall Inv, Inv (images w) ->
      Forall (job_succeeds Inv) (make_jobs (input_image inp) (transforms inp) cwd) ->
      is_ok (_run_interface inp cwd tmp_name sched w).1).
Proof.
  intros Hlen _ Hperm. by apply run_results.
Qed.

(** C2, as the code has it: with exactly one worker the jobs run one
    after the other in volume order and no pool is created; with any
    other worker count a pool is created first and runs the jobs in the
    order its workers take them, bounded by [w] workers for [w > 1] and
    with the library's default bound ([max_workers=None]) for [w < 1]. *)
Theorem dispatch_by_worker_count inp cwd tmp_name sched (w : world V) r w' :
  length (transforms inp) = length (input_image inp) ->
  _run_interface inp cwd tmp_name sched w = (r, w') ->
  let n := length (input_image inp) in
  exists evs, trace w' = trace w ++ evs
    /\ (num_threads inp = 1%Z ->
        pools_created evs = []
        /\ exists m, job_starts evs = seq 0 m /\ m <= n /\ (is_ok r -> m = n))
    /\ ((1 < num_threads inp)%Z ->
        exists rest, evs = PoolCreated (Some (num_threads inp)) :: rest
          /\ pools_created rest = []
          /\ job_starts rest = filter (fun i => i < n) sched)
    /\ ((num_threads inp < 1)%Z ->
        exists rest, evs = PoolCreated None :: rest
          /\ pools_created rest = []
          /\ job_starts rest = filter (fun i => i < n) sched).
Proof.
  intros Hlen Hrun n.
  rewrite run_interface_cases in Hrun by done.
  destruct (run_jobs _ _ _ _) as [r2 w2] eqn:Hjobs.
  apply run_jobs_trace in Hjobs; [|apply make_jobs_indexed].
  rewrite make_jobs_length in Hjobs by done. fold n in Hjobs.
  assert (trace w' = trace w2 /\ (is_ok r -> is_ok r2)) as [-> Hok].
  { destruct r2; simplify_eq; simpl; split; try done; intros [? ?]; done || by eexists. }
  unfold effective_threads in Hjobs. simpl in Hjobs.
  destruct (Z.ltb_spec (num_threads inp) 1) as [Hlt|Hge].
  - rewrite decide_False in Hjobs by done.
    destruct Hjobs as (evs & -> & Hp & Hst).
    eexists. split; [done|]. split; [lia|]. split; [lia|].
    intros _. by eexists.
  - destruct (decide (Some (num_threads inp) = Some 1%Z)) as [[= Heq]|Hne].
    + destruct Hjobs as (evs & m & -> & Hp & Hst & Hm & Hall).
      exists evs. split; [done|]. split; [|split; lia].
      intros _. split; [done|]. exists m. auto.
    + destruct Hjobs as (evs & -> & Hp & Hst).
      eexists. split; [done|]. split; [|split; [|lia]].
      * intros Heq. by rewrite Heq in Hne.
      * intros _. by eexists.
Qed.

End executor_facts.

(** ** Strings *)

Section string_facts.

Lemma append_cons (c : ascii) (a b : string) : String c a +:+ b = String c (a +:+ b).
Proof. done. Qed.

Lemma append_empty_r (s : string) : s +:+ EmptyString = s.
Proof. induction s as [|c s IH]; [done|]. by rewrite append_cons, IH. Qed.

Lemma append_assoc (a b c : string) : (a +:+ b) +:+ c = a +:+ (b +:+ c).
Proof. induction a as [|x a IH]; [done|]. by rewrite !append_cons, IH. Qed.

Lemma join_cons sep x parts : Py.join sep (x :: parts) = x +:+ Py.join_tail sep parts.
Proof.
  revert x. induction parts as [|y parts IH]; intros x.
  - simpl. by rewrite append_empty_r.
  - change (Py.join sep (x :: y :: parts)) with (x +:+ sep +:+ Py.join sep (y :: parts)).
    rewrite IH. simpl. by rewrite ?append_assoc.
Qed.

Lemma join_tail_app sep l1 l2 :
  Py.join_tail sep (l1 ++ l2) = Py.join_tail sep l1 +:+ Py.join_tail sep l2.
Proof.
  induction l1 as [|x l1 IH]; [done|]. simpl. by rewrite IH, ?append_assoc.
Qed.

Lemma mem_app c a b : Py.mem c (a +:+ b) = Py.mem c a || Py.mem c b.
Proof.
  induction a as [|x a IH]; [done|]. rewrite ?append_cons. cbn. destruct (decide (x = c)); [done|]. exact IH.
Qed.

Lemma mem_all_chars p c s :
  Py.all_chars p s = true -> p c = false -> Py.mem c s = false.
Proof.
  intros Hall Hc. induction s as [|x s IH]; [done|]. simpl in *.
  apply andb_true_iff in Hall as [Hx Hs].
  destruct (decide (x = c)) as [->|_]; [congruence|]. by apply IH.
Qed.

Lemma startswith_app p s : Py.startswith p (p +:+ s) = true.
Proof. induction p as [|c p IH]; [done|]. rewrite ?append_cons. cbn. by rewrite decide_True. Qed.

(** *** Counting and splitting *)

Lemma count_go_skip sub r s :
  Py.count_go sub (String.length r) (r +:+ s) = Py.count_go sub 0 s.
Proof. induction r as [|c r IH]; [by destruct s|]. exact IH. Qed.

Lemma count_go_free c0 p l s :
  Py.mem c0 l = false ->
  Py.count_go (String c0 p) 0 (l +:+ s) = Py.count_go (String c0 p) 0 s.
Proof.
  induction l as [|c l IH]; [done|]. rewrite ?append_cons. cbn.
  destruct (decide (c = c0)) as [|Hne]; [done|]. intros Hl.
  rewrite decide_False by congruence. by apply IH.
Qed.

Lemma count_go_hit c0 p s :
  Py.count_go (String c0 p) 0 (String c0 p +:+ s)
  = S (Py.count_go (String c0 p) 0 s).
Proof.
  rewrite append_cons. cbn. rewrite decide_True by done. rewrite startswith_app.
  rewrite Nat.sub_0_r. by rewrite count_go_skip.
Qed.

Lemma split_go_skip sep r cur s :
  Py.split_go sep (String.length r) cur (r +:+ s) = Py.split_go sep 0 cur s.
Proof. induction r as [|c r IH]; [by destruct s|]. exact IH. Qed.

Lemma split_go_free c0 p l cur s :
  Py.mem c0 l = false ->
  Py.split_go (String c0 p) 0 cur (l +:+ s) = Py.split_go (String c0 p) 0 (cur +:+ l) s.
Proof.
  revert cur. induction l as [|c l IH]; intros cur.
  - by rewrite append_empty_r.
  - rewrite ?append_cons. cbn. destruct (decide (c = c0)) as [|Hne]; [done|]. intros Hl.
    rewrite decide_False by congruence. rewrite IH by done.
    by rewrite append_assoc.
Qed.

Lemma split_go_hit c0 p cur s :
  Py.split_go (String c0 p) 0 cur (String c0 p +:+ s)
  = cur :: Py.split_go (String c0 p) 0 EmptyString s.
Proof.
  rewrite append_cons. cbn. rewrite decide_True by done. rewrite startswith_app.
  rewrite Nat.sub_0_r. by rewrite split_go_skip.
Qed.

(** Splitting what was joined gives the parts back, when no part holds
    the first character of the separator. *)
Lemma split_join_tail c0 p cur x parts :
  Py.mem c0 x = false ->
  Forall (fun l => Py.mem c0 l = false) parts ->
  Py.split_go (String c0 p) 0 cur (x +:+ Py.join_tail (String c0 p) parts)
  = (cur +:+ x) :: parts.
Proof.
  intros Hx Hparts. revert cur x Hx.
  induction Hparts as [|y parts Hy _ IH]; intros cur x Hx.
  - simpl. rewrite split_go_free by done. done.
  - simpl. rewrite split_go_free by done. rewrite split_go_hit.
    by rewrite IH.
Qed.

Lemma split_join c0 p x parts :
  Py.mem c0 x = false ->
  Forall (fun l => Py.mem c0 l = false) parts ->
  Py.split (String c0 p) (Py.join (String c0 p) (x :: parts)) = x :: parts.
Proof.
  intros Hx Hparts. unfold Py.split. rewrite join_cons.
  by rewrite split_join_tail.
Qed.

(** *** Stripping *)

Lemma last_char_app_cons a c b : Py.last_char (a +:+ String c b) = Py.last_char (String c b).
Proof.
  induction a as [|x a IH]; [done|]. rewrite append_cons.
  change (Py.last_char (String x (a +:+ String c b)))
    with (match a +:+ String c b with
          | EmptyString => Some x
          | _ => Py.last_char (a +:+ String c b)
          end).
  destruct (a +:+ String c b) eqn:Heq; [by destruct a|]. by rewrite <- IH.
Qed.

Lemma rstrip_visible s : Py.ends_visibly s = true -> Py.rstrip s = s.
Proof.
  unfold Py.ends_visibly. induction s as [|c s IH]; [done|].
  destruct s as [|d s].
  - simpl. by destruct (Py.isspace c).
  - intros Hlast. change (Py.last_char (String c (String d s)))
      with (Py.last_char (String d s)) in Hlast.
    change (Py.rstrip (String c (String d s)))
      with (match Py.rstrip (String d s) with
            | EmptyString => if Py.isspace c then EmptyString else String c EmptyString
            | r => String c r
            end).
    by rewrite IH.
Qed.

Lemma rstrip_space_end s c :
  Py.isspace c = true -> Py.rstrip (s +:+ String c EmptyString) = Py.rstrip s.
Proof.
  intros Hc. induction s as [|d s IH].
  - simpl. by rewrite Hc.
  - rewrite append_cons.
    change (Py.rstrip (String d (s +:+ String c EmptyString)))
      with (match Py.rstrip (s +:+ String c EmptyString) with
            | EmptyString => if Py.isspace d then EmptyString else String d EmptyString
            | r => String d r
            end).
    by rewrite IH.
Qed.

Lemma rstrip_spaces_end s t :
  Py.all_chars Py.isspace t = true -> Py.rstrip (s +:+ t) = Py.rstrip s.
Proof.
  revert s. induction t as [|c t IH]; intros s Ht.
  - by rewrite append_empty_r.
  - simpl in Ht. apply andb_true_iff in Ht as [Hc Ht].
    change (String c t) with (String c EmptyString +:+ t).
    rewrite <- append_assoc, IH by done. by apply rstrip_space_end.
Qed.

Lemma ends_visibly_app a b : Py.ends_visibly b = true -> Py.ends_visibly (a +:+ b) = true.
Proof.
  unfold Py.ends_visibly. destruct b as [|c b]; [done|]. by rewrite last_char_app_cons.
Qed.

(** What [rstrip] takes away is whitespace at the end. *)
Lemma rstrip_split s :
  exists ws, s = Py.rstrip s +:+ ws /\ Py.all_chars Py.isspace ws = true.
Proof.
  induction s as [|c s (ws & Hs & Hws)]; [by exists EmptyString|].
  change (Py.rstrip (String c s))
    with (match Py.rstrip s with
          | EmptyString => if Py.isspace c then EmptyString else String c EmptyString
          | r => String c r
          end).
  destruct (Py.rstrip s) as [|d r] eqn:Hr.
  - change (EmptyString +:+ ws) with ws in Hs. subst ws.
    destruct (Py.isspace c) eqn:Hc.
    + exists (String c s). split; [done|]. simpl. by rewrite Hc, Hws.
    + by exists s.
  - exists ws. split; [|done]. rewrite append_cons. by rewrite <- Hs.
Qed.

Lemma rstrip_ends_visibly s :
  Py.ends_visibly (Py.rstrip s) = negb (Py.all_chars Py.isspace s).
Proof.
  induction s as [|c s IH]; [done|].
  change (Py.rstrip (String c s))
    with (match Py.rstrip s with
          | EmptyString => if Py.isspace c then EmptyString else String c EmptyString
          | r => String c r
          end).
  destruct (Py.rstrip s) as [|d r] eqn:Hr.
  - simpl. apply (f_equal negb) in IH. rewrite negb_involutive in IH. simpl in IH.
    rewrite <- IH. unfold Py.ends_visibly. by destruct (Py.isspace c) eqn:Hc; simpl; rewrite ?Hc.
  - assert (Py.all_chars Py.isspace s = false) as Hs.
    { destruct (Py.all_chars Py.isspace s) eqn:Hall; [|done].
      pose proof (rstrip_spaces_end EmptyString s Hall) as Hnil.
      change (EmptyString +:+ s) with s in Hnil. rewrite Hr in Hnil. done. }
    simpl. rewrite Hs, andb_false_r. rewrite Hs in IH. exact IH.
Qed.

Lemma rstrip_mem c s : Py.mem c s = false -> Py.mem c (Py.rstrip s) = false.
Proof.
  destruct (rstrip_split s) as (ws & Hs & _). intros Hc.
  rewrite Hs, mem_app in Hc. by apply orb_false_iff in Hc as [? _].
Qed.

Lemma rstrip_not_blank s :
  Py.all_chars Py.isspace s = false -> Py.all_chars Py.isspace (Py.rstrip s) = false.
Proof.
  intros Hs. pose proof (rstrip_ends_visibly s) as Hend. rewrite Hs in Hend. simpl in Hend.
  pose proof (rstrip_ends_visibly (Py.rstrip s)) as Hagain.
  rewrite (rstrip_visible _ Hend), Hend in Hagain.
  by destruct (Py.all_chars Py.isspace (Py.rstrip s)).
Qed.

End string_facts.

(** ** Decimal numbers *)

Section decimal_facts.

Lemma pretty_N_char_digit x : Py.is_digit (pretty_N_char x) = true.
Proof. unfold pretty_N_char. by repeat case_match. Qed.

Lemma pretty_N_go_digits x s :
  Py.all_chars Py.is_digit s = true -> Py.all_chars Py.is_digit (pretty_N_go x s) = true.
Proof.
  revert s. induction (N.lt_wf_0 x) as [x _ IH]; intros s Hs.
  destruct (decide (x = 0)%N) as [->|Hx]; [by rewrite pretty_N_go_0|].
  rewrite pretty_N_go_step by lia. apply IH.
  - apply N.div_lt; lia.
  - simpl. by rewrite pretty_N_char_digit.
Qed.

Lemma pretty_nat_digits (n : nat) : Py.all_chars Py.is_digit (pretty n) = true.
Proof.
  unfold pretty, pretty_nat, pretty, pretty_N. case_decide; [done|].
  by apply pretty_N_go_digits.
Qed.

(** A character that is not a digit does not occur in a printed number. *)
Lemma pretty_nat_mem c (n : nat) : Py.is_digit c = false -> Py.mem c (pretty n) = false.
Proof. intros Hc. eapply mem_all_chars; [apply pretty_nat_digits|done]. Qed.

End decimal_facts.

(** ** Transposition *)

Section zip_star_facts.
Context {A : Type}.

Lemma min_of_equal_lengths n (r : list A) (rs : list (list A)) :
  length r = n -> Forall (fun row => length row = n) rs ->
  foldr Nat.min (length r) (length <$> rs) = n.
Proof.
  intros Hr Hrs. induction Hrs as [|row rs Hrow _ IH]; [done|].
  change (Nat.min (length row) (foldr Nat.min (length r) (length <$> rs)) = n).
  rewrite IH, Hrow. apply Nat.min_id.
Qed.

(** A matrix with at least one row and rows of length [n] has [n]
    columns, each as long as the matrix has rows. *)
Lemma zip_star_rectangle n (rows : list (list A)) :
  rows <> [] -> Forall (fun row => length row = n) rows ->
  length (Py.zip_star rows) = n
  /\ Forall (fun col => length col = length rows) (Py.zip_star rows).
Proof.
  intros Hne Hrows. destruct rows as [|r rs]; [done|].
  unfold Py.zip_star. apply Forall_cons in Hrows as Hrr. destruct Hrr as [Hr Hrs].
  rewrite (min_of_equal_lengths n) by done.
  split; [by rewrite length_fmap, length_seq|].
  apply Forall_fmap, Forall_forall. intros j Hj.
  apply elem_of_seq in Hj as [_ Hj]. simpl in Hj.
  clear Hne Hr Hrs. generalize (r :: rs) Hrows. clear r rs Hrows.
  intros rows Hrows. induction Hrows as [|row rows Hrow _ IH]; [done|].
  simpl. destruct (lookup_lt_is_Some_2 row j) as [x ->]; [lia|].
  simpl. by rewrite IH.
Qed.

Lemma omap_lookup_replicate n j (xs : list A) :
  j < n -> omap (fun row : list A => row !! j) ((fun x => replicate n x) <$> xs) = xs.
Proof.
  intros Hj. induction xs as [|y xs IH]; [done|].
  rewrite fmap_cons. cbn [omap list_omap]. rewrite lookup_replicate_2 by done.
  f_equal. exact IH.
Qed.

Lemma zip_star_replicate n (xs : list A) :
  xs <> [] -> Py.zip_star ((fun x => replicate n x) <$> xs) = replicate n xs.
Proof.
  intros Hne. destruct xs as [|x xs]; [done|].
  unfold Py.zip_star. rewrite fmap_cons.
  rewrite (min_of_equal_lengths n).
  - apply list_eq. intros j. rewrite list_lookup_fmap.
    destruct (decide (j < n)) as [Hj|Hj].
    + rewrite (proj2 (lookup_seq 0 n j j)) by done.
      rewrite (lookup_replicate_2 n (x :: xs) j Hj).
      cbn [fmap option_fmap option_map]. f_equal.
      apply (omap_lookup_replicate n j (x :: xs) Hj).
    + rewrite (proj2 (lookup_ge_None (seq 0 n) j)) by (rewrite length_seq; lia).
      symmetry. apply lookup_ge_None. rewrite length_replicate. lia.
  - apply length_replicate.
  - apply Forall_fmap, Forall_forall. intros y _. apply length_replicate.
Qed.

End zip_star_facts.

(** ** The arrangement of transforms *)

Section arrange_facts.
Context `{FileNaming}.
Import Arrange.

Lemma arrange_source_constant num_files tmp_folder i tf_file (fs : gmap string string) :
  constant_case fs tf_file ->
  arrange_source num_files tmp_folder i tf_file fs = (Ok (Py.times tf_file num_files), fs).
Proof.
  unfold arrange_source. intros [Hkind|(raw & Hraw & Hconst)].
  - by rewrite decide_True.
  - destruct (decide (guess_type tf_file <> Some "text/plain")); [done|].
    unfold bind, read_text. rewrite Hraw.
    destruct Hconst as [Hitk|Hone].
    + by rewrite Hitk.
    + destruct (is_itk _); [|done]. simpl. by rewrite decide_True.
Qed.

Lemma arrange_loop_app num_files tmp_folder i l1 l2 acc (fs : gmap string string) :
  arrange_loop num_files tmp_folder i (l1 ++ l2) acc fs =
    match arrange_loop num_files tmp_folder i l1 acc fs with
    | (Ok rows, fs1) => arrange_loop num_files tmp_folder (i + length l1) l2 rows fs1
    | (Raise e, fs1) => (Raise e, fs1)
    end.
Proof.
  revert i acc fs. induction l1 as [|tf l1 IH]; intros i acc fs; simpl.
  - unfold ret. by rewrite Nat.add_0_r.
  - unfold bind. destruct (arrange_source _ _ _ _ _) as [[row|e] fs1]; [|done].
    rewrite IH. by replace (S i + length l1) with (i + S (length l1)) by lia.
Qed.

Lemma arrange_loop_constant num_files tmp_folder i chain acc (fs : gmap string string) :
  Forall (constant_case fs) chain ->
  arrange_loop num_files tmp_folder i chain acc fs =
    (Ok (acc ++ ((fun tf => Py.times tf num_files) <$> chain)), fs).
Proof.
  intros Hall. revert i acc. induction Hall as [|tf chain Htf _ IH]; intros i acc; simpl.
  - unfold ret. by rewrite app_nil_r.
  - unfold bind. rewrite arrange_source_constant by done.
    rewrite IH. by rewrite <- app_assoc.
Qed.

Lemma for_each_length {St A B} (f : A -> M St B) l (s : St) ys s' :
  for_each f l s = (Ok ys, s') -> length ys = length l.
Proof.
  revert s ys s'. induction l as [|x l IH]; intros s ys s'; simpl.
  - unfold ret. by intros [= <- _].
  - unfold bind. destruct (f x s) as [[y|e] s1]; [|done].
    destruct (for_each f l s1) as [[zs|e] s2] eqn:Hrest; [|done].
    unfold ret. intros [= <- _]. simpl. f_equal. by eapply IH.
Qed.

(** Every row of [xfms_T] has one entry per volume. *)
Lemma arrange_source_row num_files tmp_folder i tf_file (fs : gmap string string) row fs' :
  arrange_source num_files tmp_folder i tf_file fs = (Ok row, fs') ->
  length row = Z.to_nat num_files.
Proof.
  unfold arrange_source, Py.times.
  destruct (decide _); [unfold ret; intros [= <- _]; apply length_replicate|].
  unfold bind, read_text. destruct (fs !! tf_file) as [raw|]; [|done].
  destruct (is_itk _); simpl; [|unfold ret; intros [= <- _]; apply length_replicate].
  destruct (decide (count_xforms _ = 1)); [unfold ret; intros [= <- _]; apply length_replicate|].
  destruct (decide (Z.of_nat _ <> num_files)) as [|Heq]; [done|].
  intros Hsplit. apply for_each_length in Hsplit. rewrite length_seq in Hsplit.
  apply dec_stable in Heq. lia.
Qed.

Lemma arrange_loop_rows num_files tmp_folder i chain acc (fs : gmap string string) rows fs' :
  arrange_loop num_files tmp_folder i chain acc fs = (Ok rows, fs') ->
  Forall (fun row => length row = Z.to_nat num_files) acc ->
  Forall (fun row => length row = Z.to_nat num_files) rows
  /\ length rows = length acc + length chain.
Proof.
  revert i acc fs. induction chain as [|tf chain IH]; intros i acc fs; simpl.
  - unfold ret. intros [= <- _] Hacc. split; [done|lia].
  - unfold bind. destruct (arrange_source _ _ _ _ _) as [[row|e] fs1] eqn:Hsrc; [|done].
    intros Hloop Hacc. apply arrange_source_row in Hsrc.
    apply IH in Hloop as [Hrows Hlen].
    + split; [done|]. rewrite Hlen, length_app. simpl. lia.
    + apply Forall_app. split; [done|]. by constructor.
Qed.

(** C3, for a chain that is not empty: when every source is a
    deformation field, a text file that is not an ITK transform file, or
    an ITK transform file with one transform, each of the N volumes gets
    the chain itself, in its order, and no file is written. *)
Theorem constant_sources_repeat_chain transforms num_files tmp_folder
    (fs : gmap string string) :
  transforms <> [] ->
  Forall (constant_case fs) transforms ->
  (1 <= num_files)%Z ->
  _arrange_xfms transforms num_files tmp_folder fs =
    (Ok (replicate (Z.to_nat num_files) transforms), fs).
Proof.
  intros Hne Hall _. unfold _arrange_xfms, bind.
  rewrite arrange_loop_constant by done. unfold ret. simpl.
  unfold Py.times. by rewrite zip_star_replicate.
Qed.

(** C6, for a chain that is not empty: a successful arrangement has one
    list per volume, N in all, and each list has one entry per source of
    the chain. *)
Theorem one_assignment_per_volume transforms num_files tmp_folder
    (fs : gmap string string) result fs' :
  transforms <> [] ->
  (1 <= num_files)%Z ->
  _arrange_xfms transforms num_files tmp_folder fs = (Ok result, fs') ->
  Z.of_nat (length result) = num_files
  /\ Forall (fun assignment => length assignment = length transforms) result.
Proof.
  intros Hne HN. unfold _arrange_xfms, bind.
  destruct (arrange_loop _ _ _ _ _ _) as [[rows|e] fs1] eqn:Hloop; [|done].
  unfold ret. intros [= <- _].
  apply arrange_loop_rows in Hloop as [Hrows Hlen]; [|done]. simpl in Hlen.
  destruct (zip_star_rectangle (Z.to_nat num_files) rows) as [Hn Hcols]; [|done|].
  { intros ->. by destruct transforms. }
  split; [lia|]. by rewrite <- Hlen.
Qed.

(** C4: when the loop reaches an ITK transform file whose count of
    transforms is above one and differs from the number of volumes, the
    arrangement raises the error that names both numbers, and the files
    are as they were when the loop reached that source. *)
Theorem count_mismatch_raises before tf_file after num_files tmp_folder
    (fs : gmap string string) rows fs1 raw :
  arrange_loop num_files tmp_folder 0 before [] fs = (Ok rows, fs1) ->
  guess_type tf_file = Some "text/plain" ->
  fs1 !! tf_file = Some raw ->
  is_itk (Py.strip raw) = true ->
  1 < count_xforms (Py.strip raw) ->
  Z.of_nat (count_xforms (Py.strip raw)) <> num_files ->
  _arrange_xfms (before ++ tf_file :: after) num_files tmp_folder fs =
    (Raise (RuntimeError
       ("Number of transforms (" +:+ pretty (count_xforms (Py.strip raw))
        +:+ ") found in the ITK file does not match the number of input image files ("
        +:+ pretty num_files +:+ ").")),
     fs1).
Proof.
  intros Hbefore Hkind Hraw Hitk Hmany Hdiff.
  unfold _arrange_xfms, bind. rewrite arrange_loop_app, Hbefore. simpl.
  unfold bind, arrange_source.
  rewrite decide_False by (by intros ?).
  unfold bind, read_text. rewrite Hraw, Hitk. simpl.
  rewrite decide_False by lia. by rewrite decide_True.
Qed.

End arrange_facts.

(** ** Containers of several transforms *)

Section container_facts.
Context `{FileNaming}.
Import Arrange.

Lemma data_line_spec l :
  data_line l = true -> Py.mem "#"%char l = false /\ Py.mem (ascii_of_nat 10) l = false.
Proof.
  unfold data_line. intros [H1 H2]%andb_true_iff.
  by apply negb_true_iff in H1, H2.
Qed.

Lemma well_formed_spec b :
  well_formed b = true ->
  data_line (transform_type b) = true /\ data_line (parameters b) = true
  /\ data_line (fixed_parameters b) = true
  /\ Py.all_chars Py.isspace (fixed_parameters b) = false.
Proof.
  unfold well_formed.
  intros [[[? ?]%andb_true_iff ?]%andb_true_iff ?%negb_true_iff]%andb_true_iff. done.
Qed.

Lemma start_token_no_LF j : Py.mem (ascii_of_nat 10) (start_token j) = false.
Proof.
  unfold start_token. rewrite mem_app. by rewrite pretty_nat_mem.
Qed.

Lemma start_token_inj i j : start_token i = start_token j -> i = j.
Proof.
  unfold start_token. intros Heq. apply (inj (String.app _)) in Heq.
  by apply (inj pretty) in Heq.
Qed.

Lemma data_line_not_token l j : data_line l = true -> l <> start_token j.
Proof. intros [Hl _]%data_line_spec ->. done. Qed.

Lemma extract_block_skip x lines i :
  x <> start_token i -> extract_block (x :: lines) i = extract_block lines i.
Proof.
  intros Hx. unfold extract_block. simpl. rewrite decide_False by done.
  destruct (Py.index (start_token i) lines) as [k|]; [|done]. simpl.
  unfold Py.slice. by replace (S k + 4 - (S k + 1)) with (k + 4 - (k + 1)) by lia.
Qed.

Lemma extract_block_here j l1 l2 l3 lines :
  extract_block (start_token j :: l1 :: l2 :: l3 :: lines) j = Some [l1; l2; l3].
Proof. unfold extract_block. simpl. by rewrite decide_True. Qed.

(** In the lines of well-formed blocks, the marker of block [i] is
    followed by the three lines of block [i]. *)
Lemma extract_block_found blocks :
  Forall (fun b => well_formed b = true) blocks ->
  forall n i b, blocks !! i = Some b ->
    extract_block (blocks_lines n blocks) (n + i) = Some (block_lines b).
Proof.
  induction 1 as [|b0 blocks Hwf _ IH]; intros n i b Hi; [done|].
  apply well_formed_spec in Hwf as (H1 & H2 & H3 & _).
  destruct i as [|i]; simpl in Hi.
  - injection Hi as ->. rewrite Nat.add_0_r. apply extract_block_here.
  - simpl. rewrite extract_block_skip by (intros ?%start_token_inj; lia).
    rewrite !extract_block_skip by (by apply data_line_not_token).
    replace (n + S i) with (S n + i) by lia. by apply IH.
Qed.

Lemma blocks_lines_no_LF n blocks :
  Forall (fun b => well_formed b = true) blocks ->
  Forall (fun l => Py.mem (ascii_of_nat 10) l = false) (blocks_lines n blocks).
Proof.
  intros Hall. revert n. induction Hall as [|b blocks Hwf _ IH]; intros n; [constructor|].
  apply well_formed_spec in Hwf as (H1 & H2 & H3 & _).
  apply data_line_spec in H1 as [_ H1], H2 as [_ H2], H3 as [_ H3].
  simpl. repeat constructor; try done. apply start_token_no_LF.
Qed.

Lemma count_go_miss sub c t :
  Py.startswith sub (String c t) = false ->
  Py.count_go sub 0 (String c t) = Py.count_go sub 0 t.
Proof. intros Hno. simpl. simpl in Hno. by rewrite Hno. Qed.

Lemma count_blocks n blocks :
  Forall (fun b => well_formed b = true) blocks ->
  Py.count_go "#Transform" 0 (Py.join_tail Py.LF (blocks_lines n blocks)) = length blocks.
Proof.
  intros Hall. revert n. induction Hall as [|b blocks Hwf _ IH]; intros n; [done|].
  apply well_formed_spec in Hwf as (H1 & H2 & H3 & _).
  apply data_line_spec in H1 as [H1 _], H2 as [H2 _], H3 as [H3 _].
  cbn [blocks_lines block_lines app Py.join_tail].
  unfold start_token. rewrite !append_assoc.
  rewrite (count_go_free "#" "Transform" Py.LF) by done.
  change ("#Transform " +:+ ?x) with ("#Transform" +:+ " " +:+ x).
  rewrite count_go_hit.
  rewrite (count_go_free "#" "Transform" " ") by done.
  rewrite (count_go_free "#" "Transform" (pretty n)) by (by apply pretty_nat_mem).
  rewrite (count_go_free "#" "Transform" Py.LF) by done.
  rewrite (count_go_free "#" "Transform" (transform_type b)) by done.
  rewrite (count_go_free "#" "Transform" Py.LF) by done.
  rewrite (count_go_free "#" "Transform" (parameters b)) by done.
  rewrite (count_go_free "#" "Transform" Py.LF) by done.
  rewrite (count_go_free "#" "Transform" (fixed_parameters b)) by done.
  by rewrite IH.
Qed.

Lemma blocks_end_visibly n blocks b :
  last blocks = Some b ->
  Py.ends_visibly (fixed_parameters b) = true ->
  Py.ends_visibly (Py.join_tail Py.LF (blocks_lines n blocks)) = true.
Proof.
  intros Hlast Hend. revert n Hlast.
  induction blocks as [|b0 blocks IH]; intros n Hlast; [done|].
  cbn [blocks_lines block_lines app Py.join_tail].
  do 7 apply ends_visibly_app.
  destruct blocks as [|b' blocks].
  - injection Hlast as ->. cbn [blocks_lines Py.join_tail]. by rewrite append_empty_r.
  - apply ends_visibly_app. by apply IH.
Qed.

(** What the code reads from a well-formed container whose last line
    ends in a character that is not whitespace: the text without what
    follows its last line, recognised as an ITK file, with as many
    markers as blocks, and the lines of the blocks after the first line. *)
Lemma read_container version n blocks b trailer :
  last blocks = Some b ->
  Py.ends_visibly (fixed_parameters b) = true ->
  data_line version = true ->
  Forall (fun b => well_formed b = true) blocks ->
  Py.all_chars Py.isspace trailer = true ->
  let text :=
    Py.join Py.LF (("#Insight Transform File" +:+ version) :: blocks_lines n blocks) in
  Py.strip (text +:+ trailer) = text
  /\ is_itk text = true
  /\ count_xforms text = length blocks
  /\ body_lines text = blocks_lines n blocks.
Proof.
  intros Hlast Hend [Hhash Hlf]%data_line_spec Hall Htrail text. unfold text.
  rewrite join_cons, !append_assoc.
  split; [|split; [|split]].
  - unfold Py.strip.
    change (Py.lstrip ("#Insight Transform File" +:+ ?t))
      with ("#Insight Transform File" +:+ t).
    rewrite <- !append_assoc. rewrite rstrip_spaces_end by done.
    rewrite !append_assoc.
    apply rstrip_visible. do 2 apply ends_visibly_app. by eapply blocks_end_visibly.
  - apply startswith_app.
  - unfold count_xforms, Py.count.
    change ("#Insight Transform File" +:+ ?x)
      with (String "#" ("Insight Transform File" +:+ x)).
    rewrite count_go_miss by done.
    rewrite (count_go_free "#" "Transform" "Insight Transform File") by done.
    rewrite (count_go_free "#" "Transform" version) by done.
    by apply count_blocks.
  - unfold body_lines, Py.split, Py.LF. rewrite <- append_assoc.
    rewrite split_join_tail; [done| |].
    + rewrite mem_app. by rewrite Hlf.
    + by apply blocks_lines_no_LF.
Qed.

(** *** The blocks as they are read *)

Lemma rtrim_well_formed b : well_formed b = true -> well_formed (rtrim b) = true.
Proof.
  intros (H1 & H2 & [H3 H3']%data_line_spec & H4)%well_formed_spec.
  unfold well_formed. simpl. rewrite H1, H2. unfold data_line.
  rewrite !rstrip_mem, rstrip_not_blank by done. done.
Qed.

Lemma rtrim_ends_visibly b :
  well_formed b = true -> Py.ends_visibly (fixed_parameters (rtrim b)) = true.
Proof.
  intros (_ & _ & _ & H4)%well_formed_spec. simpl. by rewrite rstrip_ends_visibly, H4.
Qed.

Lemma rtrim_visible b : Py.ends_visibly (fixed_parameters b) = true -> rtrim b = b.
Proof. intros Hend. destruct b as [t p f]. unfold rtrim. simpl in *. by rewrite rstrip_visible. Qed.

Lemma rtrim_idemp b : well_formed b = true -> rtrim (rtrim b) = rtrim b.
Proof. intros Hb. by apply rtrim_visible, rtrim_ends_visibly. Qed.

Lemma as_read_cons b b' rest : as_read (b :: b' :: rest) = b :: as_read (b' :: rest).
Proof. done. Qed.

Lemma as_read_length blocks : length (as_read blocks) = length blocks.
Proof.
  induction blocks as [|b [|b' rest] IH]; [done..|].
  rewrite as_read_cons. simpl in *. by rewrite IH.
Qed.

Lemma as_read_last blocks b : last blocks = Some b -> last (as_read blocks) = Some (rtrim b).
Proof.
  induction blocks as [|b0 [|b' rest] IH]; [done| |].
  - by intros [= ->].
  - intros Hlast. rewrite as_read_cons.
    change (last (b0 :: as_read (b' :: rest))) with
      (match as_read (b' :: rest) with [] => Some b0 | _ => last (as_read (b' :: rest)) end).
    pose proof (as_read_length (b' :: rest)) as Hlen.
    destruct (as_read (b' :: rest)); [done|]. by apply IH.
Qed.

Lemma as_read_well_formed blocks :
  Forall (fun b => well_formed b = true) blocks ->
  Forall (fun b => well_formed b = true) (as_read blocks).
Proof.
  induction blocks as [|b [|b' rest] IH]; [done| |].
  - intros [Hb _]%Forall_cons. constructor; [|done]. by apply rtrim_well_formed.
  - intros [Hb Hrest]%Forall_cons. rewrite as_read_cons. constructor; [done|]. by apply IH.
Qed.

(** Block [i] is read as it is, the last block without the whitespace
    at its end. *)
Lemma as_read_lookup blocks i b :
  blocks !! i = Some b ->
  as_read blocks !! i = Some (if decide (S i = length blocks) then rtrim b else b).
Proof.
  revert i. induction blocks as [|b0 [|b' rest] IH]; intros i Hi; [done| |].
  - destruct i as [|i]; [|done]. injection Hi as ->. done.
  - rewrite as_read_cons. destruct i as [|i].
    + injection Hi as ->. destruct (decide _) as [Hlen|_]; [simpl in Hlen; lia|done].
    + simpl in Hi. change ((b0 :: as_read (b' :: rest)) !! S i) with (as_read (b' :: rest) !! i).
      rewrite (IH i Hi). simpl.
      destruct (decide (S i = S (length rest))), (decide (S (S i) = S (S (length rest))));
        done || lia.
Qed.

Lemma as_read_text n blocks b :
  last blocks = Some b ->
  exists ws, Py.all_chars Py.isspace ws = true
    /\ Py.join_tail Py.LF (blocks_lines n blocks)
       = Py.join_tail Py.LF (blocks_lines n (as_read blocks)) +:+ ws.
Proof.
  intros Hlast. destruct (rstrip_split (fixed_parameters b)) as (ws & Hf & Hws).
  exists ws. split; [done|]. revert n Hlast.
  induction blocks as [|b0 [|b' rest] IH]; intros n Hlast; [done| |].
  - injection Hlast as ->. cbn [as_read blocks_lines block_lines rtrim app Py.join_tail
      transform_type parameters fixed_parameters].
    rewrite !append_empty_r, ?append_assoc. by rewrite <- Hf.
  - rewrite as_read_cons.
    change (blocks_lines n (b0 :: ?l))
      with ((start_token n :: block_lines b0) ++ blocks_lines (S n) l).
    rewrite !join_tail_app, append_assoc. f_equal. by apply IH.
Qed.

(** What the code reads from any well-formed container. *)
Lemma read_any_container version blocks trailer :
  blocks <> [] ->
  data_line version = true ->
  Forall (fun b => well_formed b = true) blocks ->
  Py.all_chars Py.isspace trailer = true ->
  let text :=
    Py.join Py.LF (("#Insight Transform File" +:+ version)
                     :: blocks_lines 0 (as_read blocks)) in
  Py.strip (container_text version blocks trailer) = text
  /\ is_itk text = true
  /\ count_xforms text = length blocks
  /\ body_lines text = blocks_lines 0 (as_read blocks).
Proof.
  intros Hne Hver Hall Htrail text.
  destruct (last blocks) as [b|] eqn:Hlast; [|by apply last_None in Hlast].
  destruct (as_read_text 0 blocks b Hlast) as (ws & Hws & Htext).
  assert (well_formed b = true) as Hb.
  { apply last_Some in Hlast as [front ->]. apply Forall_app in Hall as [_ Hall].
    by apply Forall_cons in Hall as [? _]. }
  destruct (read_container version 0 (as_read blocks) (rtrim b) (ws +:+ trailer))
    as (Hstrip & Hitk & Hcount & Hbody).
  - by apply as_read_last.
  - by apply rtrim_ends_visibly.
  - done.
  - by apply as_read_well_formed.
  - clear -Hws Htrail. induction ws as [|c ws IH]; [done|].
    simpl in Hws. apply andb_true_iff in Hws as [Hc Hws]. rewrite append_cons. simpl.
    by rewrite Hc, IH.
  - rewrite as_read_length in Hcount. split; [|done].
    unfold container_text, text. rewrite join_cons, Htext, <- Hstrip.
    f_equal. rewrite join_cons. by rewrite ?append_assoc.
Qed.

(** The file written for a block is the container of that block alone,
    whatever the number of the block was. *)
Lemma standalone_is_container b :
  standalone (block_lines b) = container_text " V1.0" [b] Py.LF.
Proof.
  unfold standalone, container_text. rewrite !join_cons. simpl.
  by rewrite ?append_assoc, ?append_empty_r.
Qed.

Lemma zip_star_single {A} (row : list A) :
  Py.zip_star [row] = (fun x => [x]) <$> row.
Proof.
  unfold Py.zip_star. simpl. apply list_eq. intros j.
  rewrite !list_lookup_fmap.
  destruct (row !! j) as [x|] eqn:Hj.
  - rewrite (proj2 (lookup_seq 0 (length row) j j)); [|by split; [|eapply lookup_lt_Some]].
    simpl. by rewrite Hj.
  - rewrite (proj2 (lookup_ge_None (seq 0 (length row)) j)); [done|].
    rewrite length_seq. by apply lookup_ge_None.
Qed.

(** The inner loop over the blocks from [j] on, when the names of the
    output files can be formatted. *)
Lemma split_loop template out_base all :
  Forall (fun b => well_formed b = true) all ->
  forall rest j (fs : gmap string string),
    (forall i b, rest !! i = Some b -> all !! (j + i) = Some b) ->
    (forall i, j <= i < j + length rest -> template i = Ok (out_base i)) ->
    for_each (split_xform (blocks_lines 0 all) template) (seq j (length rest)) fs
    = (Ok (out_base <$> seq j (length rest)),
       foldl (fun acc p => <[out_base p.1 := standalone (block_lines p.2)]> acc) fs
             (zip (seq j (length rest)) rest)).
Proof.
  intros Hwf. induction rest as [|b rest IH]; intros j fs Hrest Hnames; [done|].
  assert (extract_block (blocks_lines 0 all) j = Some (block_lines b)) as Hfound.
  { apply (extract_block_found all Hwf 0 j b).
    rewrite <- (Nat.add_0_r j). by apply Hrest. }
  simpl. unfold bind at 1. unfold split_xform at 1. rewrite Hfound.
  rewrite Hnames by (simpl; lia).
  unfold bind, lift, write_text, modify, ret. simpl.
  rewrite IH; [done| |].
  - intros i b' Hi. replace (S j + i) with (j + S i) by lia. by apply Hrest.
  - intros i Hi. apply Hnames. simpl. lia.
Qed.

(** A well-formed container of two or more blocks, as many as volumes,
    at position [pos] of the chain: one file per block as it was read. *)
Lemma arrange_source_container pos tf_file tmp_folder (fs : gmap string string)
    version blocks trailer out_base :
  guess_type tf_file = Some "text/plain" ->
  fs !! tf_file = Some (container_text version blocks trailer) ->
  1 < length blocks ->
  well_formed_container version blocks trailer = true ->
  (forall i, i < length blocks ->
     str_format (fname_presuffix tf_file ("_pos-" +:+ Py.zpad 3 pos +:+ "_xfm-{:05d}")
                   tmp_folder) i = Ok (out_base i)) ->
  arrange_source (Z.of_nat (length blocks)) tmp_folder pos tf_file fs
  = (Ok (out_base <$> seq 0 (length blocks)), written out_base (as_read blocks) fs).
Proof.
  intros Hkind Hfile Hmany Hwfc Hnames.
  unfold well_formed_container in Hwfc.
  apply andb_true_iff in Hwfc as [[Hver Hwf]%andb_true_iff Htrail].
  rewrite forallb_forall in Hwf. apply (proj2 (List.Forall_forall _ _)) in Hwf.
  destruct (read_any_container version blocks trailer)
    as (Hstrip & Hitk & Hcount & Hbody);
    [intros ->; simpl in Hmany; lia|done..|].
  unfold arrange_source. rewrite decide_False by (by intros ?).
  unfold bind, read_text. rewrite Hfile.
  rewrite Hstrip, Hitk, Hcount, Hbody. simpl.
  rewrite decide_False by lia. rewrite decide_False by (by intros ?).
  unfold written. rewrite <- (as_read_length blocks).
  apply split_loop.
  - by apply as_read_well_formed.
  - done.
  - intros i Hi. apply Hnames. rewrite as_read_length in Hi. lia.
Qed.

(** C5, as the code has it.  A well-formed container of two or more
    blocks, as many as volumes, is the last source of a chain, and the
    names of the output files can be formatted.  The arrangement writes
    one file per block.  The file of block [i] holds the line
    [#Insight Transform File V1.0], the line [#Transform 0] whatever [i]
    is, the three lines of the block as the code read them and a line
    feed after each line (the text ends with the empty line).  The lines
    are read as they are, but for the last line of the container, which
    has lost the whitespace at its end to [strip] (line 182).  The file
    is a well-formed container of one block, which the code reads back
    as one transform with the lines of the block, again without the
    whitespace at the end of the last; so a block whose last line ends
    in a character that is not whitespace comes back as it was. *)
Theorem split_blocks_round_trip before tf_file tmp_folder (fs : gmap string string)
    rows fs1 version blocks trailer out_base :
  arrange_loop (Z.of_nat (length blocks)) tmp_folder 0 before [] fs = (Ok rows, fs1) ->
  guess_type tf_file = Some "text/plain" ->
  fs1 !! tf_file = Some (container_text version blocks trailer) ->
  1 < length blocks ->
  well_formed_container version blocks trailer = true ->
  (forall i, i < length blocks ->
     str_format (fname_presuffix tf_file
                   ("_pos-" +:+ Py.zpad 3 (length before) +:+ "_xfm-{:05d}")
                   tmp_folder) i = Ok (out_base i)) ->
  _arrange_xfms (before ++ [tf_file]) (Z.of_nat (length blocks)) tmp_folder fs
    = (Ok (Py.zip_star (rows ++ [out_base <$> seq 0 (length blocks)])),
       written out_base (as_read blocks) fs1)
  /\ (forall i b, blocks !! i = Some b ->
        as_read blocks !! i = Some (if decide (S i = length blocks) then rtrim b else b))
  /\ (forall b, b ∈ as_read blocks ->
       let artifact := standalone (block_lines b) in
       artifact = "#Insight Transform File V1.0" +:+ Py.LF +:+ "#Transform 0" +:+ Py.LF
                  +:+ transform_type b +:+ Py.LF +:+ parameters b +:+ Py.LF
                  +:+ fixed_parameters b +:+ Py.LF
       /\ artifact = container_text " V1.0" [b] Py.LF
       /\ well_formed_container " V1.0" [b] Py.LF = true
       /\ is_itk (Py.strip artifact) = true
       /\ count_xforms (Py.strip artifact) = 1
       /\ extract_block (body_lines (Py.strip artifact)) 0 = Some (block_lines (rtrim b)))
  /\ (forall b, Py.ends_visibly (fixed_parameters b) = true -> rtrim b = b).
Proof.
  intros Hbefore Hkind Hfile Hmany Hwfc Hnames.
  split; [|split; [by apply as_read_lookup|split; [|by apply rtrim_visible]]].
  - unfold _arrange_xfms, bind. rewrite arrange_loop_app, Hbefore. simpl.
    unfold bind.
    by rewrite (arrange_source_container (length before) tf_file tmp_folder fs1
                  version blocks trailer out_base).
  - unfold well_formed_container in Hwfc.
    apply andb_true_iff in Hwfc as [[Hver Hwf]%andb_true_iff Htrail].
    rewrite forallb_forall in Hwf. apply (proj2 (List.Forall_forall _ _)) in Hwf.
    apply as_read_well_formed in Hwf.
    intros b Hb artifact.
    assert (well_formed b = true) as Hb'.
    { by apply (proj1 (Forall_forall _ _) Hwf). }
    assert (artifact = container_text " V1.0" [b] Py.LF) as Hart
      by apply standalone_is_container.
    split.
    { unfold artifact, standalone, base_xform, block_lines. cbn [app].
      rewrite join_cons. cbn [Py.join_tail].
      by rewrite ?append_assoc, ?append_empty_r. }
    split; [done|].
    split; [unfold well_formed_container; simpl; by rewrite Hb'|].
    rewrite Hart.
    destruct (read_any_container " V1.0" [b] Py.LF) as (Hstrip & Hitk & Hcount & Hbody);
      [done|done|by constructor|done|].
    rewrite Hstrip, Hbody.
    split; [done|]. split; [done|].
    apply (extract_block_found [rtrim b] ltac:(constructor; [by apply rtrim_well_formed|done])
             0 0 (rtrim b) eq_refl).
Qed.

End container_facts.

(** ** The rotation matrix in the output of [antsTransformInfo] *)

Section rotation_facts.
Context {F : Type} `{Rotation.TransformInfo F}.
Import Rotation.

Lemma repr_byte_plain c : plain_char c = true -> Py.repr_byte "'" c = String c EmptyString.
Proof.
  destruct c as [[] [] [] [] [] [] [] []]; intros Hc; try discriminate Hc; reflexivity.
Qed.

Lemma repr_body_app q a b : Py.repr_body q (a +:+ b) = Py.repr_body q a +:+ Py.repr_body q b.
Proof.
  induction a as [|c a IH]; [done|]. rewrite append_cons. simpl.
  by rewrite IH, append_assoc.
Qed.

Lemma repr_body_plain l : plain_line l = true -> Py.repr_body "'" l = l.
Proof.
  unfold plain_line. induction l as [|c l IH]; [done|]. simpl.
  intros [Hc Hl]%andb_true_iff. by rewrite repr_byte_plain, IH.
Qed.

Lemma repr_body_lines parts :
  Forall (fun l => plain_line l = true) parts ->
  Py.repr_body "'" (Py.join_tail Py.LF parts) = Py.join_tail Py.BSLASH_N parts.
Proof.
  induction 1 as [|l parts Hl _ IH]; [done|].
  cbn [Py.join_tail]. rewrite !repr_body_app, IH.
  rewrite (repr_body_plain l) by done. reflexivity.
Qed.

Lemma plain_line_mem c l : plain_char c = false -> plain_line l = true -> Py.mem c l = false.
Proof. intros Hc Hl. by eapply mem_all_chars. Qed.

Lemma mem_join_tail c sep parts :
  Py.mem c sep = false -> Forall (fun l => Py.mem c l = false) parts ->
  Py.mem c (Py.join_tail sep parts) = false.
Proof.
  intros Hsep. induction 1 as [|l parts Hl _ IH]; [done|].
  cbn [Py.join_tail]. by rewrite !mem_app, Hsep, Hl, IH.
Qed.

Lemma join_tail_snoc sep parts l t :
  Py.join_tail sep (parts ++ [l]) +:+ t = Py.join_tail sep (parts ++ [l +:+ t]).
Proof.
  rewrite !join_tail_app. cbn [Py.join_tail].
  by rewrite ?append_assoc, ?append_empty_r.
Qed.

(** What [str(out)] is for plain lines, and how the code cuts it. *)
Lemma repr_of_plain_lines first mid last :
  plain_line first = true -> Forall (fun l => plain_line l = true) mid ->
  plain_line last = true ->
  Py.bytes_repr (Py.join Py.LF (first :: mid ++ [last]))
  = ("b'" +:+ first) +:+ Py.join_tail Py.BSLASH_N (mid ++ [last +:+ "'"]).
Proof.
  intros Hfirst Hmid Hlast.
  assert (Forall (fun l => plain_line l = true) (mid ++ [last])) as Hall.
  { apply Forall_app. split; [done|]. by constructor. }
  rewrite join_cons. unfold Py.bytes_repr, Py.repr_quote.
  rewrite mem_app, (plain_line_mem "'" first), mem_join_tail; [|done| |done..].
  - simpl. rewrite repr_body_app, (repr_body_plain first), repr_body_lines by done.
    rewrite <- join_tail_snoc. by rewrite ?append_assoc.
  - eapply Forall_impl; [exact Hall|]. intros l Hl. by apply plain_line_mem.
Qed.

Lemma split_repr first mid last :
  plain_line first = true -> Forall (fun l => plain_line l = true) mid ->
  plain_line last = true ->
  Py.split Py.BSLASH_N (Py.bytes_repr (Py.join Py.LF (first :: mid ++ [last])))
  = ("b'" +:+ first) :: mid ++ [last +:+ "'"].
Proof.
  intros Hfirst Hmid Hlast. rewrite repr_of_plain_lines by done.
  unfold Py.split, Py.BSLASH_N.
  rewrite (split_join_tail "\" "n" EmptyString); [done| |].
  - rewrite mem_app. by rewrite (plain_line_mem "\" first).
  - apply Forall_app. split.
    + eapply Forall_impl; [exact Hmid|]. intros l Hl. by apply plain_line_mem.
    + constructor; [|done]. rewrite mem_app. by rewrite (plain_line_mem "\" last).
Qed.

Lemma strip_keeps_head c s :
  Py.isspace c = false -> exists t, Py.strip (String c s) = String c t.
Proof.
  intros Hc. unfold Py.strip. simpl. rewrite Hc. simpl.
  destruct (Py.rstrip s); rewrite ?Hc; by eexists.
Qed.

Lemma lstrip_keeps_end s c :
  Py.isspace c = false ->
  Py.lstrip (s +:+ String c EmptyString) = Py.lstrip s +:+ String c EmptyString.
Proof.
  intros Hc. induction s as [|d s IH].
  - change (Py.lstrip (String c EmptyString) = String c EmptyString).
    simpl. by rewrite Hc.
  - rewrite append_cons. simpl. destruct (Py.isspace d); [done|].
    by rewrite append_cons.
Qed.

Lemma strip_keeps_end s c :
  Py.isspace c = false ->
  Py.last_char (Py.strip (s +:+ String c EmptyString)) = Some c.
Proof.
  intros Hc. unfold Py.strip. rewrite lstrip_keeps_end by done.
  rewrite rstrip_visible.
  - by rewrite last_char_app_cons.
  - apply ends_visibly_app. unfold Py.ends_visibly. simpl. by rewrite Hc.
Qed.

Lemma start_lines_from_succ n lines :
  start_lines_from (S n) lines = S <$> start_lines_from n lines.
Proof.
  revert n. induction lines as [|l lines IH]; intros n; [done|].
  simpl. destruct (decide _); rewrite IH; done.
Qed.

Lemma start_lines_from_snoc n lines l :
  l <> "Matrix:" -> start_lines_from n (lines ++ [l]) = start_lines_from n lines.
Proof.
  intros Hl. revert n. induction lines as [|x lines IH]; intros n; simpl.
  - by rewrite decide_False.
  - destruct (decide _); by rewrite IH.
Qed.

(** The first and the last line never count as markers: one starts with
    the letter b, the other ends with the quote. *)
Lemma start_lines_between first mid last :
  start_lines_of (Py.strip <$> ("b'" +:+ first) :: mid ++ [last +:+ "'"])
  = S <$> start_lines_of (Py.strip <$> mid).
Proof.
  unfold start_lines_of. rewrite fmap_cons, fmap_app. simpl.
  destruct (strip_keeps_head "b" ("'" +:+ first)) as [t Ht]; [done|].
  change ("b'" +:+ first) with (String "b" ("'" +:+ first)).
  rewrite Ht. rewrite decide_False by done.
  rewrite start_lines_from_snoc.
  - apply start_lines_from_succ.
  - intros Heq. pose proof (strip_keeps_end last "'" eq_refl) as Hend.
    rewrite Heq in Hend. done.
Qed.

(** X21: what the function does with an output of plain lines.  Take the
    lines between the first and the last, each without the whitespace
    around it.  When none of them is [Matrix:] the matrix is not found;
    when more than one is, there are too many; when exactly one is and
    three more of these lines follow it, the result is what [np.array]
    makes of those three lines, each split at whitespace and every piece
    read as a float.  The first and the last line of the output never
    count: in [str(out)] they carry the letter b and the quotes. *)
Theorem matrix_between_first_and_last_line transform first mid last :
  plain_line first = true ->
  Forall (fun l => plain_line l = true) mid ->
  plain_line last = true ->
  info_stdout (Py.split_ws ("antsTransformInfo " +:+ transform))
    = Some (Py.join Py.LF (first :: mid ++ [last])) ->
  let lines := Py.strip <$> mid in
  (start_lines_of lines = [] ->
     rotation_matrix_from_transform transform
     = Raise (ValueError ("Unable to read rotation matrix from " +:+ transform)))
  /\ (1 < length (start_lines_of lines) ->
     rotation_matrix_from_transform transform
     = Raise (ValueError ("Too many rotation matrices in " +:+ transform)))
  /\ (forall s, start_lines_of lines = [s] -> s + 3 < length mid ->
     rotation_matrix_from_transform transform
     = match parse_rows (Py.slice (s + 1) (s + 4) lines) with
       | Ok rows => np_array rows
       | Raise e => Raise e
       end).
Proof.
  intros Hfirst Hmid Hlast Hout lines.
  unfold rotation_matrix_from_transform. rewrite Hout.
  unfold matrix_from_output.
  change (String.length (Py.bytes_repr ?b) =? 0) with false. cbv iota.
  rewrite split_repr by done. rewrite start_lines_between. fold lines.
  rewrite length_fmap.
  split; [|split].
  - intros ->. done.
  - intros Hmany. destruct (start_lines_of lines) as [|s [|s' rest]]; simpl in *; [lia..|done].
  - intros s -> Hs. cbn [fmap list_fmap length Nat.ltb Nat.leb Nat.eqb].
    change (list_fmap string string Py.strip (mid ++ [last +:+ "'"]))
      with (Py.strip <$> mid ++ [last +:+ "'"]).
    rewrite fmap_app. fold lines. unfold Py.slice.
    replace (S s + 4 - (S s + 1)) with 3 by lia.
    replace (s + 4 - (s + 1)) with 3 by lia.
    replace (S s + 1) with (S (s + 1)) by lia. cbn [drop].
    assert (length lines = length mid) as Hlen by apply length_fmap.
    rewrite drop_app_le by lia. rewrite take_app_le; [done|].
    rewrite length_drop. lia.
Qed.

End rotation_facts.

(** ** The composite-transform splitter *)

Section disassemble_facts.
Context `{Disassemble.Subprocess}.
Import Disassemble.

(** C8: once the external call has returned, whatever its exit status,
    the interface raises exactly when the affine file or the warp file is
    missing, always the same error, and otherwise returns the two paths,
    affine first. *)
Theorem disassemble_checks_both_outputs in_file cwd files files' status :
  communicate ["CompositeTransformUtil"; "--disassemble"; in_file; "disassemble"] files
    = Some (files', status) ->
  ((exists e, (_run_interface in_file cwd files).1 = Raise e)
     <-> (affine_out cwd ∉ files' \/ warp_out cwd ∉ files'))
  /\ (forall e, (_run_interface in_file cwd files).1 = Raise e ->
        e = Exception "unable to unpack composite transform")
  /\ (affine_out cwd ∈ files' -> warp_out cwd ∈ files' ->
      (_run_interface in_file cwd files).1 = Ok [affine_out cwd; warp_out cwd]).
Proof.
  intros Hcall. unfold _run_interface, exists_. rewrite Hcall.
  destruct (decide (affine_out cwd ∈ files')) as [Ha|Ha];
    destruct (decide (warp_out cwd ∈ files')) as [Hw|Hw].
  - rewrite (bool_decide_eq_true_2 _ Ha), (bool_decide_eq_true_2 _ Hw). simpl.
    split; [|done]. split; [by intros [? ?]|]. by intros [?|?].
  - rewrite (bool_decide_eq_true_2 _ Ha), (bool_decide_eq_false_2 _ Hw). simpl.
    split; [|split; [by intros ? [= <-]|done]]. split; [by right|by eexists].
  - rewrite (bool_decide_eq_false_2 _ Ha), (bool_decide_eq_true_2 _ Hw). simpl.
    split; [|split; [by intros ? [= <-]|done]]. split; [by left|by eexists].
  - rewrite (bool_decide_eq_false_2 _ Ha), (bool_decide_eq_false_2 _ Hw). simpl.
    split; [|split; [by intros ? [= <-]|done]]. split; [by left|by eexists].
Qed.

End disassemble_facts.

(** ** The executor on two volumes *)

Section executor_examples.
Import Executor.
#[local] Existing Instance Demo.naming.
#[local] Existing Instance Demo.ants.

Lemma applytfms_rewrites_iff_dtypes_differ_witness :
  _applytfms ("a.nii", ["x.mat"], 0, "/cwd") Demo.flagged =
    (Ok ("/cwd/a.nii_xform-00000",
         "antsApplyTransforms -i a.nii -o /cwd/a.nii_xform-00000 -t x.mat"),
     World (<["/cwd/a.nii_xform-00000" := Nifti "int16" 1]>
              (<["/cwd/a.nii_xform-00000" := Nifti "float64" 1]> (images Demo.disk)))
           ∅ ∅ (delete "copy_dtype" (ifargs Demo.flagged))
           [JobStarted 0; Rewritten "/cwd/a.nii_xform-00000"]).
Proof.
  exact (applytfms_rewrites_iff_dtypes_differ "a.nii" ["x.mat"] 0 "/cwd" Demo.flagged
           (<["/cwd/a.nii_xform-00000" := Nifti "float64" 1]> (images Demo.disk))
           (Nifti "float64" 1) (Nifti "int16" 1)
           eq_refl eq_refl eq_refl eq_refl).
Defined.

(** The jobs of the two-volume run succeed as long as the two volumes
    stay on disk, so the run returns whatever the order of the jobs. *)
Lemma two_volume_jobs_succeed :
  Forall (job_succeeds Demo.volumes_present)
    (make_jobs ["a.nii"; "b.nii"] [["x.mat"]; ["y.mat"]] "/cwd").
Proof.
  unfold make_jobs. simpl.
  repeat apply List.Forall_cons; [| |apply List.Forall_nil];
    intros w [[a Ha] [b Hb]]; rewrite applytfms_cases; cbv zeta;
    unfold apply_run, Demo.ants;
    (rewrite bool_decide_eq_false_2
       by (intros Hin; apply elem_of_cons in Hin as [?|Hin];
           [done|by apply elem_of_nil in Hin]));
    rewrite ?Ha, ?Hb;
    match goal with |- context [job_out_file ?args] =>
      let out := eval vm_compute in (job_out_file args) in
      change (job_out_file args) with out
    end;
    rewrite lookup_insert_eq, lookup_insert_ne, ?Ha, ?Hb by done;
    repeat case_match;
    (do 2 eexists; split; [reflexivity|]);
    unfold Demo.volumes_present; simpl;
    rewrite ?lookup_insert_ne by done; by split; eexists.
Qed.

Lemma two_volume_run_returns sched n :
  sched ≡ₚ [0; 1] ->
  is_ok (_run_interface (Demo.two_volumes n) "/cwd" "/cwd/tmp-1" sched Demo.disk).1.
Proof.
  intros Hperm.
  apply (proj2 (run_results (Demo.two_volumes n) "/cwd" "/cwd/tmp-1" sched Demo.disk
                  eq_refl Hperm) Demo.volumes_present).
  - split; by eexists.
  - apply two_volume_jobs_succeed.
Qed.

Lemma outputs_in_submission_order_witness :
  exists outs w',
    _run_interface (Demo.two_volumes 2) "/cwd" "/cwd/tmp-1" [1; 0] Demo.disk = (Ok outs, w')
    /\ out_files outs = ["/cwd/a.nii_xform-00000"; "/cwd/b.nii_xform-00001"]
    /\ log_cmdline outs = Some "/cwd/command.txt"
    /\ texts w' !! "/cwd/command.txt" =
       Some (Py.join cmd_separator
               ["antsApplyTransforms -i a.nii -o /cwd/a.nii_xform-00000 -t x.mat";
                "antsApplyTransforms -i b.nii -o /cwd/b.nii_xform-00001 -t y.mat"]
             +:+ Py.LF).
Proof.
  destruct (_run_interface (Demo.two_volumes 2) "/cwd" "/cwd/tmp-1" [1; 0] Demo.disk)
    as [[outs|e] w'] eqn:Hrun; [|vm_compute in Hrun; discriminate Hrun].
  exists outs, w'. split; [reflexivity|].
  destruct (proj1 (outputs_in_submission_order (Demo.two_volumes 2) "/cwd" "/cwd/tmp-1"
                     [1; 0] Demo.disk eq_refl ltac:(simpl; lia) (perm_swap 0 1 []))
              outs w' Hrun) as [Hout Hlog].
  destruct (Hlog eq_refl) as [Hpath Htext].
  split; [exact Hout|]. split; [exact Hpath|exact Htext].
Defined.

Lemma dispatch_by_worker_count_witness :
  exists evs,
    trace (_run_interface (Demo.two_volumes 1) "/cwd" "/cwd/tmp-1" [] Demo.disk).2 = [] ++ evs
    /\ (1%Z = 1%Z ->
        pools_created evs = []
        /\ exists m, job_starts evs = seq 0 m /\ m <= 2
             /\ (is_ok (_run_interface (Demo.two_volumes 1) "/cwd" "/cwd/tmp-1" [] Demo.disk).1
                 -> m = 2))
    /\ ((1 < 1)%Z ->
        exists rest, evs = PoolCreated (Some 1%Z) :: rest
          /\ pools_created rest = []
          /\ job_starts rest = filter (fun i => i < 2) [])
    /\ ((1 < 1)%Z ->
        exists rest, evs = PoolCreated None :: rest
          /\ pools_created rest = []
          /\ job_starts rest = filter (fun i => i < 2) []).
Proof.
  apply (dispatch_by_worker_count (Demo.two_volumes 1) "/cwd" "/cwd/tmp-1" [] Demo.disk).
  - reflexivity.
  - apply surjective_pairing.
Defined.

(** C2 as stated fails: with zero workers, which is at most one, a pool
    is created (with [max_workers=None]) and runs the jobs. *)
Lemma zero_workers_create_a_pool :
  (0 <= 1)%Z
  /\ trace (_run_interface (Demo.two_volumes 0) "/cwd" "/cwd/tmp-1" [1; 0] Demo.disk).2 =
     [PoolCreated None; JobStarted 1; JobStarted 0].
Proof. split; [lia|]. vm_compute. reflexivity. Qed.

(** C9: a run whose second job fails raises the tool's error and leaves
    with its temporary directory still there, although a run whose jobs
    all succeed removes it. *)
Theorem tmp_dir_left_after_failed_job :
  let failed := _run_interface Demo.bad_transform "/cwd" "/cwd/tmp-1" [] Demo.disk in
  let passed := _run_interface (Demo.two_volumes 1) "/cwd" "/cwd/tmp-1" [] Demo.disk in
  failed.1 = Raise (ToolError "cannot read corrupt.mat")
  /\ bool_decide ("/cwd/tmp-1" ∈ dirs failed.2) = true
  /\ is_ok passed.1
  /\ bool_decide ("/cwd/tmp-1" ∈ dirs passed.2) = false.
Proof.
  cbv zeta. split; [vm_compute; reflexivity|].
  split; [vm_compute; reflexivity|].
  split; [vm_compute; by eexists|].
  vm_compute; reflexivity.
Qed.

End executor_examples.

(** ** The arrangement on a warp and two affine files *)

Section arrange_examples.
Import Arrange.
#[local] Existing Instance Demo.naming.

Lemma constant_sources_repeat_chain_witness :
  _arrange_xfms ["warp.nii.gz"; "one.txt"] 2 "/tmp/x" Demo.texts =
    (Ok (replicate (Z.to_nat 2) ["warp.nii.gz"; "one.txt"]), Demo.texts).
Proof.
  apply (constant_sources_repeat_chain ["warp.nii.gz"; "one.txt"] 2 "/tmp/x" Demo.texts).
  - discriminate.
  - apply Forall_cons. split; [left; vm_compute; discriminate|].
    apply Forall_cons. split; [|constructor].
    right. eexists. split; [reflexivity|]. right. vm_compute. reflexivity.
  - lia.
Defined.

(** C3 as stated fails for the chain without sources: every one of its
    sources is constant, but no volume gets an assignment. *)
Lemma empty_chain_is_not_repeated :
  Forall (constant_case ∅) []
  /\ (1 <= 1)%Z
  /\ _arrange_xfms [] 1 "/tmp/x" ∅ = (Ok [], ∅)
  /\ ([] : list (list string)) <> replicate (Z.to_nat 1) [].
Proof. split; [constructor|]. split; [lia|]. split; [reflexivity|]. discriminate. Qed.

Lemma one_assignment_per_volume_witness :
  Z.of_nat (length [["warp.nii.gz"; "/tmp/x/both.txt_pos-001_xfm-00000"];
                    ["warp.nii.gz"; "/tmp/x/both.txt_pos-001_xfm-00001"]]) = 2%Z
  /\ Forall (fun assignment => length assignment = length ["warp.nii.gz"; "both.txt"])
       [["warp.nii.gz"; "/tmp/x/both.txt_pos-001_xfm-00000"];
        ["warp.nii.gz"; "/tmp/x/both.txt_pos-001_xfm-00001"]].
Proof.
  apply (one_assignment_per_volume ["warp.nii.gz"; "both.txt"] 2 "/tmp/x" Demo.texts _
           (_arrange_xfms ["warp.nii.gz"; "both.txt"] 2 "/tmp/x" Demo.texts).2).
  - discriminate.
  - lia.
  - vm_compute. reflexivity.
Defined.

(** C6 as stated fails for the chain without sources: the arrangement
    succeeds and is empty, for any number of volumes. *)
Lemma empty_chain_has_no_assignment :
  (1 <= 2)%Z
  /\ _arrange_xfms [] 2 "/tmp/x" ∅ = (Ok [], ∅)
  /\ Z.of_nat (length ([] : list (list string))) <> 2%Z.
Proof. split; [lia|]. split; [reflexivity|]. simpl. lia. Qed.

Lemma count_mismatch_raises_witness :
  _arrange_xfms (["warp.nii.gz"] ++ "both.txt" :: ["one.txt"]) 3 "/tmp/x" Demo.texts =
    (Raise (RuntimeError
       ("Number of transforms (" +:+ pretty 2
        +:+ ") found in the ITK file does not match the number of input image files ("
        +:+ pretty 3%Z +:+ ").")),
     Demo.texts).
Proof.
  apply (count_mismatch_raises ["warp.nii.gz"] "both.txt" ["one.txt"] 3 "/tmp/x" Demo.texts
           [replicate 3 "warp.nii.gz"] Demo.texts
           (container_text " V1.0" Demo.blocks2 Py.LF)).
  - reflexivity.
  - reflexivity.
  - reflexivity.
  - vm_compute. reflexivity.
  - vm_compute. lia.
  - vm_compute. discriminate.
Defined.

Lemma split_blocks_round_trip_witness :
  _arrange_xfms (["warp.nii.gz"] ++ ["padded.txt"]) 2 "/tmp/x" Demo.padded_files =
    (Ok [["warp.nii.gz"; "/tmp/x/padded.txt_pos-001_xfm-00000"];
         ["warp.nii.gz"; "/tmp/x/padded.txt_pos-001_xfm-00001"]],
     <["/tmp/x/padded.txt_pos-001_xfm-00001" :=
         "#Insight Transform File V1.0" +:+ Py.LF +:+ "#Transform 0" +:+ Py.LF
         +:+ "Transform: AffineTransform_double_3_3" +:+ Py.LF
         +:+ "Parameters: 1 0 0 0 1 0 0 0 1 2 3 4" +:+ Py.LF
         +:+ "FixedParameters: 5 6 7" +:+ Py.LF]>
       (<["/tmp/x/padded.txt_pos-001_xfm-00000" :=
            Arrange.container_text " V1.0" (take 1 Demo.blocks2) Py.LF]>
          Demo.padded_files)).
Proof.
  assert (Hnames : forall i, i < 2 ->
            str_format "/tmp/x/padded.txt_pos-001_xfm-{:05d}" i
            = Ok ("/tmp/x/padded.txt_pos-001_xfm-" +:+ Py.zpad 5 i)).
  { intros [|[|i]] Hi; [reflexivity|reflexivity|lia]. }
  exact (proj1 (split_blocks_round_trip ["warp.nii.gz"] "padded.txt" "/tmp/x"
                  Demo.padded_files [replicate 2 "warp.nii.gz"] Demo.padded_files
                  " V1.0" Demo.padded Py.LF
                  (fun i => "/tmp/x/padded.txt_pos-001_xfm-" +:+ Py.zpad 5 i)
                  eq_refl eq_refl eq_refl (le_n 2) eq_refl Hnames)).
Defined.

(** C5 as stated fails for a container whose last line ends in blanks:
    the container is well formed, and the file written for its last
    block holds the last line without the blanks. *)
Lemma trailing_blanks_are_not_copied :
  well_formed_container " V1.0" Demo.padded Py.LF = true
  /\ Demo.padded !! 1 =
       Some (Block "Transform: AffineTransform_double_3_3"
               "Parameters: 1 0 0 0 1 0 0 0 1 2 3 4" "FixedParameters: 5 6 7  ")
  /\ (_arrange_xfms ["padded.txt"] 2 "/tmp/x" Demo.padded_files).1
     = Ok [["/tmp/x/padded.txt_pos-000_xfm-00000"]; ["/tmp/x/padded.txt_pos-000_xfm-00001"]]
  /\ (_arrange_xfms ["padded.txt"] 2 "/tmp/x" Demo.padded_files).2
       !! "/tmp/x/padded.txt_pos-000_xfm-00001"
     = Some (standalone ["Transform: AffineTransform_double_3_3";
                         "Parameters: 1 0 0 0 1 0 0 0 1 2 3 4";
                         "FixedParameters: 5 6 7"])
  /\ "FixedParameters: 5 6 7" <> "FixedParameters: 5 6 7  ".
Proof. repeat split; try (vm_compute; reflexivity). discriminate. Qed.

End arrange_examples.

(** ** The splitter and the matrix reader on sample outputs *)

Section tool_examples.
#[local] Existing Instance Demo.affine_only.
#[local] Existing Instance Demo.info.

Lemma disassemble_checks_both_outputs_witness :
  ((exists e, (Disassemble._run_interface "composite.h5" "/cwd" ∅).1 = Raise e)
     <-> (Disassemble.affine_out "/cwd" ∉ (∅ ∪ {[ "/cwd/00_disassemble_AffineTransform.mat" ]} : gset string)
          \/ Disassemble.warp_out "/cwd" ∉ (∅ ∪ {[ "/cwd/00_disassemble_AffineTransform.mat" ]} : gset string)))
  /\ (forall e, (Disassemble._run_interface "composite.h5" "/cwd" ∅).1 = Raise e ->
        e = Exception "unable to unpack composite transform")
  /\ (Disassemble.affine_out "/cwd" ∈ (∅ ∪ {[ "/cwd/00_disassemble_AffineTransform.mat" ]} : gset string) ->
      Disassemble.warp_out "/cwd" ∈ (∅ ∪ {[ "/cwd/00_disassemble_AffineTransform.mat" ]} : gset string) ->
      (Disassemble._run_interface "composite.h5" "/cwd" ∅).1
      = Ok [Disassemble.affine_out "/cwd"; Disassemble.warp_out "/cwd"]).
Proof.
  exact (disassemble_checks_both_outputs "composite.h5" "/cwd" ∅ _ 0%Z eq_refl).
Defined.

Lemma matrix_between_first_and_last_line_witness :
  Rotation.rotation_matrix_from_transform "affine.mat"
  = Ok [[1; 0; 0]; [0; 1; 0]; [0; 0; 1]]%Z.
Proof.
  exact (proj2 (proj2 (matrix_between_first_and_last_line "affine.mat"
                         "Transform information:" Demo.info_lines "  Offset: [0, 0, 0]"
                         eq_refl
                         ltac:(repeat constructor)
                         eq_refl eq_refl))
               0 eq_refl (le_n 4)).
Defined.

(** C7: the check for an empty output cannot fire.  The text that the
    function tests is [str(out)] of the bytes the tool printed, which is
    never empty: for a tool that printed nothing it is the letter b and
    two quotes.  So an empty output is not reported as such, but as an
    output without a matrix; and, the first line of that text starting
    with the letter b and a quote, a marker on the first line of the
    output is not seen although the lines of a matrix follow it. *)
Theorem empty_output_is_not_reported :
  Py.bytes_repr EmptyString = "b''"
  /\ Rotation.matrix_from_output "affine.mat" EmptyString
     = Raise (ValueError "Unable to read rotation matrix from affine.mat")
  /\ Rotation.matrix_from_output "affine.mat" EmptyString
     <> Raise (ValueError "affine.mat returned no transform info")
  /\ Rotation.matrix_from_output "affine.mat"
       (Py.join Py.LF ["Matrix:"; "1 0 0"; "0 1 0"; "0 0 1"; "Offset: 0 0 0"])
     = Raise (ValueError "Unable to read rotation matrix from affine.mat").
Proof.
  split; [reflexivity|]. split; [vm_compute; reflexivity|].
  split; [vm_compute; discriminate|]. vm_compute; reflexivity.
Qed.

End tool_examples.

(** * Further properties *)

(** ** More on the worker *)

Section worker_facts.
Context {V : Type} `{FileNaming} `{Executor.AntsApply V}.
Import Executor.

(** X1: when [ifargs] has no [copy_dtype] key, or a false value under it, the
    worker loads no image: it returns with the image files exactly as the
    external call left them, whether or not the output file is among
    them. *)
Theorem applytfms_without_copy_dtype in_file in_xform index newpath (w : world V) imgs :
  let args := (in_file, in_xform, index, newpath) in
  let out := job_out_file args in
  let kwargs := delete "copy_dtype" (ifargs w) in
  truthy (default (VBool false) (ifargs w !! "copy_dtype")) = false ->
  apply_run in_file in_xform out kwargs (images w) = Ok imgs ->
  _applytfms args w =
    (Ok (out, apply_cmdline in_file in_xform out kwargs),
     World imgs (texts w) (dirs w) kwargs (trace w ++ [JobStarted index])).
Proof.
  intros args out kwargs Hflag Hrun. unfold args. rewrite applytfms_cases. cbv zeta.
  fold args. fold out. fold kwargs. by rewrite Hrun, Hflag.
Qed.

(** X2: with [copy_dtype] on, a worker that returns leaves an output image
    whose data type is that of the input image. *)
Theorem applytfms_output_has_input_dtype in_file in_xform index newpath (w : world V) r w' :
  let args := (in_file, in_xform, index, newpath) in
  truthy (default (VBool false) (ifargs w !! "copy_dtype")) = true ->
  _applytfms args w = (Ok r, w') ->
  exists nii src,
    images w' !! job_out_file args = Some nii
    /\ images w' !! in_file = Some src
    /\ data_dtype nii = data_dtype src.
Proof.
  intros args Hflag. unfold args. rewrite applytfms_cases. cbv zeta. fold args.
  rewrite Hflag.
  destruct (apply_run _ _ _ _ _) as [imgs|e]; [|done].
  destruct (imgs !! job_out_file args) as [nii|] eqn:Hout; [|done].
  destruct (imgs !! in_file) as [src|] eqn:Hin; [|done].
  destruct (decide (data_dtype src <> data_dtype nii)) as [Hne|Heq].
  - intros [= _ <-]. simpl.
    assert (job_out_file args <> in_file) as Hpath.
    { intros Hsame. rewrite Hsame, Hin in Hout. by injection Hout as ->. }
    exists (set_data_dtype nii (data_dtype src)), src.
    rewrite lookup_insert_eq, lookup_insert_ne by done. done.
  - intros [= _ <-]. simpl. apply dec_stable in Heq.
    exists nii, src. done.
Qed.

(** X3: an error of the external call is the worker's error, as it is; the
    image files are untouched, and [copy_dtype] has left the shared
    dictionary all the same. *)
Theorem applytfms_surfaces_tool_error in_file in_xform index newpath (w : world V) e :
  let args := (in_file, in_xform, index, newpath) in
  apply_run in_file in_xform (job_out_file args) (delete "copy_dtype" (ifargs w)) (images w)
    = Raise e ->
  _applytfms args w =
    (Raise e,
     World (images w) (texts w) (dirs w) (delete "copy_dtype" (ifargs w))
           (trace w ++ [JobStarted index])).
Proof.
  intros args Hrun. unfold args. rewrite applytfms_cases. cbv zeta. fold args.
  by rewrite Hrun.
Qed.

(** X4: with [copy_dtype] on, a worker whose external call returned without
    leaving the output file raises [FileNotFoundError] for that path: the
    worker itself never checks that the call produced its output. *)
Theorem applytfms_missing_output in_file in_xform index newpath (w : world V) imgs :
  let args := (in_file, in_xform, index, newpath) in
  let out := job_out_file args in
  truthy (default (VBool false) (ifargs w !! "copy_dtype")) = true ->
  apply_run in_file in_xform out (delete "copy_dtype" (ifargs w)) (images w) = Ok imgs ->
  imgs !! out = None ->
  (_applytfms args w).1 = Raise (FileNotFoundError out).
Proof.
  intros args out Hflag Hrun Hout. unfold args. rewrite applytfms_cases. cbv zeta.
  fold args. fold out. by rewrite Hrun, Hflag, Hout.
Qed.

(** What a job records after its start: nothing, or one rewrite of its
    own output file, and that only when it found [copy_dtype] on. *)
Lemma applytfms_rewrites args (w : world V) r w' :
  _applytfms args w = (r, w') ->
  exists imgs more,
    w' = popped w (job_index args) imgs more
    /\ job_starts more = [] /\ pools_created more = []
    /\ (rewrites more = []
        \/ rewrites more = [job_out_file args]
           /\ truthy (default (VBool false) (ifargs w !! "copy_dtype")) = true).
Proof.
  destruct args as [[[in_file in_xform] index] newpath].
  rewrite applytfms_cases. cbv zeta. intros Hrun.
  destruct (truthy _) eqn:Hflag;
    repeat case_match; simplify_eq; do 2 eexists;
      (split; [reflexivity|]); repeat split; auto.
Qed.

Lemma rewrites_app (more evs : list event) :
  rewrites (more ++ evs) = rewrites more ++ rewrites evs.
Proof. apply omap_app. Qed.

(** Jobs that find no [copy_dtype] rewrite nothing. *)
Lemma for_each_jobs_no_flag jobs (w : world V) r w' :
  ifargs w !! "copy_dtype" = None ->
  for_each _applytfms jobs w = (r, w') ->
  exists evs, trace w' = trace w ++ evs /\ rewrites evs = [].
Proof.
  revert w r w'. induction jobs as [|args jobs IH]; intros w r w' Hflag Hrun.
  - run_monad. simplify_eq. exists []. by rewrite app_nil_r.
  - simpl in Hrun. unfold bind in Hrun.
    destruct (_applytfms args w) as [r1 w1] eqn:Hjob.
    apply applytfms_rewrites in Hjob as (imgs & more & -> & _ & _ & Hrw).
    destruct Hrw as [Hrw|[_ Hon]]; [|by rewrite Hflag in Hon].
    destruct r1 as [x|e].
    + destruct (for_each _applytfms jobs _) as [r2 w2] eqn:Hrest.
      apply IH in Hrest as (evs & Htr & Hevs); [|apply lookup_delete_eq].
      assert (w' = w2) as -> by (destruct r2; run_monad; congruence).
      exists (JobStarted (job_index args) :: more ++ evs).
      rewrite Htr. simpl. rewrite <- app_assoc. split; [done|].
      unfold rewrites in *. simpl. by rewrite omap_app, Hrw, Hevs.
    + simplify_eq. exists (JobStarted (job_index args) :: more). split; [done|].
      unfold rewrites in *. simpl. done.
Qed.

Lemma run_scheduled_no_flag jobs sched :
  forall futs (w : world V) futs' w',
  ifargs w !! "copy_dtype" = None ->
  foldl (run_scheduled jobs) (futs, w) sched = (futs', w') ->
  exists evs, trace w' = trace w ++ evs /\ rewrites evs = [].
Proof.
  induction sched as [|i sched IH]; intros futs w futs' w' Hflag Hfold.
  - simpl in Hfold. simplify_eq. exists []. by rewrite app_nil_r.
  - simpl in Hfold. unfold run_scheduled at 2 in Hfold. simpl in Hfold.
    destruct (jobs !! i) as [args|]; [|by eapply IH].
    destruct (_applytfms args w) as [r w1] eqn:Hjob.
    apply applytfms_rewrites in Hjob as (imgs & more & -> & _ & _ & Hrw).
    destruct Hrw as [Hrw|[_ Hon]]; [|by rewrite Hflag in Hon].
    apply IH in Hfold as (evs & Htr & Hevs); [|apply lookup_delete_eq].
    exists (JobStarted (job_index args) :: more ++ evs).
    rewrite Htr. simpl. rewrite <- app_assoc. split; [done|].
    unfold rewrites in *. simpl. by rewrite omap_app, Hrw, Hevs.
Qed.

(** The jobs of one run rewrite at most one file: the output of the job
    that starts first. *)
Lemma for_each_jobs_one_rewrite jobs (w : world V) r w' :
  for_each _applytfms jobs w = (r, w') ->
  exists evs, trace w' = trace w ++ evs
    /\ (rewrites evs = []
        \/ exists args, head jobs = Some args /\ rewrites evs = [job_out_file args]).
Proof.
  destruct jobs as [|args jobs]; intros Hrun.
  - run_monad. simplify_eq. exists []. rewrite app_nil_r. auto.
  - simpl in Hrun. unfold bind in Hrun.
    destruct (_applytfms args w) as [r1 w1] eqn:Hjob.
    apply applytfms_rewrites in Hjob as (imgs & more & -> & _ & _ & Hrw).
    assert (rewrites more = [] \/ rewrites more = [job_out_file args]) as Hmore
      by (destruct Hrw as [?|[? _]]; auto).
    destruct r1 as [x|e].
    + destruct (for_each _applytfms jobs _) as [r2 w2] eqn:Hrest.
      apply for_each_jobs_no_flag in Hrest as (evs & Htr & Hevs);
        [|apply lookup_delete_eq].
      assert (w' = w2) as -> by (destruct r2; run_monad; congruence).
      exists (JobStarted (job_index args) :: more ++ evs).
      rewrite Htr. simpl. rewrite <- app_assoc. split; [done|].
      rewrite rewrites_app, Hevs, app_nil_r.
      destruct Hmore as [->| ->]; [by left|right; by eexists].
    + simplify_eq. exists (JobStarted (job_index args) :: more). split; [done|].
      change (rewrites (JobStarted (job_index args) :: more)) with (rewrites more).
      destruct Hmore as [->| ->]; [by left|right; by eexists].
Qed.

Lemma run_scheduled_one_rewrite jobs sched :
  forall futs (w : world V) futs' w',
  foldl (run_scheduled jobs) (futs, w) sched = (futs', w') ->
  exists evs, trace w' = trace w ++ evs /\ length (rewrites evs) <= 1.
Proof.
  induction sched as [|i sched IH]; intros futs w futs' w' Hfold.
  - simpl in Hfold. simplify_eq. exists []. rewrite app_nil_r. simpl. split; [done|lia].
  - simpl in Hfold. unfold run_scheduled at 2 in Hfold. simpl in Hfold.
    destruct (jobs !! i) as [args|]; [|by eapply IH].
    destruct (_applytfms args w) as [r w1] eqn:Hjob.
    apply applytfms_rewrites in Hjob as (imgs & more & -> & _ & _ & Hrw).
    apply run_scheduled_no_flag in Hfold as (evs & Htr & Hevs);
      [|apply lookup_delete_eq].
    exists (JobStarted (job_index args) :: more ++ evs).
    rewrite Htr. simpl. rewrite <- app_assoc. split; [done|].
    change (rewrites (JobStarted (job_index args) :: more ++ evs))
      with (rewrites (more ++ evs)).
    rewrite rewrites_app, Hevs, app_nil_r.
    destruct Hrw as [->|[-> _]]; simpl; lia.
Qed.

End worker_facts.

(** ** More on the run *)

Section run_facts.
Context {V : Type} `{FileNaming} `{Executor.AntsApply V}.
Import Executor.

Lemma run_jobs_one_rewrite nt sched jobs (w : world V) r w' :
  run_jobs nt sched jobs w = (r, w') ->
  exists evs, trace w' = trace w ++ evs /\ length (rewrites evs) <= 1
    /\ (nt = Some 1%Z -> forall p, p ∈ rewrites evs ->
          exists args, head jobs = Some args /\ p = job_out_file args).
Proof.
  unfold run_jobs. destruct (decide (nt = Some 1%Z)) as [_|Hnt].
  - intros Hrun. apply for_each_jobs_one_rewrite in Hrun as (evs & Htr & Hrw).
    exists evs. split; [done|].
    destruct Hrw as [->|(args & Hhead & ->)].
    + split; [simpl; lia|]. intros _ p Hp. by apply elem_of_nil in Hp.
    + split; [simpl; lia|]. intros _ p Hp%list_elem_of_singleton. by exists args.
  - unfold bind, log_event, modify, pool_map. simpl.
    destruct (foldl _ _ sched) as [futs w1] eqn:Hfold. intros Hgather.
    apply run_scheduled_one_rewrite in Hfold as (evs & Htr & Hrw). simpl in Htr.
    apply gather_futures in Hgather as (-> & _).
    exists (PoolCreated nt :: evs). rewrite Htr, <- app_assoc. done.
Qed.

(** X5: however many volumes a run has and whatever [copy_dtype] says, it
    rewrites at most one output file; when it runs sequentially that is
    the output of volume 0.  The jobs share one dictionary, and the first
    of them takes [copy_dtype] out of it. *)
Theorem copy_dtype_reaches_one_volume inp cwd tmp_name sched (w : world V) r w' :
  _run_interface inp cwd tmp_name sched w = (r, w') ->
  exists evs, trace w' = trace w ++ evs
    /\ length (rewrites evs) <= 1
    /\ (num_threads inp = 1%Z -> forall p, p ∈ rewrites evs ->
          exists in_file, head (input_image inp) = Some in_file
            /\ p = fname_presuffix in_file ("_xform-" +:+ Py.zpad 5 0) cwd).
Proof.
  destruct (decide (length (transforms inp) = length (input_image inp))) as [Hlen|Hlen].
  - rewrite run_interface_cases by done.
    destruct (run_jobs _ _ _ _) as [r2 w2] eqn:Hjobs.
    apply run_jobs_one_rewrite in Hjobs as (evs & Htr & Hone & Hfirst).
    simpl in Htr. intros Hrun.
    assert (trace w' = trace w2) as -> by (destruct r2; by simplify_eq).
    exists evs. split; [done|]. split; [done|].
    intros Hnt p Hp. destruct (Hfirst ltac:(by rewrite Hnt) p Hp) as (args & Hhead & ->).
    unfold make_jobs in Hhead.
    destruct (input_image inp) as [|f fs], (transforms inp) as [|x xs]; try done.
    simpl in Hhead. injection Hhead as <-. by exists f.
  - unfold _run_interface, TemporaryDirectory, set_dirs, set_ifargs. run_monad.
    rewrite decide_True by done. intros [= _ <-]. simpl.
    exists []. rewrite app_nil_r. split; [done|]. split; [simpl; lia|].
    intros _ p Hp. by apply elem_of_nil in Hp.
Qed.

(** X6: the temporary directory is gone after a run exactly when the run
    returned. *)
Theorem tmp_dir_removed_iff_returned inp cwd tmp_name sched (w : world V) r w' :
  _run_interface inp cwd tmp_name sched w = (r, w') ->
  tmp_name ∉ dirs w' <-> is_ok r.
Proof.
  intros Hrun. destruct r as [outs|e].
  - split; [by eexists|]. intros _. by eapply tmp_dir_removed_on_success.
  - split; [|by intros [? ?]]. intros Hgone. destruct Hgone.
    by eapply tmp_dir_kept_on_failure.
Qed.

(** X7: when the transforms are not as many as the volumes the run raises
    [AssertionError] before it starts a job or creates a pool; by then it
    has made its temporary directory, which stays. *)
Theorem length_mismatch_raises_before_any_job inp cwd tmp_name sched (w : world V) :
  length (transforms inp) <> length (input_image inp) ->
  _run_interface inp cwd tmp_name sched w =
    (Raise AssertionError,
     World (images w) (texts w) ({[tmp_name]} ∪ dirs w) (initial_ifargs inp) (trace w)).
Proof.
  intros Hlen. unfold _run_interface, TemporaryDirectory, set_dirs, set_ifargs.
  run_monad. by rewrite decide_True.
Qed.

End run_facts.

(** ** More on the arrangement *)

Section arrangement_facts.
Context `{FileNaming}.
Import Arrange.

(** The files an arrangement finds are still there when it ends, whether
    it returns or raises: it only writes. *)
Lemma for_each_keeps {St A B} (R : St -> St -> Prop) (f : A -> M St B) :
  (forall s, R s s) -> (forall s1 s2 s3, R s1 s2 -> R s2 s3 -> R s1 s3) ->
  (forall x s r s', f x s = (r, s') -> R s s') ->
  forall l s r s', for_each f l s = (r, s') -> R s s'.
Proof.
  intros Hrefl Htrans Hf. induction l as [|x l IH]; intros s r s'; simpl.
  - unfold ret. intros [= _ <-]. apply Hrefl.
  - unfold bind. destruct (f x s) as [[y|e] s1] eqn:Hx.
    + destruct (for_each f l s1) as [[ys|e] s2] eqn:Hl; unfold ret;
        intros [= _ <-]; eapply Htrans; eauto.
    + intros [= _ <-]. eauto.
Qed.

Lemma arrange_source_keeps_files num_files tmp_folder i tf_file
    (fs : gmap string string) r fs' :
  arrange_source num_files tmp_folder i tf_file fs = (r, fs') -> files_kept fs fs'.
Proof.
  unfold arrange_source.
  destruct (decide _); [unfold ret; intros [= _ <-]; by intros ? ?|].
  unfold bind, read_text. destruct (fs !! tf_file) as [raw|]; [|intros [= _ <-]; by intros ? ?].
  destruct (is_itk _); simpl; [|unfold ret; intros [= _ <-]; by intros ? ?].
  destruct (decide (count_xforms _ = 1)); [unfold ret; intros [= _ <-]; by intros ? ?|].
  destruct (decide (Z.of_nat _ <> num_files)); [unfold raise; intros [= _ <-]; by intros ? ?|].
  apply (for_each_keeps files_kept); [by intros ? ? ?|unfold files_kept; by eauto|].
  intros x s r' s'. unfold split_xform.
  destruct (extract_block _ x); [|unfold raise; intros [= _ <-]; by intros ? ?].
  unfold bind, lift.
  destruct (str_format _ x) as [xfm_file|e]; [|intros [= _ <-]; by intros ? ?].
  unfold write_text, modify, ret. intros [= _ <-] path Hpath.
  destruct (decide (xfm_file = path)) as [->|Hne].
  - rewrite lookup_insert_eq. by eexists.
  - by rewrite lookup_insert_ne.
Qed.

(** X11: whether it returns or raises, the arrangement removes no file and
    no file that was there becomes unreadable: it only adds the files of
    the blocks it splits off. *)
Theorem arrange_keeps_files transforms num_files tmp_folder
    (fs : gmap string string) r fs' :
  _arrange_xfms transforms num_files tmp_folder fs = (r, fs') ->
  forall path, is_Some (fs !! path) -> is_Some (fs' !! path).
Proof.
  unfold _arrange_xfms, bind.
  destruct (arrange_loop _ _ _ _ _ _) as [r1 fs1] eqn:Hloop. intros Hret.
  assert (fs' = fs1) as -> by (destruct r1; unfold ret in Hret; by simplify_eq).
  clear Hret. revert Hloop. generalize 0 at 1. generalize (@nil (list string)).
  revert fs r1. induction transforms as [|tf rest IH]; intros fs r1 acc i; simpl.
  - unfold ret. by intros [= _ <-].
  - unfold bind.
    destruct (arrange_source _ _ _ _ _) as [[row|e] fs2] eqn:Hsrc.
    + intros Hrest path Hpath. eapply IH; [exact Hrest|].
      by eapply arrange_source_keeps_files.
    + intros [= _ <-]. by eapply arrange_source_keeps_files.
Qed.

(** X12: a text source that cannot be read ends the arrangement with
    [FileNotFoundError] for its path, with the files as they were when
    the loop reached it. *)
Theorem missing_text_source_raises before tf_file after num_files tmp_folder
    (fs : gmap string string) rows fs1 :
  arrange_loop num_files tmp_folder 0 before [] fs = (Ok rows, fs1) ->
  guess_type tf_file = Some "text/plain" ->
  fs1 !! tf_file = None ->
  _arrange_xfms (before ++ tf_file :: after) num_files tmp_folder fs =
    (Raise (FileNotFoundError tf_file), fs1).
Proof.
  intros Hbefore Hkind Hraw.
  unfold _arrange_xfms, bind. rewrite arrange_loop_app, Hbefore. simpl.
  unfold bind, arrange_source. rewrite decide_False by (by intros ?).
  unfold bind, read_text. by rewrite Hraw.
Qed.

(** X13: for no volumes, or a negative number of them, a chain of constant
    sources is arranged into the empty list. *)
Theorem constant_sources_for_no_volume transforms num_files tmp_folder
    (fs : gmap string string) :
  Forall (constant_case fs) transforms ->
  (num_files <= 0)%Z ->
  _arrange_xfms transforms num_files tmp_folder fs = (Ok [], fs).
Proof.
  intros Hall HN. unfold _arrange_xfms, bind.
  rewrite arrange_loop_constant by done. unfold ret. simpl.
  unfold Py.times. replace (Z.to_nat num_files) with 0 by lia.
  destruct transforms as [|tf rest]; [done|].
  by rewrite (zip_star_replicate 0 (tf :: rest)).
Qed.

End arrangement_facts.

(** ** The arrangement as a transposition *)

Section transposition_facts.
Context `{FileNaming}.
Import Arrange.

Lemma zip_star_lookup {A} n (rows : list (list A)) i :
  rows <> [] -> Forall (fun row => length row = n) rows -> i < n ->
  Py.zip_star rows !! i = Some (omap (fun row : list A => row !! i) rows).
Proof.
  intros Hne Hrows Hi. destruct rows as [|r rs]; [done|].
  unfold Py.zip_star. apply Forall_cons in Hrows as Hrr. destruct Hrr as [Hr Hrs].
  rewrite (min_of_equal_lengths n) by done.
  rewrite list_lookup_fmap. by rewrite (proj2 (lookup_seq 0 n i i)).
Qed.

Lemma column_lookup {A} n (rows : list (list A)) i j :
  Forall (fun row => length row = n) rows -> i < n ->
  omap (fun row : list A => row !! i) rows !! j = rows !! j ≫= (fun row => row !! i).
Proof.
  intros Hrows Hi. revert j. induction Hrows as [|row rows Hrow _ IH]; intros j; [done|].
  cbn [omap list_omap]. destruct (lookup_lt_is_Some_2 row i) as [x Hx]; [lia|].
  rewrite Hx. destruct j as [|j]; simpl; [done|]. apply IH.
Qed.

(** The rows the loop adds are the rows of the sources, in their order;
    a source that is no text file gives the row that repeats it. *)
Lemma arrange_loop_field_row num_files tmp_folder :
  forall chain i acc (fs : gmap string string) rows fs' j tf_file,
  arrange_loop num_files tmp_folder i chain acc fs = (Ok rows, fs') ->
  chain !! j = Some tf_file ->
  guess_type tf_file <> Some "text/plain" ->
  rows !! (length acc + j) = Some (Py.times tf_file num_files).
Proof.
  induction chain as [|tf chain IH]; intros i acc fs rows fs' j tf_file; [done|].
  simpl. unfold bind.
  destruct (arrange_source _ _ _ _ _) as [[row|e] fs1] eqn:Hsrc; [|done].
  intros Hloop Hj Hkind. destruct j as [|j]; simpl in Hj.
  - injection Hj as ->. unfold arrange_source in Hsrc.
    rewrite decide_True in Hsrc by done. unfold ret in Hsrc. injection Hsrc as <- <-.
    assert (exists tl, rows = (acc ++ [Py.times tf_file num_files]) ++ tl) as [tl ->].
    { clear -Hloop. revert Hloop. generalize (S i) fs.
      generalize (acc ++ [Py.times tf_file num_files]).
      induction chain as [|tf chain IH]; intros acc' i' fs0; simpl.
      - unfold ret. intros [= <- _]. exists []. by rewrite app_nil_r.
      - unfold bind. destruct (arrange_source _ _ _ _ _) as [[row|e] fs1]; [|done].
        intros (tl & ->)%IH. exists (row :: tl). by rewrite <- app_assoc. }
    rewrite <- app_assoc. rewrite lookup_app_r by lia.
    by replace (length acc + 0 - length acc) with 0 by lia.
  - specialize (IH _ _ _ _ _ j tf_file Hloop Hj Hkind).
    rewrite length_app in IH. simpl in IH.
    by replace (length acc + S j) with (length acc + 1 + j) by lia.
Qed.

(** X14: in every list of a successful arrangement, a source that is no text
    file (a deformation field, say) stands at its own position in the
    chain, whatever the other sources are. *)
Theorem field_keeps_its_position transforms num_files tmp_folder
    (fs : gmap string string) result fs' j tf_file assignment :
  _arrange_xfms transforms num_files tmp_folder fs = (Ok result, fs') ->
  transforms !! j = Some tf_file ->
  guess_type tf_file <> Some "text/plain" ->
  assignment ∈ result ->
  assignment !! j = Some tf_file.
Proof.
  unfold _arrange_xfms, bind.
  destruct (arrange_loop _ _ _ _ _ _) as [[rows|e] fs1] eqn:Hloop; [|done].
  unfold ret. intros [= <- _] Hj Hkind Hin.
  pose proof (arrange_loop_field_row _ _ _ _ _ _ _ _ _ _ Hloop Hj Hkind) as Hrow.
  simpl in Hrow.
  apply arrange_loop_rows in Hloop as [Hrows Hlen]; [|done].
  assert (rows <> []) as Hne by (intros ->; done).
  apply list_elem_of_lookup in Hin as [i Hi].
  destruct (zip_star_rectangle (Z.to_nat num_files) rows Hne Hrows) as [Hn _].
  assert (i < Z.to_nat num_files) as Hlt.
  { rewrite <- Hn. by eapply lookup_lt_Some. }
  rewrite (zip_star_lookup (Z.to_nat num_files)) in Hi by done.
  injection Hi as <-.
  rewrite (column_lookup (Z.to_nat num_files)) by done.
  rewrite Hrow. simpl. by apply lookup_replicate_2.
Qed.

(** X15: a chain of sources that are no text files, followed by a
    well-formed container of as many blocks as volumes, for which the
    names of the output files can be formatted: volume [i] gets the
    chain's sources in their order and then the file written for
    block [i]. *)
Theorem fields_then_container fields tf_file tmp_folder (fs : gmap string string)
    version blocks trailer out_base :
  Forall (fun f => guess_type f <> Some "text/plain") fields ->
  guess_type tf_file = Some "text/plain" ->
  fs !! tf_file = Some (container_text version blocks trailer) ->
  1 < length blocks ->
  well_formed_container version blocks trailer = true ->
  (forall i, i < length blocks ->
     str_format (fname_presuffix tf_file
                   ("_pos-" +:+ Py.zpad 3 (length fields) +:+ "_xfm-{:05d}")
                   tmp_folder) i = Ok (out_base i)) ->
  _arrange_xfms (fields ++ [tf_file]) (Z.of_nat (length blocks)) tmp_folder fs
    = (Ok ((fun i => fields ++ [out_base i]) <$> seq 0 (length blocks)),
       written out_base (as_read blocks) fs).
Proof.
  intros Hfields Hkind Hfile Hmany Hwfc Hnames.
  unfold _arrange_xfms, bind. rewrite arrange_loop_app.
  rewrite arrange_loop_constant
    by (eapply Forall_impl; [exact Hfields|]; intros f Hf; by left).
  simpl. unfold bind.
  rewrite (arrange_source_container (length fields) tf_file tmp_folder fs
             version blocks trailer out_base) by done.
  unfold ret. f_equal. f_equal.
  set (n := length blocks). set (row := out_base <$> seq 0 n).
  set (rows := ((fun tf => Py.times tf (Z.of_nat n)) <$> fields) ++ [row]).
  assert (Forall (fun r => length r = n) rows) as Hrows.
  { apply Forall_app. split.
    - apply Forall_fmap, Forall_forall. intros f _. unfold Py.times. simpl.
      rewrite length_replicate. lia.
    - constructor; [|done]. unfold row. by rewrite length_fmap, length_seq. }
  assert (rows <> []) as Hne by (unfold rows; by destruct fields).
  destruct (zip_star_rectangle n rows Hne Hrows) as [Hlen _].
  apply list_eq. intros i. rewrite list_lookup_fmap.
  destruct (decide (i < n)) as [Hi|Hi].
  - rewrite (zip_star_lookup n) by done.
    rewrite (proj2 (lookup_seq 0 n i i)) by done. simpl. f_equal.
    unfold rows. rewrite omap_app. unfold Py.times.
    rewrite Nat2Z.id, omap_lookup_replicate by done.
    cbn [omap list_omap]. unfold row. rewrite list_lookup_fmap.
    by rewrite (proj2 (lookup_seq 0 n i i)).
  - rewrite (proj2 (lookup_ge_None _ i)) by lia.
    by rewrite (proj2 (lookup_ge_None (seq 0 n) i)) by (rewrite length_seq; lia).
Qed.

End transposition_facts.

(** ** A container with a marker missing *)

Section missing_marker_facts.
Context `{FileNaming}.
Import Arrange.

(** The inner loop when round [i] is the first to raise. *)
Lemma split_loop_stops tfdata template out_base i rest err :
  (forall fs : gmap string string, split_xform tfdata template i fs = (Raise err, fs)) ->
  forall len a (fs : gmap string string),
    a + len = i ->
    (forall j, a <= j < i -> is_Some (extract_block tfdata j)) ->
    (forall j, a <= j < i -> template j = Ok (out_base j)) ->
    for_each (split_xform tfdata template) (seq a (len + S rest)) fs
    = (Raise err,
       foldl (fun acc j =>
                <[out_base j := standalone (default [] (extract_block tfdata j))]> acc)
             fs (seq a len)).
Proof.
  intros Hstop. induction len as [|len IH]; intros a fs Ha Hsome Hnames.
  - simpl. unfold bind. replace a with i by lia. by rewrite Hstop.
  - destruct (Hsome a ltac:(lia)) as [block Hblock].
    simpl. unfold bind at 1. unfold split_xform at 1. rewrite Hblock.
    rewrite Hnames by lia.
    unfold bind, lift, write_text, modify, ret. simpl.
    rewrite IH; [done|lia| |]; intros j Hj; [apply Hsome|apply Hnames]; lia.
Qed.

Lemma split_source_stops tf_file num_files tmp_folder (fs : gmap string string)
    raw i out_base err :
  guess_type tf_file = Some "text/plain" ->
  fs !! tf_file = Some raw ->
  is_itk (Py.strip raw) = true ->
  count_xforms (Py.strip raw) <> 1 ->
  Z.of_nat (count_xforms (Py.strip raw)) = num_files ->
  i < count_xforms (Py.strip raw) ->
  let template :=
    str_format (fname_presuffix tf_file ("_pos-" +:+ Py.zpad 3 0 +:+ "_xfm-{:05d}")
                  tmp_folder) in
  (forall j, j < i -> is_Some (extract_block (body_lines (Py.strip raw)) j)) ->
  (forall j, j < i -> template j = Ok (out_base j)) ->
  (forall fs' : gmap string string,
     split_xform (body_lines (Py.strip raw)) template i fs' = (Raise err, fs')) ->
  _arrange_xfms [tf_file] num_files tmp_folder fs
    = (Raise err,
       foldl (fun acc j =>
                <[out_base j := standalone
                    (default [] (extract_block (body_lines (Py.strip raw)) j))]> acc)
             fs (seq 0 i)).
Proof.
  intros Hkind Hraw Hitk Hone Hcount Hi template Hsome Hnames Hstop.
  unfold _arrange_xfms, bind. simpl. unfold bind, arrange_source.
  rewrite decide_False by (by intros ?).
  unfold bind, read_text. rewrite Hraw, Hitk. simpl.
  rewrite decide_False by done. rewrite decide_False by (by intros ?).
  fold template.
  replace (count_xforms (Py.strip raw))
    with (i + S (count_xforms (Py.strip raw) - S i)) at 1 by lia.
  rewrite (split_loop_stops _ template out_base i _ err Hstop i 0 fs); [done|lia| |];
    intros j Hj; [apply Hsome|apply Hnames]; lia.
Qed.

(** X16: an ITK file with as many markers as volumes in which no line is
    the marker of block [i], while the blocks before [i] are found and
    the names of their files can be formatted: the arrangement raises
    [ValueError] for that marker, and the files of the blocks before [i]
    have been written and stay. *)
Theorem missing_marker_leaves_files tf_file num_files tmp_folder
    (fs : gmap string string) raw i out_base :
  guess_type tf_file = Some "text/plain" ->
  fs !! tf_file = Some raw ->
  is_itk (Py.strip raw) = true ->
  count_xforms (Py.strip raw) <> 1 ->
  Z.of_nat (count_xforms (Py.strip raw)) = num_files ->
  i < count_xforms (Py.strip raw) ->
  (forall j, j < i -> is_Some (extract_block (body_lines (Py.strip raw)) j)) ->
  (forall j, j < i ->
     str_format (fname_presuffix tf_file ("_pos-" +:+ Py.zpad 3 0 +:+ "_xfm-{:05d}")
                   tmp_folder) j = Ok (out_base j)) ->
  extract_block (body_lines (Py.strip raw)) i = None ->
  _arrange_xfms [tf_file] num_files tmp_folder fs
    = (Raise (ValueError ("'" +:+ start_token i +:+ "' is not in list")),
       foldl (fun acc j =>
                <[out_base j := standalone
                    (default [] (extract_block (body_lines (Py.strip raw)) j))]> acc)
             fs (seq 0 i)).
Proof.
  intros Hkind Hraw Hitk Hone Hcount Hi Hsome Hnames Hnone.
  apply split_source_stops; try done.
  intros fs'. unfold split_xform. by rewrite Hnone.
Qed.

(** X20: an ITK file with as many markers as volumes, whose blocks up to
    [i] are found, while the name of the file for block [i] is the first
    that cannot be formatted (the path holds a brace, say): the
    arrangement raises the error of [str.format], and the files of the
    blocks before [i] have been written and stay. *)
Theorem unformattable_name_raises tf_file num_files tmp_folder
    (fs : gmap string string) raw i out_base err :
  guess_type tf_file = Some "text/plain" ->
  fs !! tf_file = Some raw ->
  is_itk (Py.strip raw) = true ->
  count_xforms (Py.strip raw) <> 1 ->
  Z.of_nat (count_xforms (Py.strip raw)) = num_files ->
  i < count_xforms (Py.strip raw) ->
  (forall j, j <= i -> is_Some (extract_block (body_lines (Py.strip raw)) j)) ->
  (forall j, j < i ->
     str_format (fname_presuffix tf_file ("_pos-" +:+ Py.zpad 3 0 +:+ "_xfm-{:05d}")
                   tmp_folder) j = Ok (out_base j)) ->
  str_format (fname_presuffix tf_file ("_pos-" +:+ Py.zpad 3 0 +:+ "_xfm-{:05d}")
                tmp_folder) i = Raise err ->
  _arrange_xfms [tf_file] num_files tmp_folder fs
    = (Raise err,
       foldl (fun acc j =>
                <[out_base j := standalone
                    (default [] (extract_block (body_lines (Py.strip raw)) j))]> acc)
             fs (seq 0 i)).
Proof.
  intros Hkind Hraw Hitk Hone Hcount Hi Hsome Hnames Hfail.
  apply split_source_stops; try done.
  - intros j Hj. apply Hsome. lia.
  - intros fs'. unfold split_xform.
    destruct (Hsome i (le_n i)) as [block ->]. unfold bind, lift. by rewrite Hfail.
Qed.

End missing_marker_facts.

(** ** More on the rotation matrix *)

Section matrix_facts.
Context {F : Type} `{Rotation.TransformInfo F}.
Import Rotation.

Lemma length_append (a b : string) :
  String.length (a +:+ b) = String.length a + String.length b.
Proof. induction a as [|c a IH]; [done|]. rewrite append_cons. simpl. by rewrite IH. Qed.

Lemma parse_rows_error lines e :
  parse_rows lines = Raise e -> e = ValueError "could not convert string to float".
Proof.
  induction lines as [|l lines IH]; [done|]. simpl. unfold parse_row.
  destruct (mapM float (Py.split_ws l)); [|by intros [= <-]].
  destruct (parse_rows lines); [done|]. intros [= <-]. by apply IH.
Qed.

Lemma parse_rows_length lines rows :
  parse_rows lines = Ok rows -> length rows = length lines.
Proof.
  revert rows. induction lines as [|l lines IH]; intros rows; simpl.
  - by intros [= <-].
  - destruct (parse_row l); [|done]. destruct (parse_rows lines) as [rs|]; [|done].
    intros [= <-]. simpl. f_equal. by apply IH.
Qed.

Lemma np_array_ok (rows m : list (list F)) :
  np_array rows = Ok m -> m = rows /\ exists n, Forall (fun r => length r = n) rows.
Proof.
  unfold np_array. destruct rows as [|row rest]; [intros [= <-]; split; [done|by exists 0]|].
  destruct (forallb _ rest) eqn:Hall; [|done]. intros [= <-]. split; [done|].
  exists (length row). constructor; [done|].
  apply Forall_forall. intros r Hr.
  rewrite forallb_forall in Hall. apply Nat.eqb_eq, Hall. by apply list_elem_of_In.
Qed.

Lemma np_array_error (rows : list (list F)) e :
  np_array rows = Raise e -> exists msg, e = ValueError (msg +:+ "inhomogeneous part.").
Proof.
  unfold np_array. destruct rows as [|row rest]; [done|].
  destruct (forallb _ rest); [done|]. intros [= <-].
  exists ("setting an array element with a sequence. The requested array has an "
          +:+ "inhomogeneous shape after 1 dimensions. The detected shape was ("
          +:+ pretty (length (row :: rest)) +:+ ",) + ").
  f_equal. rewrite !append_assoc. reflexivity.
Qed.

(** X17: the error for a tool that printed nothing is never raised: the text
    the function tests is [str] of a [bytes] object, which holds at least
    the letter b and two quotes. *)
Theorem no_output_error_never_raised transform :
  rotation_matrix_from_transform transform
  <> Raise (ValueError (transform +:+ " returned no transform info")).
Proof.
  unfold rotation_matrix_from_transform.
  destruct (info_stdout _) as [out|]; [|done].
  unfold matrix_from_output.
  change (String.length (Py.bytes_repr out) =? 0) with false. cbv iota.
  destruct (length (start_lines_of _) =? 0).
  { intros [= Heq]. apply (f_equal String.length) in Heq.
    rewrite !length_append in Heq. simpl in Heq. lia. }
  destruct (1 <? length (start_lines_of _)).
  { intros [= Heq]. apply (f_equal String.length) in Heq.
    rewrite !length_append in Heq. simpl in Heq. lia. }
  destruct (start_lines_of _) as [|start_line rest]; [done|].
  destruct (parse_rows _) as [rows|e] eqn:Hparse.
  - intros (msg & [= Heq])%np_array_error.
    apply (f_equal Py.last_char) in Heq.
    change (transform +:+ " returned no transform info")
      with (transform +:+ String " " "returned no transform info") in Heq.
    change (msg +:+ "inhomogeneous part.")
      with (msg +:+ String "i" "nhomogeneous part.") in Heq.
    rewrite !last_char_app_cons in Heq. done.
  - intros Heq. rewrite Heq in Hparse.
    apply parse_rows_error in Hparse. injection Hparse as Hparse.
    apply (f_equal Py.last_char) in Hparse.
    change (transform +:+ " returned no transform info")
      with (transform +:+ String " " "returned no transform info") in Hparse.
    rewrite last_char_app_cons in Hparse. done.
Qed.

(** *** The last line of [str(out)] *)

Lemma split_go_last q s :
  q <> "n"%char ->
  forall cur, exists pieces l,
    Py.split_go Py.BSLASH_N 0 cur (s +:+ String q EmptyString)
    = pieces ++ [l +:+ String q EmptyString].
Proof.
  intros Hq. remember (String.length s) as n eqn:Hn. revert s Hn.
  induction n as [n IH] using lt_wf_ind. intros s Hn cur.
  destruct s as [|a s].
  - exists [], cur. change (EmptyString +:+ String q EmptyString) with (String q EmptyString).
    simpl. by destruct (decide ("\"%char = q)).
  - rewrite append_cons.
    destruct (Py.startswith Py.BSLASH_N (String a (s +:+ String q EmptyString))) eqn:Hsep.
    + unfold Py.BSLASH_N in Hsep. simpl in Hsep.
      destruct (decide ("\"%char = a)) as [<-|]; [|done].
      destruct s as [|b s]; [simpl in Hsep; by destruct (decide ("n"%char = q))|].
      rewrite append_cons in Hsep. simpl in Hsep.
      destruct (decide ("n"%char = b)) as [<-|]; [|done].
      destruct (IH (String.length s) ltac:(simpl in Hn; lia) s eq_refl EmptyString)
        as (pieces & l & Hrest).
      exists (cur :: pieces), l.
      change (String "\" (String "n" s +:+ String q EmptyString))
        with (Py.BSLASH_N +:+ (s +:+ String q EmptyString)).
      unfold Py.BSLASH_N. rewrite split_go_hit. fold Py.BSLASH_N. by rewrite Hrest.
    + destruct (IH (String.length s) ltac:(simpl in Hn; lia) s eq_refl
                  (cur +:+ String a EmptyString)) as (pieces & l & Hrest).
      exists pieces, l. rewrite <- Hrest.
      change (Py.split_go Py.BSLASH_N 0 cur (String a (s +:+ String q EmptyString)))
        with (if Py.startswith Py.BSLASH_N (String a (s +:+ String q EmptyString))
              then cur :: Py.split_go Py.BSLASH_N (String.length Py.BSLASH_N - 1)
                            EmptyString (s +:+ String q EmptyString)
              else Py.split_go Py.BSLASH_N 0 (cur +:+ String a EmptyString)
                     (s +:+ String q EmptyString)).
      by rewrite Hsep.
Qed.

Lemma repr_quote_cases out :
  Py.repr_quote out = "'"%char \/ Py.repr_quote out = Py.dquote.
Proof. unfold Py.repr_quote. destruct (_ && _); auto. Qed.

(** The last line that the code sees ends with the closing quote. *)
Lemma last_line_ends_with_quote out :
  exists front last_line,
    Py.strip <$> Py.split Py.BSLASH_N (Py.bytes_repr out) = front ++ [last_line]
    /\ Py.last_char last_line = Some (Py.repr_quote out).
Proof.
  unfold Py.bytes_repr, Py.split. cbv zeta.
  set (q := Py.repr_quote out).
  assert (q <> "n"%char /\ Py.isspace q = false) as [Hq Hspace].
  { unfold q. by destruct (repr_quote_cases out) as [->| ->]. }
  change (String "b" (String q (Py.repr_body q out +:+ String q EmptyString)))
    with (String "b" (String q (Py.repr_body q out)) +:+ String q EmptyString).
  destruct (split_go_last q (String "b" (String q (Py.repr_body q out))) Hq EmptyString)
    as (pieces & l & ->).
  exists (Py.strip <$> pieces), (Py.strip (l +:+ String q EmptyString)).
  split; [by rewrite fmap_app|]. by apply strip_keeps_end.
Qed.

Lemma split_ws_go_last q s :
  Py.isspace q = false -> Py.last_char s = Some q ->
  forall cur, exists tokens token,
    Py.split_ws_go cur s = tokens ++ [token] /\ Py.mem q token = true.
Proof.
  intros Hq. induction s as [|c s IH]; [done|]. intros Hlast cur.
  destruct s as [|d s].
  - injection Hlast as ->. simpl. rewrite Hq.
    exists [], (cur +:+ String q EmptyString). split.
    + by destruct cur.
    + rewrite mem_app. simpl. rewrite decide_True by done. apply orb_true_r.
  - change (Py.last_char (String c (String d s))) with (Py.last_char (String d s)) in Hlast.
    change (Py.split_ws_go cur (String c (String d s)))
      with (if Py.isspace c
            then match cur with
                 | EmptyString => Py.split_ws_go EmptyString (String d s)
                 | _ => cur :: Py.split_ws_go EmptyString (String d s)
                 end
            else Py.split_ws_go (cur +:+ String c EmptyString) (String d s)).
    destruct (Py.isspace c).
    + destruct (IH Hlast EmptyString) as (tokens & token & -> & Hmem).
      destruct cur; [by exists tokens, token|].
      by eexists (_ :: tokens), token.
    + apply (IH Hlast).
Qed.

Lemma parse_rows_all lines rows :
  parse_rows lines = Ok rows ->
  Forall (fun l => is_Some (mapM float (Py.split_ws l))) lines.
Proof.
  revert rows. induction lines as [|l lines IH]; intros rows; [done|]. simpl.
  unfold parse_row. destruct (mapM float (Py.split_ws l)) eqn:Hl; [|done].
  destruct (parse_rows lines) as [rs|]; [|done]. intros _.
  constructor; [done|]. by eapply IH.
Qed.

(** A line that ends with a quote is no row of floats, as [float] takes
    no token with a quote in it. *)
Lemma quoted_line_is_no_row q l :
  (forall token, is_Some (float token) -> Py.mem q token = false) ->
  Py.isspace q = false -> Py.last_char l = Some q ->
  mapM float (Py.split_ws l) = None.
Proof.
  intros Hfloat Hq Hlast.
  destruct (split_ws_go_last q l Hq Hlast EmptyString) as (tokens & token & Htok & Hmem).
  unfold Py.split_ws. rewrite Htok. apply mapM_None_2, Exists_app. right.
  constructor. destruct (float token) eqn:Hf; [|done].
  rewrite Hfloat in Hmem by done. done.
Qed.

Lemma start_lines_from_lookup n lines s :
  s ∈ start_lines_from n lines -> n <= s /\ lines !! (s - n) = Some "Matrix:".
Proof.
  revert n. induction lines as [|l lines IH]; intros n; simpl.
  - by intros ?%elem_of_nil.
  - assert (s ∈ start_lines_from (S n) lines ->
            n <= s /\ (l :: lines) !! (s - n) = Some "Matrix:") as Hrest.
    { intros [Hle Hs]%IH. split; [lia|].
      by replace (s - n) with (S (s - S n)) by lia. }
    destruct (decide (l = "Matrix:")) as [->|]; [|done].
    intros [->|?]%elem_of_cons; [|auto]. split; [done|]. by rewrite Nat.sub_diag.
Qed.

(** X18: a matrix that is returned has three rows, all of one length.
    [float] takes no token with a quote in it; the last line of
    [str(out)] ends with the closing quote, so it is neither the marker
    nor a row, and a marker with fewer than three lines between it and
    the last line gives an error and no shorter matrix.  Nothing makes
    sure that the rows hold three numbers. *)
Theorem returned_matrix_has_three_rows transform (rows : list (list F)) :
  (forall token, is_Some (float token) ->
     Py.mem "'" token = false /\ Py.mem Py.dquote token = false) ->
  rotation_matrix_from_transform transform = Ok rows ->
  length rows = 3 /\ exists n, Forall (fun row => length row = n) rows.
Proof.
  intros Hfloat. unfold rotation_matrix_from_transform.
  destruct (info_stdout _) as [out|]; [|done].
  unfold matrix_from_output.
  destruct (String.length _ =? 0); [done|].
  destruct (length (start_lines_of _) =? 0); [done|].
  destruct (1 <? length (start_lines_of _)); [done|].
  destruct (start_lines_of _) as [|s rest] eqn:Hstart; [done|].
  destruct (parse_rows _) as [parsed|e] eqn:Hparse; [|done].
  intros [-> Hsame]%np_array_ok. split; [|done].
  destruct (last_line_ends_with_quote out) as (front & last_line & Hlines & Hlast).
  rewrite Hlines in Hparse, Hstart.
  assert (Py.isspace (Py.repr_quote out) = false
          /\ forall token, is_Some (float token) ->
               Py.mem (Py.repr_quote out) token = false) as [Hspace Hquote].
  { destruct (repr_quote_cases out) as [->| ->]; (split; [done|]);
      intros token Htoken; by destruct (Hfloat token Htoken). }
  pose proof (quoted_line_is_no_row _ _ Hquote Hspace Hlast) as Hno.
  assert (s ∈ start_lines_from 0 (front ++ [last_line])) as Hs.
  { unfold start_lines_of in Hstart. rewrite Hstart. by left. }
  apply start_lines_from_lookup in Hs as [_ Hs]. rewrite Nat.sub_0_r in Hs.
  assert (s < length front) as Hlt.
  { destruct (decide (s < length front)) as [|Hge]; [done|].
    rewrite lookup_app_r in Hs by lia.
    destruct (s - length front) as [|k]; [|done]. simpl in Hs. injection Hs as ->.
    destruct (repr_quote_cases out) as [Hq|Hq]; rewrite Hq in Hlast; done. }
  rewrite (parse_rows_length _ _ Hparse). unfold Py.slice.
  replace (s + 4 - (s + 1)) with 3 by lia.
  destruct (decide (s + 4 <= length front + 1)) as [Hroom|Hshort].
  - rewrite length_take, length_drop, length_app. cbn [length]. lia.
  - exfalso. apply parse_rows_all in Hparse.
    unfold Py.slice in Hparse. replace (s + 4 - (s + 1)) with 3 in Hparse by lia.
    rewrite drop_app_le in Hparse by lia.
    rewrite take_ge in Hparse by (rewrite length_app, length_drop; simpl; lia).
    apply Forall_app in Hparse as [_ Hparse].
    apply Forall_cons in Hparse as [[row Hrow] _]. by rewrite Hno in Hrow.
Qed.

End matrix_facts.

(** ** The composition of affines *)

Section compose_facts.
Context `{Compose.Shell}.
Import Compose.

(** X19: once the shell command has ended, whatever its exit status,
    [compose_affines] returns the output path exactly when that file
    exists, and fails its assertion otherwise; it leaves the files as the
    command left them. *)
Theorem compose_checks_output reference_image affine_list output_file files files' status :
  system (compose_cmd reference_image affine_list output_file) files = (files', status) ->
  let run := compose_affines reference_image affine_list output_file files in
  (run.1 = Ok output_file <-> output_file ∈ files')
  /\ (run.1 = Raise AssertionError <-> output_file ∉ files')
  /\ run.2 = files'.
Proof.
  intros Hcall run. unfold run, compose_affines. rewrite Hcall.
  destruct (decide (output_file ∈ files')) as [Hin|Hout].
  - rewrite (bool_decide_eq_true_2 _ Hin). simpl. by repeat split.
  - rewrite (bool_decide_eq_false_2 _ Hout). simpl. by repeat split.
Qed.

End compose_facts.

(** ** The worker and the run on the two volumes *)

Section worker_examples.
Import Executor.
#[local] Existing Instance Demo.naming.
#[local] Existing Instance Demo.ants.

Lemma applytfms_without_copy_dtype_witness :
  _applytfms ("a.nii", ["x.mat"], 0, "/cwd") Demo.disk =
    (Ok ("/cwd/a.nii_xform-00000",
         "antsApplyTransforms -i a.nii -o /cwd/a.nii_xform-00000 -t x.mat"),
     World (<["/cwd/a.nii_xform-00000" := Nifti "float64" 1]> (images Demo.disk))
           ∅ ∅ (delete "copy_dtype" ∅) ([] ++ [JobStarted 0])).
Proof.
  exact (applytfms_without_copy_dtype "a.nii" ["x.mat"] 0 "/cwd" Demo.disk
           (<["/cwd/a.nii_xform-00000" := Nifti "float64" 1]> (images Demo.disk))
           eq_refl eq_refl).
Defined.

Lemma applytfms_output_has_input_dtype_witness :
  exists nii src,
    images (_applytfms ("a.nii", ["x.mat"], 0, "/cwd") Demo.flagged).2
      !! "/cwd/a.nii_xform-00000" = Some nii
    /\ images (_applytfms ("a.nii", ["x.mat"], 0, "/cwd") Demo.flagged).2
         !! "a.nii" = Some src
    /\ data_dtype nii = data_dtype src.
Proof.
  assert (Hrun : _applytfms ("a.nii", ["x.mat"], 0, "/cwd") Demo.flagged =
            (Ok ("/cwd/a.nii_xform-00000",
                 "antsApplyTransforms -i a.nii -o /cwd/a.nii_xform-00000 -t x.mat"),
             (_applytfms ("a.nii", ["x.mat"], 0, "/cwd") Demo.flagged).2))
    by (vm_compute; reflexivity).
  exact (applytfms_output_has_input_dtype "a.nii" ["x.mat"] 0 "/cwd" Demo.flagged _ _
           eq_refl Hrun).
Defined.

Lemma applytfms_surfaces_tool_error_witness :
  _applytfms ("b.nii", ["corrupt.mat"], 1, "/cwd") Demo.flagged =
    (Raise (ToolError "cannot read corrupt.mat"),
     World (images Demo.disk) ∅ ∅ (delete "copy_dtype" (ifargs Demo.flagged))
           ([] ++ [JobStarted 1])).
Proof.
  apply (applytfms_surfaces_tool_error "b.nii" ["corrupt.mat"] 1 "/cwd" Demo.flagged).
  vm_compute. reflexivity.
Defined.

Lemma copy_dtype_reaches_one_volume_witness :
  exists evs,
    trace (_run_interface (Demo.two_volumes 1) "/cwd" "/cwd/tmp-1" [] Demo.disk).2 = [] ++ evs
    /\ length (rewrites evs) <= 1
    /\ (1%Z = 1%Z -> forall p, p ∈ rewrites evs ->
          exists in_file, head ["a.nii"; "b.nii"] = Some in_file
            /\ p = fname_presuffix in_file ("_xform-" +:+ Py.zpad 5 0) "/cwd").
Proof.
  apply (copy_dtype_reaches_one_volume (Demo.two_volumes 1) "/cwd" "/cwd/tmp-1" [] Demo.disk
           (_run_interface (Demo.two_volumes 1) "/cwd" "/cwd/tmp-1" [] Demo.disk).1).
  apply surjective_pairing.
Defined.

Lemma tmp_dir_removed_iff_returned_witness :
  "/cwd/tmp-1" ∉ dirs (_run_interface Demo.bad_transform "/cwd" "/cwd/tmp-1" [] Demo.disk).2
  <-> is_ok (_run_interface Demo.bad_transform "/cwd" "/cwd/tmp-1" [] Demo.disk).1.
Proof.
  apply (tmp_dir_removed_iff_returned Demo.bad_transform "/cwd" "/cwd/tmp-1" [] Demo.disk).
  apply surjective_pairing.
Defined.

Lemma length_mismatch_raises_before_any_job_witness :
  _run_interface Demo.uneven "/cwd" "/cwd/tmp-1" [] Demo.disk =
    (Raise AssertionError,
     World (images Demo.disk) ∅ ({["/cwd/tmp-1"]} ∪ ∅) (initial_ifargs Demo.uneven) []).
Proof.
  apply (length_mismatch_raises_before_any_job Demo.uneven "/cwd" "/cwd/tmp-1" [] Demo.disk).
  simpl. lia.
Defined.

End worker_examples.

(** ** The worker with a resampler that writes nothing *)

Section silent_examples.
Import Executor.
#[local] Existing Instance Demo.naming.
#[local] Existing Instance Demo.silent.

Lemma applytfms_missing_output_witness :
  (_applytfms ("a.nii", ["x.mat"], 0, "/cwd") Demo.flagged).1
  = Raise (FileNotFoundError "/cwd/a.nii_xform-00000").
Proof.
  exact (applytfms_missing_output "a.nii" ["x.mat"] 0 "/cwd" Demo.flagged
           (images Demo.disk) eq_refl eq_refl eq_refl).
Defined.

End silent_examples.

(** ** The arrangement on the sample files *)

Section arrangement_examples.
Import Arrange.
#[local] Existing Instance Demo.naming.

Lemma arrange_keeps_files_witness :
  is_Some ((_arrange_xfms ["warp.nii.gz"; "both.txt"] 2 "/tmp/x" Demo.texts).2
             !! "both.txt").
Proof.
  apply (arrange_keeps_files ["warp.nii.gz"; "both.txt"] 2 "/tmp/x" Demo.texts
           (_arrange_xfms ["warp.nii.gz"; "both.txt"] 2 "/tmp/x" Demo.texts).1).
  - apply surjective_pairing.
  - vm_compute. eexists. reflexivity.
Defined.

Lemma missing_text_source_raises_witness :
  _arrange_xfms (["warp.nii.gz"] ++ "absent.txt" :: ["one.txt"]) 2 "/tmp/x" Demo.texts =
    (Raise (FileNotFoundError "absent.txt"), Demo.texts).
Proof.
  apply (missing_text_source_raises ["warp.nii.gz"] "absent.txt" ["one.txt"] 2 "/tmp/x"
           Demo.texts [replicate 2 "warp.nii.gz"] Demo.texts).
  - reflexivity.
  - reflexivity.
  - vm_compute. reflexivity.
Defined.

Lemma constant_sources_for_no_volume_witness :
  _arrange_xfms ["warp.nii.gz"; "one.txt"] 0 "/tmp/x" Demo.texts = (Ok [], Demo.texts).
Proof.
  apply (constant_sources_for_no_volume ["warp.nii.gz"; "one.txt"] 0 "/tmp/x" Demo.texts).
  - apply Forall_cons. split; [left; vm_compute; discriminate|].
    apply Forall_cons. split; [|constructor].
    right. eexists. split; [reflexivity|]. right. vm_compute. reflexivity.
  - lia.
Defined.

Lemma field_keeps_its_position_witness :
  ["warp.nii.gz"; "/tmp/x/both.txt_pos-001_xfm-00001"] !! 0 = Some "warp.nii.gz".
Proof.
  apply (field_keeps_its_position ["warp.nii.gz"; "both.txt"] 2 "/tmp/x" Demo.texts
           [["warp.nii.gz"; "/tmp/x/both.txt_pos-001_xfm-00000"];
            ["warp.nii.gz"; "/tmp/x/both.txt_pos-001_xfm-00001"]]
           (_arrange_xfms ["warp.nii.gz"; "both.txt"] 2 "/tmp/x" Demo.texts).2).
  - vm_compute. reflexivity.
  - reflexivity.
  - vm_compute. discriminate.
  - apply elem_of_cons. right. apply elem_of_cons. by left.
Defined.

Lemma fields_then_container_witness :
  _arrange_xfms (["warp.nii.gz"] ++ ["both.txt"]) 2 "/tmp/x" Demo.texts =
    (Ok [["warp.nii.gz"; "/tmp/x/both.txt_pos-001_xfm-00000"];
         ["warp.nii.gz"; "/tmp/x/both.txt_pos-001_xfm-00001"]],
     written (fun i => "/tmp/x/both.txt_pos-001_xfm-" +:+ Py.zpad 5 i)
       Demo.blocks2 Demo.texts).
Proof.
  assert (Hfields : Forall (fun f => guess_type f <> Some "text/plain") ["warp.nii.gz"]).
  { repeat constructor. vm_compute. discriminate. }
  assert (Hnames : forall i, i < 2 ->
            str_format "/tmp/x/both.txt_pos-001_xfm-{:05d}" i
            = Ok ("/tmp/x/both.txt_pos-001_xfm-" +:+ Py.zpad 5 i)).
  { intros [|[|i]] Hi; [reflexivity|reflexivity|lia]. }
  exact (fields_then_container ["warp.nii.gz"] "both.txt" "/tmp/x" Demo.texts
           " V1.0" Demo.blocks2 Py.LF
           (fun i => "/tmp/x/both.txt_pos-001_xfm-" +:+ Py.zpad 5 i)
           Hfields eq_refl eq_refl (le_n 2) eq_refl Hnames).
Defined.

Lemma missing_marker_leaves_files_witness :
  _arrange_xfms ["gap.txt"] 2 "/tmp/x" Demo.gap_files =
    (Raise (ValueError "'#Transform 1' is not in list"),
     <["/tmp/x/gap.txt_pos-000_xfm-00000" :=
         Arrange.container_text " V1.0" (take 1 Demo.blocks2) Py.LF]> Demo.gap_files).
Proof.
  assert (Hfound : forall j, j < 1 ->
            is_Some (extract_block (body_lines (Py.strip Demo.gap_text)) j)).
  { intros j Hj. assert (j = 0) as -> by lia. vm_compute. eexists. reflexivity. }
  assert (Hnames : forall j, j < 1 ->
            str_format "/tmp/x/gap.txt_pos-000_xfm-{:05d}" j
            = Ok ("/tmp/x/gap.txt_pos-000_xfm-" +:+ Py.zpad 5 j)).
  { intros j Hj. assert (j = 0) as -> by lia. reflexivity. }
  assert (Hone : count_xforms (Py.strip Demo.gap_text) <> 1).
  { vm_compute. discriminate. }
  exact (missing_marker_leaves_files "gap.txt" 2 "/tmp/x" Demo.gap_files Demo.gap_text 1
           (fun j => "/tmp/x/gap.txt_pos-000_xfm-" +:+ Py.zpad 5 j)
           eq_refl eq_refl eq_refl Hone eq_refl (le_n 2) Hfound Hnames eq_refl).
Defined.

Lemma unformattable_name_raises_witness :
  _arrange_xfms ["set}.txt"] 2 "/tmp/x" Demo.brace_files =
    (Raise (ValueError "Single '}' encountered in format string"), Demo.brace_files).
Proof.
  assert (Hfound : forall j, j <= 0 ->
            is_Some (extract_block
                       (body_lines (Py.strip (container_text " V1.0" Demo.blocks2 Py.LF))) j)).
  { intros j Hj. assert (j = 0) as -> by lia. vm_compute. eexists. reflexivity. }
  assert (Hnames : forall j, j < 0 ->
            str_format "/tmp/x/set}.txt_pos-000_xfm-{:05d}" j = Ok EmptyString).
  { intros j Hj. lia. }
  assert (Hone : count_xforms (Py.strip (container_text " V1.0" Demo.blocks2 Py.LF)) <> 1).
  { vm_compute. discriminate. }
  exact (unformattable_name_raises "set}.txt" 2 "/tmp/x" Demo.brace_files
           (container_text " V1.0" Demo.blocks2 Py.LF) 0 (fun _ => EmptyString)
           (ValueError "Single '}' encountered in format string")
           eq_refl eq_refl eq_refl Hone eq_refl (Nat.lt_0_succ 1) Hfound Hnames eq_refl).
Defined.

End arrangement_examples.

(** ** The matrix reader and the composition on sample tools *)

Section more_tool_examples.
#[local] Existing Instance Demo.info.
#[local] Existing Instance Demo.shell.

Lemma returned_matrix_has_three_rows_witness :
  length [[1; 0; 0]; [0; 1; 0]; [0; 0; 1]]%Z = 3
  /\ exists n, Forall (fun row => length row = n) [[1; 0; 0]; [0; 1; 0]; [0; 0; 1]]%Z.
Proof.
  apply (returned_matrix_has_three_rows "affine.mat").
  - intros token [x Hx]. simpl in Hx.
    destruct (decide (token = "0")) as [->|]; [by split|].
    destruct (decide (token = "1")) as [->|]; [by split|]. discriminate Hx.
  - vm_compute. reflexivity.
Defined.

Lemma compose_checks_output_witness :
  let run := Compose.compose_affines "ref.nii" ["a.mat"; "b.mat"] "/cwd/composed.mat" ∅ in
  (run.1 = Ok "/cwd/composed.mat"
     <-> "/cwd/composed.mat" ∈ (∅ ∪ {[ "/cwd/composed.mat" ]} : gset string))
  /\ (run.1 = Raise AssertionError
        <-> "/cwd/composed.mat" ∉ (∅ ∪ {[ "/cwd/composed.mat" ]} : gset string))
  /\ run.2 = (∅ ∪ {[ "/cwd/composed.mat" ]} : gset string).
Proof.
  exact (compose_checks_output "ref.nii" ["a.mat"; "b.mat"] "/cwd/composed.mat" ∅ _ 1%Z
           eq_refl).
Defined.

End more_tool_examples.

(** ** The text files of a run *)

Section log_facts.
Context {V : Type} `{FileNaming} `{Executor.AntsApply V}.
Import Executor.

(** X10: a run that returns has written no text file but its log: a file
    outside the temporary directory, other than [command.txt] of the
    working directory, is as it was; and when [save_cmd] is off no log
    path is returned and [command.txt] is as it was, too. *)
Theorem run_writes_only_the_log inp cwd tmp_name sched (w : world V) outs w' :
  _run_interface inp cwd tmp_name sched w = (Ok outs, w') ->
  (forall path, outside tmp_name path = true ->
     path <> Py.path_join cwd "command.txt" \/ save_cmd inp = false ->
     texts w' !! path = texts w !! path)
  /\ (save_cmd inp = false -> log_cmdline outs = None).
Proof.
  destruct (decide (length (transforms inp) = length (input_image inp))) as [Hlen|Hlen];
    [|unfold _run_interface; run_monad; by rewrite decide_True].
  rewrite run_interface_cases by done.
  destruct (run_jobs _ _ _ _) as [[rs|e] w2] eqn:Hjobs; [|done].
  apply run_jobs_effect in Hjobs as ((Htexts & _) & _); [|apply make_jobs_indexed].
  simpl in Htexts. intros [= <- <-]. simpl. split.
  - intros path Hout Hother.
    assert (filter (fun kv : string * string => outside tmp_name kv.1 = true) (texts w2)
              !! path = texts w !! path) as Hkept.
    { rewrite Htexts. destruct (texts w !! path) as [text|] eqn:Hpath.
      - by apply map_lookup_filter_Some.
      - apply map_lookup_filter_None. left. done. }
    destruct (save_cmd inp); [|done].
    destruct Hother as [Hne|?]; [|done]. by rewrite lookup_insert_ne.
  - by intros ->.
Qed.

End log_facts.

Section log_examples.
Import Executor.
#[local] Existing Instance Demo.naming.
#[local] Existing Instance Demo.ants.

Lemma run_writes_only_the_log_witness :
  (forall path, outside "/cwd/tmp-1" path = true ->
     path <> Py.path_join "/cwd" "command.txt" \/ true = false ->
     texts (_run_interface (Demo.two_volumes 1) "/cwd" "/cwd/tmp-1" [] Demo.disk).2 !! path
     = texts Demo.disk !! path)
  /\ (true = false -> Some "/cwd/command.txt" = None).
Proof.
  assert (Hrun : _run_interface (Demo.two_volumes 1) "/cwd" "/cwd/tmp-1" [] Demo.disk =
            (Ok (Outputs ["/cwd/a.nii_xform-00000"; "/cwd/b.nii_xform-00001"]
                         (Some "/cwd/command.txt")),
             (_run_interface (Demo.two_volumes 1) "/cwd" "/cwd/tmp-1" [] Demo.disk).2))
    by (vm_compute; reflexivity).
  exact (run_writes_only_the_log (Demo.two_volumes 1) "/cwd" "/cwd/tmp-1" [] Demo.disk _ _
           Hrun).
Defined.

End log_examples.
